(** * Command execution gateway of AutoPentest: a verification development

    The development embeds, function by function, the parts of the backend
    that mediate command execution:

    - [backend/mcp/modules/mcp_classes.py]: [_classify_error],
      [_run_command], [discover_containers];
    - [backend/api/commands.py]: the credential substitution of
      [execute_command_with_credentials];
    - [backend/api/pending_commands.py]: the settings helpers, the timeout
      sweep, the read routes and the approve / reject / delete / create routes.

    Conventions.  A Python [str] is a [string] of bytes (its UTF-8 encoding);
    [str.lower] is modelled on the ASCII letters.  A naive [datetime] is an
    integer number of microseconds, and so is a reading of [time.time()].
    A Python exception is a value of [exn]; a function that can raise returns
    a [result]. *)

From Stdlib Require Import String Ascii List ZArith Lia Bool Arith DecimalString.
Import ListNotations.

Local Open Scope list_scope.
Local Open Scope string_scope.

(** ** Exceptions and results *)

Inductive exn : Type :=
| HTTPException (status_code : Z) (detail : string)
| JSONDecodeError
| KeyError
| AttributeError
| TypeError
| ValueError
| FileNotFoundError (msg : string)
| ProcessLookupError
| DatabaseError
| StaleDataError
| RuntimeError (msg : string).

Inductive result (A : Type) : Type :=
| Ok (a : A)
| Raise (e : exn).
Arguments Ok {A} a.
Arguments Raise {A} e.

Definition bind {A B : Type} (m : result A) (k : A -> result B) : result B :=
  match m with
  | Ok a => k a
  | Raise e => Raise e
  end.

Notation "x <- m ;; k" := (bind m (fun x => k))
  (at level 61, m at next level, right associativity).
Notation "' p <- m ;; k" := (bind m (fun x => let 'p := x in k))
  (at level 61, p strict pattern, m at next level, right associativity).

(** [str(n)] and [f"{n}"] for an [int] *)
Definition str_int (n : Z) : string :=
  DecimalString.NilZero.string_of_int (Z.to_int n).

Definition HTTP_400_BAD_REQUEST : Z := 400.
Definition HTTP_404_NOT_FOUND : Z := 404.

(** ** Python string primitives *)

Module PyStr.

Definition is_upper (c : ascii) : bool :=
  let n := nat_of_ascii c in (65 <=? n)%nat && (n <=? 90)%nat.

Definition is_digit (c : ascii) : bool :=
  let n := nat_of_ascii c in (48 <=? n)%nat && (n <=? 57)%nat.

Definition lower_char (c : ascii) : ascii :=
  if is_upper c then ascii_of_nat (nat_of_ascii c + 32) else c.

(** [s.lower()] *)
Fixpoint lower (s : string) : string :=
  match s with
  | EmptyString => EmptyString
  | String c s' => String (lower_char c) (lower s')
  end.

(** [sub in s] *)
Fixpoint contains (sub s : string) : bool :=
  match s with
  | EmptyString => prefix sub EmptyString
  | String _ s' => prefix sub s || contains sub s'
  end.

(** the characters [str.strip()] removes, among the ASCII ones *)
Definition is_space (c : ascii) : bool :=
  let n := nat_of_ascii c in
  ((9 <=? n)%nat && (n <=? 13)%nat) || ((28 <=? n)%nat && (n <=? 32)%nat).

Fixpoint lstrip_by (p : ascii -> bool) (s : string) : string :=
  match s with
  | EmptyString => EmptyString
  | String c s' => if p c then lstrip_by p s' else s
  end.

Fixpoint rstrip_by (p : ascii -> bool) (s : string) : string :=
  match s with
  | EmptyString => EmptyString
  | String c s' =>
      match rstrip_by p s' with
      | EmptyString => if p c then EmptyString else String c EmptyString
      | r => String c r
      end
  end.

Definition strip_by (p : ascii -> bool) (s : string) : string :=
  rstrip_by p (lstrip_by p s).

(** [s.strip()] *)
Definition strip : string -> string := strip_by is_space.

Definition is_brace (c : ascii) : bool :=
  Ascii.eqb c "{"%char || Ascii.eqb c "}"%char.

(** [s.split('\n')] *)
Fixpoint split_lines_aux (cur : string) (s : string) : list string :=
  match s with
  | EmptyString => [cur]
  | String c s' =>
      if Ascii.eqb c (ascii_of_nat 10)
      then cur :: split_lines_aux EmptyString s'
      else split_lines_aux (cur ++ String c EmptyString) s'
  end.

Definition split_lines (s : string) : list string :=
  split_lines_aux EmptyString s.

(** [s[:n]] for [n >= 0] *)
Fixpoint take (n : nat) (s : string) : string :=
  match n, s with
  | O, _ => EmptyString
  | _, EmptyString => EmptyString
  | S k, String c s' => String c (take k s')
  end.

Fixpoint drop (n : nat) (s : string) : string :=
  match n, s with
  | O, _ => s
  | _, EmptyString => EmptyString
  | S k, String _ s' => drop k s'
  end.

(** [s.replace(old, new)] for a non-empty [old]: the occurrences of [old]
    are found from the left and do not overlap.  [skip] counts the
    characters of a match that are still to be passed over. *)
Fixpoint replace_from (skip : nat) (old new s : string) : string :=
  match s with
  | EmptyString => EmptyString
  | String c s' =>
      match skip with
      | S k => replace_from k old new s'
      | O =>
          if prefix old s
          then new ++ replace_from (String.length old - 1) old new s'
          else String c (replace_from O old new s')
      end
  end.

(** [s.replace(old, new)]; an empty [old] matches between every two
    characters and at both ends. *)
Fixpoint intersperse (new s : string) : string :=
  match s with
  | EmptyString => new
  | String c s' => new ++ String c (intersperse new s')
  end.

Definition replace (old new s : string) : string :=
  match old with
  | EmptyString => intersperse new s
  | _ => replace_from O old new s
  end.

End PyStr.

(** ** JSON values, as [json.loads] returns them *)

#[local] Unset Elimination Schemes.
Inductive json : Type :=
| JNull
| JBool (b : bool)
| JNum (n : Z)
| JStr (s : string)
| JArr (items : list json)
| JObj (fields : list (string * json)).
#[local] Set Elimination Schemes.

Module PyJson.

Fixpoint assoc (key : string) (fields : list (string * json)) : option json :=
  match fields with
  | [] => None
  | (k, v) :: rest => if String.eqb k key then Some v else assoc key rest
  end.

(** [d.get(key, default)]; anything but a dict has no [get] *)
Definition get (d : json) (key : string) (default : json) : result json :=
  match d with
  | JObj fields =>
      match assoc key fields with
      | Some v => Ok v
      | None => Ok default
      end
  | _ => Raise AttributeError
  end.

(** [v.lower()]; only a [str] has it *)
Definition lower (v : json) : result string :=
  match v with
  | JStr s => Ok (PyStr.lower s)
  | _ => Raise AttributeError
  end.

(** [v.lstrip('/')] *)
Definition lstrip_slash (v : json) : result string :=
  match v with
  | JStr s => Ok (PyStr.lstrip_by (fun c => Ascii.eqb c "/"%char) s)
  | _ => Raise AttributeError
  end.

(** [v[:12]]: strings and lists are sliced; the other values are not
    subscriptable by a slice (for a dict, Python before 3.12 raises
    [TypeError] as well) *)
Definition slice12 (v : json) : result json :=
  match v with
  | JStr s => Ok (JStr (PyStr.take 12 s))
  | JArr l => Ok (JArr (firstn 12 l))
  | _ => Raise TypeError
  end.

(** truth value of a JSON value, as [bool(v)] *)
Definition truthy (v : json) : bool :=
  match v with
  | JNull => false
  | JBool b => b
  | JNum n => negb (n =? 0)%Z
  | JStr s => negb (String.eqb s "")
  | JArr l => match l with [] => false | _ => true end
  | JObj l => match l with [] => false | _ => true end
  end.

End PyJson.

(** ** [mcp_classes.py]: the runner and the container registry *)

Module Runner.

(** [AidaMCPService._classify_error] *)
Definition _classify_error (returncode : Z) (stderr : string) : string :=
  if (returncode =? 127)%Z then "command_not_found"
  else if (returncode =? 126)%Z then "permission_denied"
  else if (returncode =? 2)%Z then "invalid_arguments"
  else if PyStr.contains "not found" (PyStr.lower stderr) then "command_not_found"
  else if PyStr.contains "permission denied" (PyStr.lower stderr) then "permission_denied"
  else if PyStr.contains "invalid" (PyStr.lower stderr)
          || PyStr.contains "usage:" (PyStr.lower stderr) then "invalid_command"
  else if negb (returncode =? 0)%Z then "command_failed"
  else "success".

(** The dictionary [_run_command] returns. *)
Record run_result : Type := {
  success : bool;
  returncode : Z;
  stdout : string;
  stderr : string;
  command : string;
  error_type : string;
  raw_error : option string
}.

(** *** The operating system, as [_run_command] sees it

    A child process is [Alive] until it exits; [process.kill()] sends
    SIGKILL to a live child and raises [ProcessLookupError] once the child
    has exited; [process.communicate()] on an exited child collects it. *)
Inductive proc_status : Type := Alive | Exited | Reaped.

Definition kill (p : proc_status) : result unit * proc_status :=
  match p with
  | Alive => (Ok tt, Exited)
  | _ => (Raise ProcessLookupError, p)
  end.

Definition communicate_exited (p : proc_status) : proc_status :=
  match p with
  | Alive => Alive
  | _ => Reaped
  end.

(** What happens when [argv] is spawned: the binary is missing, the spawn
    fails otherwise, or a child runs.  A child needs [duration]
    microseconds to finish ([None]: it never finishes by itself) and then
    reports [rc], [out], [err]; [gone_at_kill] says whether a child that
    overran its deadline has exited by itself by the time it is killed. *)
Inductive os_behaviour : Type :=
| NoSuchBinary (msg : string)
| SpawnFails (msg : string)
| Runs (duration : option Z) (rc : Z) (out err : string) (gone_at_kill : bool)
| CommunicateFails (msg : string).

(** What [_run_command] does to the operating system. *)
Inductive action : Type :=
| Spawn (argv : list string)
| WaitFor (timeout : Z)
| Kill
| Communicate.

Definition overruns (duration : option Z) (timeout : Z) : bool :=
  match duration with
  | None => true
  | Some d => (timeout <? d)%Z
  end.

(** An entry of the list [discover_containers] returns. *)
Record container : Type := {
  name : string;
  image : string;
  status : json;
  id : json;
  created : json;
  ports : list json;
  source : string
}.

(** The registry part of [AidaMCPService]; times are in microseconds,
    [cache_ttl] in seconds. *)
Record service : Type := {
  containers_cache : list container;
  cache_timestamp : Z;
  cache_ttl : Z
}.

(** [AidaMCPService.__init__] *)
Definition init_service : service :=
  {| containers_cache := []; cache_timestamp := 0; cache_ttl := 30 |}.

(** [except (json.JSONDecodeError, KeyError, AttributeError)] *)
Definition caught_per_line (e : exn) : bool :=
  match e with
  | JSONDecodeError | KeyError | AttributeError => true
  | _ => false
  end.

Definition ticks_per_second : Z := 1000000.

Section WithPython.

(** [f"{timeout}"] for a float number of seconds, given in microseconds *)
Variable str_seconds : Z -> string.

(** [json.loads]; [None] stands for [JSONDecodeError] *)
Variable json_loads : string -> option json.

(** [AidaMCPService._run_command]: the result, what was done to the
    operating system, and the state of the child when the call returns
    ([None] when no child was spawned). *)
Definition _run_command (os : list string -> os_behaviour)
    (argv : list string) (timeout : Z)
  : run_result * list action * option proc_status :=
  match os argv with
  | NoSuchBinary msg =>
      ({| success := false; returncode := -1; stdout := "";
          stderr := "Command not found: " ++ hd "" argv;
          command := String.concat " " argv;
          error_type := "command_not_found";
          raw_error := Some msg |},
       [Spawn argv], None)
  | SpawnFails msg =>
      ({| success := false; returncode := -1; stdout := "";
          stderr := "Execution failed: " ++ msg;
          command := String.concat " " argv;
          error_type := "execution_failed";
          raw_error := Some msg |},
       [Spawn argv], None)
  | CommunicateFails msg =>
      ({| success := false; returncode := -1; stdout := "";
          stderr := "Execution failed: " ++ msg;
          command := String.concat " " argv;
          error_type := "execution_failed";
          raw_error := Some msg |},
       [Spawn argv; WaitFor timeout], Some Alive)
  | Runs duration rc out err gone_at_kill =>
      if overruns duration timeout then
        (* except asyncio.TimeoutError *)
        let p := if gone_at_kill then Exited else Alive in
        let '(acts, p2) :=
          match kill p with
          | (Ok _, p1) => ([Kill; Communicate], communicate_exited p1)
          | (Raise _, p1) => ([Kill], p1)       (* except Exception: pass *)
          end in
        ({| success := false; returncode := -1; stdout := "";
            stderr := "Command timed out after " ++ str_seconds timeout ++ "s";
            command := String.concat " " argv;
            error_type := "timeout";
            raw_error := Some ("Timed out after " ++ str_seconds timeout ++ "s") |},
         ([Spawn argv; WaitFor timeout] ++ acts)%list, Some p2)
      else
        ({| success := (rc =? 0)%Z; returncode := rc;
            stdout := PyStr.strip out;
            stderr := PyStr.strip err;
            command := String.concat " " argv;
            error_type := _classify_error rc err;
            raw_error := None |},
         [Spawn argv; WaitFor timeout], Some Reaped)
  end.

(** The body of the inner [try] for one non-blank line: [Ok None] when
    the image is not an Exegol one. *)
Definition parse_line (line : string) : result (option container) :=
  container_data <- match json_loads line with
                    | Some v => Ok v
                    | None => Raise JSONDecodeError
                    end ;;
  image_v <- PyJson.get container_data "Image" (JStr "") ;;
  image_lower <- PyJson.lower image_v ;;
  if PyStr.contains "exegol" image_lower
     || PyStr.contains "nwodtuhs/exegol" image_lower
  then
    names <- PyJson.get container_data "Names" (JStr "unknown") ;;
    nm <- PyJson.lstrip_slash names ;;
    st <- PyJson.get container_data "State" (JStr "unknown") ;;
    idv <- PyJson.get container_data "ID" (JStr "unknown") ;;
    id12 <- PyJson.slice12 idv ;;
    cr <- PyJson.get container_data "CreatedAt" (JStr "unknown") ;;
    Ok (Some {| name := nm;
                image := match image_v with JStr s => s | _ => "" end;
                status := st; id := id12; created := cr;
                ports := []; source := "docker" |})
  else Ok None.

(** The [for line in ...] loop; an exception the inner handler does not
    catch leaves the loop. *)
Fixpoint parse_lines (lines : list string) (containers : list container)
  : result (list container) :=
  match lines with
  | [] => Ok containers
  | line :: rest =>
      if negb (String.eqb (PyStr.strip line) "") then
        match parse_line line with
        | Ok (Some c) => parse_lines rest (containers ++ [c])%list
        | Ok None => parse_lines rest containers
        | Raise e =>
            if caught_per_line e then parse_lines rest containers
            else Raise e
        end
      else parse_lines rest containers
  end.

(** The [try] block of [discover_containers]: run [docker ps] and parse
    its output. *)
Definition discover_body (os : list string -> os_behaviour)
  : result (list container) * list action :=
  let '(res, acts, _) :=
    _run_command os ["docker"; "ps"; "-a"; "--format"; "json"]
                 (30 * ticks_per_second) in
  (if success res && negb (String.eqb (stdout res) "")
   then parse_lines (PyStr.split_lines (stdout res)) []
   else Ok [],
   acts).

(** [AidaMCPService.discover_containers]: the outcome for the caller,
    the new state of the service, and what was done to the operating
    system. *)
Definition discover_containers (os : list string -> os_behaviour)
    (self : service) (current_time : Z) (force_refresh : bool)
  : result (list container) * service * list action :=
  if negb force_refresh
     && negb (match containers_cache self with [] => true | _ => false end)
     && (current_time - cache_timestamp self <? cache_ttl self * ticks_per_second)%Z
  then (Ok (containers_cache self), self, [])
  else
    let '(body, acts) := discover_body os in
    let containers :=
      match body with
      | Ok l => l
      | Raise _ => []                 (* except Exception: containers = [] *)
      end in
    (Ok containers,
     {| containers_cache := containers;
        cache_timestamp := current_time;
        cache_ttl := cache_ttl self |},
     acts).

End WithPython.

End Runner.

(** ** [base64.b64encode] *)

Module Base64.

Definition alphabet : string :=
  "ABCDEFGHIJKLMNOPQRSTUVWXYZabcdefghijklmnopqrstuvwxyz0123456789+/".

Definition digit (n : nat) : ascii :=
  match String.get n alphabet with
  | Some c => c
  | None => "="%char
  end.

Definition str4 (a b c d : ascii) : string :=
  String a (String b (String c (String d EmptyString))).

Fixpoint b64encode (s : string) : string :=
  match s with
  | EmptyString => EmptyString
  | String x EmptyString =>
      let a := nat_of_ascii x in
      str4 (digit (a / 4)) (digit ((a mod 4) * 16)) "=" "="
  | String x (String y EmptyString) =>
      let a := nat_of_ascii x in
      let b := nat_of_ascii y in
      str4 (digit (a / 4)) (digit ((a mod 4) * 16 + b / 16))
           (digit ((b mod 16) * 4)) "="
  | String x (String y (String z rest)) =>
      let a := nat_of_ascii x in
      let b := nat_of_ascii y in
      let c := nat_of_ascii z in
      str4 (digit (a / 4)) (digit ((a mod 4) * 16 + b / 16))
           (digit ((b mod 16) * 4 + c / 64)) (digit (c mod 64))
      ++ b64encode rest
  end.

End Base64.

(** ** What both API modules share: assessments and the command service *)

Record assessment : Type := {
  assessment_ident : Z;
  assessment_name : string
}.

(** The fields of the result of [ContainerService.execute_and_log_command]
    that the routes read. *)
Record exec_result : Type := {
  exec_stdout : string;
  exec_stderr : string;
  exec_returncode : Z;
  exec_success : bool
}.

(** A call of [ContainerService.execute_and_log_command]. *)
Record exec_call : Type := {
  call_assessment_id : Z;
  call_command : string;
  call_phase : option string
}.

Definition find_assessment (aid : Z) (l : list assessment) : option assessment :=
  find (fun a => (assessment_ident a =? aid)%Z) l.

(** ** [api/commands.py]: credential substitution *)

Module Commands.

(** [models.Credential], the columns the substitution reads *)
Record Credential : Type := {
  cred_id : Z;
  cred_assessment_id : Z;
  credential_type : string;
  placeholder : string;
  token : option string;
  username : option string;
  password : option string;
  cookie_value : option string;
  custom_data : option json
}.

Definition is_name_char (c : ascii) : bool :=
  PyStr.is_upper c || PyStr.is_digit c || Ascii.eqb c "_"%char.

(** the longest prefix of name characters, and what follows it *)
Fixpoint span_name (s : string) : string * string :=
  match s with
  | EmptyString => (EmptyString, EmptyString)
  | String c s' =>
      if is_name_char c
      then let '(nm, rest) := span_name s' in (String c nm, rest)
      else (EmptyString, s)
  end.

(** the group of [\{\{([A-Z0-9_]+)\}\}] when it matches at the start of [s] *)
Definition match_at (s : string) : option string :=
  match s with
  | String "{"%char (String "{"%char r) =>
      let '(nm, rest) := span_name r in
      if negb (String.eqb nm "") && prefix "}}" rest then Some nm else None
  | _ => None
  end.

Fixpoint findall_from (skip : nat) (s : string) : list string :=
  match s with
  | EmptyString => []
  | String _ s' =>
      match skip with
      | S k => findall_from k s'
      | O =>
          match match_at s with
          | Some nm => nm :: findall_from (String.length nm + 3) s'
          | None => findall_from O s'
          end
      end
  end.

(** [re.findall(r'\{\{([A-Z0-9_]+)\}\}', command)] *)
Definition findall (command : string) : list string := findall_from O command.

(** [d[key] = value] on a dict kept as an association list *)
Fixpoint dict_set {V : Type} (key : string) (value : V) (d : list (string * V))
  : list (string * V) :=
  match d with
  | [] => [(key, value)]
  | (k, v) :: rest =>
      if String.eqb k key then (k, value) :: rest
      else (k, v) :: dict_set key value rest
  end.

Fixpoint dict_get {V : Type} (key : string) (d : list (string * V)) : option V :=
  match d with
  | [] => None
  | (k, v) :: rest => if String.eqb k key then Some v else dict_get key rest
  end.

(** [{cred.placeholder.strip("{}"): cred for cred in credentials}] *)
Definition creds_map (credentials : list Credential) : list (string * Credential) :=
  fold_left (fun d cred => dict_set (PyStr.strip_by PyStr.is_brace (placeholder cred)) cred d)
            credentials [].

(** [f"{v}"] for an optional string *)
Definition fmt (v : option string) : string :=
  match v with
  | Some s => s
  | None => "None"
  end.

(** the braces put back: [f"{{{{{placeholder}}}}}"] *)
Definition braced (name : string) : string := "{{" ++ name ++ "}}".

Section WithService.

(** [str(v)] for a JSON value *)
Variable py_str : json -> string.

(** [ContainerService.execute_and_log_command] *)
Variable execute_and_log_command : Z -> string -> option string -> result exec_result.

(** The value of [replacement]; [None] is Python's [None]. *)
Definition replacement (cred : Credential) : option string :=
  if String.eqb (credential_type cred) "bearer_token" then token cred
  else if String.eqb (credential_type cred) "api_key" then token cred
  else if String.eqb (credential_type cred) "cookie" then cookie_value cred
  else if String.eqb (credential_type cred) "basic_auth" then
    Some (Base64.b64encode (fmt (username cred) ++ ":" ++ fmt (password cred)))
  else if String.eqb (credential_type cred) "ssh" then
    Some (fmt (username cred) ++ ":" ++ fmt (password cred))
  else if String.eqb (credential_type cred) "custom" then
    match token cred with
    | Some t => if negb (String.eqb t "") then Some t
                else Some (match custom_data cred with
                           | Some d => if PyJson.truthy d then py_str d else ""
                           | None => ""
                           end)
    | None => Some (match custom_data cred with
                    | Some d => if PyJson.truthy d then py_str d else ""
                    | None => ""
                    end)
    end
  else Some "".

(** [command.replace(old, replacement)]; a [None] replacement is a
    [TypeError] *)
Definition replace_with (old : string) (new : option string) (command : string)
  : result string :=
  match new with
  | Some v => Ok (PyStr.replace old v command)
  | None => Raise TypeError
  end.

(** The loop [for placeholder in placeholders]. *)
Fixpoint substitute (cmap : list (string * Credential)) (placeholders : list string)
    (command : string) : result string :=
  match placeholders with
  | [] => Ok command
  | p :: rest =>
      match dict_get p cmap with
      | Some cred =>
          command' <- replace_with (braced p) (replacement cred) command ;;
          substitute cmap rest command'
      | None =>
          Raise (HTTPException HTTP_404_NOT_FOUND
                   ("Placeholder '" ++ braced p ++ "' not found in credentials"))
      end
  end.

(** The section CREDENTIAL SUBSTITUTION; [credentials] is the table. *)
Definition substitute_credentials (credentials : list Credential)
    (assessment_id : Z) (command : string) : result string :=
  match findall command with
  | [] => Ok command
  | placeholders =>
      let mine := filter (fun c => (cred_assessment_id c =? assessment_id)%Z) credentials in
      substitute (creds_map mine) placeholders command
  end.

(** [execute_command_with_credentials]: the response and the calls made
    to the command service. *)
Definition execute_command_with_credentials
    (assessments : list assessment) (credentials : list Credential)
    (assessment_id : Z) (command : string) (phase : option string)
  : result exec_result * list exec_call :=
  match find_assessment assessment_id assessments with
  | None =>
      (Raise (HTTPException HTTP_404_NOT_FOUND
                ("Assessment with id " ++ str_int assessment_id ++ " not found")), [])
  | Some _ =>
      match substitute_credentials credentials assessment_id command with
      | Raise e => (Raise e, [])
      | Ok command' =>
          (execute_and_log_command assessment_id command' phase,
           [{| call_assessment_id := assessment_id;
               call_command := command';
               call_phase := phase |}])
      end
  end.

End WithService.

End Commands.

(** ** [api/pending_commands.py]: settings, sweep and approval routes

    A route is a function from the world before the request to its
    response and the world after it, for a request during which no other
    request is served.  [approve_command] and [reject_command] suspend
    between their test of the status and their write; the parts of these
    two routes that run without suspension are given after the routes. *)

Module Pending.

(** A [datetime]: microseconds since the epoch, and whether it carries a
    [tzinfo]. *)
Record datetime : Type := {
  micros : Z;
  aware : bool
}.

(** [datetime.utcnow()] at clock reading [now] *)
Definition utc (now : Z) : datetime := {| micros := now; aware := false |}.

(** [models.PlatformSettings] *)
Record PlatformSettings : Type := {
  key : string;
  value : string;
  description : option string
}.

(** [models.PendingCommand] *)
Record PendingCommand : Type := {
  id : Z;
  assessment_id : Z;
  command : string;
  phase : option string;
  matched_keywords : list string;
  status : string;
  resolved_by : option string;
  rejection_reason : option string;
  resolved_at : option datetime;
  execution_result : option exec_result;
  created_at : option datetime;
  timeout_seconds : option Z
}.

(** The tables the routes use; [next_id] is the sequence behind the
    primary key of [pending_commands]. *)
Record database : Type := {
  platform_settings : list PlatformSettings;
  pending_commands : list PendingCommand;
  assessments : list assessment;
  next_id : Z
}.

(** A message given to [manager.broadcast]; [ev_scope] is the
    [assessment_id] argument. *)
Record event : Type := {
  ev_type : string;
  ev_command_id : Z;
  ev_scope : option Z
}.

(** The database together with what the routes did outside it: the calls
    of the command service and the messages broadcast, oldest first. *)
Record world : Type := {
  db : database;
  calls : list exec_call;
  broadcasts : list event
}.

Definition DEFAULT_EXECUTION_MODE : string := "open".

(** The content of the module-level list [DEFAULT_FILTER_KEYWORDS] when the
    module is loaded.  The list is handed out by [get_command_settings] and
    changed in place by [add_keyword] and [remove_keyword]: its content is
    part of the state of the process. *)
Definition DEFAULT_FILTER_KEYWORDS : list string :=
  ["rm"; "delete"; "drop"; "truncate"; "sudo"; "chmod"; "chown"; "mkfs"; "dd"; "format"].
Definition DEFAULT_TIMEOUT_SECONDS : Z := 30.

(** The keys of the three command settings. *)
Definition MODE_KEY : string := "command_execution_mode".
Definition KEYWORDS_KEY : string := "command_filter_keywords".
Definition TIMEOUT_KEY : string := "command_timeout_seconds".

(** The dictionary [get_command_settings] returns. *)
Record settings : Type := {
  execution_mode : string;
  filter_keywords : json;
  settings_timeout_seconds : Z
}.

(** [schemas.CommandSettingsResponse] *)
Record CommandSettingsResponse : Type := {
  resp_execution_mode : string;
  resp_filter_keywords : list string;
  resp_timeout_seconds : Z
}.

(** [db.query(PlatformSettings).filter(PlatformSettings.key == k).first()] *)
Definition setting_row (k : string) (d : database) : option PlatformSettings :=
  find (fun r => String.eqb (key r) k) (platform_settings d).

(** [db.query(PendingCommand).filter(PendingCommand.id == cid).first()] *)
Definition pending_row (cid : Z) (d : database) : option PendingCommand :=
  find (fun r => (id r =? cid)%Z) (pending_commands d).

Definition is_pending (r : PendingCommand) : bool := String.eqb (status r) "pending".

(** [db.query(PendingCommand).filter(PendingCommand.status == "pending").count()] *)
Definition count_pending (d : database) : nat :=
  List.length (filter is_pending (pending_commands d)).

Definition with_rows (d : database) (rows : list PendingCommand) : database :=
  {| platform_settings := platform_settings d;
     pending_commands := rows;
     assessments := assessments d;
     next_id := next_id d |}.

(** The assignments of the sweep to an expired row. *)
Definition mark_timeout (now : Z) (cmd_timeout : Z) (r : PendingCommand) : PendingCommand :=
  {| id := id r; assessment_id := assessment_id r; command := command r;
     phase := phase r; matched_keywords := matched_keywords r;
     status := "timeout";
     resolved_by := resolved_by r;
     rejection_reason :=
       Some ("Auto-cancelled: exceeded " ++ str_int cmd_timeout ++ "s timeout");
     resolved_at := Some (utc now);
     execution_result := execution_result r;
     created_at := created_at r;
     timeout_seconds := timeout_seconds r |}.

(** The assignments of [approve_command]. *)
Definition mark_executed (now : Z) (approved_by : string) (res : exec_result)
    (r : PendingCommand) : PendingCommand :=
  {| id := id r; assessment_id := assessment_id r; command := command r;
     phase := phase r; matched_keywords := matched_keywords r;
     status := "executed";
     resolved_by := Some approved_by;
     rejection_reason := rejection_reason r;
     resolved_at := Some (utc now);
     execution_result := Some res;
     created_at := created_at r;
     timeout_seconds := timeout_seconds r |}.

(** The assignments of [reject_command]. *)
Definition mark_rejected (now : Z) (rejected_by : string) (reason : option string)
    (r : PendingCommand) : PendingCommand :=
  {| id := id r; assessment_id := assessment_id r; command := command r;
     phase := phase r; matched_keywords := matched_keywords r;
     status := "rejected";
     resolved_by := Some rejected_by;
     rejection_reason := reason;
     resolved_at := Some (utc now);
     execution_result := execution_result r;
     created_at := created_at r;
     timeout_seconds := timeout_seconds r |}.

(** The limit of a row: its own [timeout_seconds], else the global one. *)
Definition cmd_timeout_of (global : Z) (r : PendingCommand) : Z :=
  match timeout_seconds r with
  | Some t => t
  | None => global
  end.

(** [elapsed_seconds > cmd_timeout], in microseconds *)
Definition expired (now : Z) (created : datetime) (cmd_timeout : Z) : bool :=
  (cmd_timeout * 1000000 <? now - micros created)%Z.

(** The body of the loop of [check_and_timeout_expired_commands] for one
    row of the table: the row after it, and whether it was timed out.
    Subtracting the naive [created_at.replace(tzinfo=None)] from the aware
    [now] is a [TypeError]. *)
Definition sweep_row (now : Z) (global : Z) (r : PendingCommand)
  : result (PendingCommand * bool) :=
  if is_pending r then
    match created_at r with
    | Some created =>
        if aware created then Raise TypeError
        else if expired now created (cmd_timeout_of global r)
             then Ok (mark_timeout now (cmd_timeout_of global r) r, true)
             else Ok (r, false)
    | None => Ok (r, false)
    end
  else Ok (r, false).

(** The loop over the table: the rows after it and [timed_out_ids]. *)
Fixpoint sweep_rows (now : Z) (global : Z) (rows : list PendingCommand)
  : result (list PendingCommand * list Z) :=
  match rows with
  | [] => Ok ([], [])
  | r :: rest =>
      '(r', hit) <- sweep_row now global r ;;
      '(rows', ids) <- sweep_rows now global rest ;;
      Ok (r' :: rows', if hit : bool then id r :: ids else ids)
  end.

(** [ORDER BY created_at DESC]: a later row first, a row without
    [created_at] before the others. *)
Definition not_before (a b : PendingCommand) : bool :=
  match created_at a, created_at b with
  | None, _ => true
  | Some _, None => false
  | Some x, Some y => (micros y <=? micros x)%Z
  end.

Fixpoint insert_desc (r : PendingCommand) (l : list PendingCommand) : list PendingCommand :=
  match l with
  | [] => [r]
  | x :: rest => if not_before x r then x :: insert_desc r rest else r :: l
  end.

Fixpoint order_desc (l : list PendingCommand) : list PendingCommand :=
  match l with
  | [] => []
  | x :: rest => insert_desc x (order_desc rest)
  end.

(** [schemas.PendingCommandsListResponse] *)
Record PendingCommandsListResponse : Type := {
  commands : list (PendingCommand * option string);
  total : nat;
  pending_count : nat
}.

(** The body of [create_pending_command]'s request. *)
Record command_data : Type := {
  data_assessment_id : Z;
  data_command : string;
  data_phase : option string;
  data_matched_keywords : list string
}.

Definition not_found (command_id : Z) : exn :=
  HTTPException HTTP_404_NOT_FOUND ("Pending command " ++ str_int command_id ++ " not found").

Definition already (r : PendingCommand) : exn :=
  HTTPException HTTP_400_BAD_REQUEST ("Command is already " ++ status r).

Definition with_name (d : database) (r : PendingCommand) : PendingCommand * option string :=
  (r, option_map assessment_name (find_assessment (assessment_id r) (assessments d))).

(** The construction of [schemas.PendingCommandResponse] from a row and the
    name of its assessment: [created_at] is a required [datetime], and a
    row without one fails the validation. *)
Definition PendingCommandResponse (v : PendingCommand * option string)
  : result (PendingCommand * option string) :=
  match created_at (fst v) with
  | Some _ => Ok v
  | None => Raise ValueError
  end.

(** The loop that builds [result] in [list_pending_commands]. *)
Fixpoint responses (d : database) (cmds : list PendingCommand)
  : result (list (PendingCommand * option string)) :=
  match cmds with
  | [] => Ok []
  | cmd :: rest =>
      r <- PendingCommandResponse (with_name d cmd) ;;
      rs <- responses d rest ;;
      Ok (r :: rs)
  end.

Section WithPython.

(** [json.loads]; [None] stands for [JSONDecodeError] *)
Variable json_loads : string -> option json.

(** [int(s)] for a string; [None] stands for [ValueError] *)
Variable py_int : string -> option Z.

(** The content of the module-level list [DEFAULT_FILTER_KEYWORDS] when
    the function is called. *)
Variable defaults : list string.

(** [ContainerService.execute_and_log_command] *)
Variable execute_and_log_command : Z -> string -> option string -> result exec_result.

(** [get_command_settings]; without a stored keyword list it returns the
    module-level list, whose content is [defaults]. *)
Definition get_command_settings (d : database) : result settings :=
  let mode_setting := setting_row MODE_KEY d in
  let keywords_setting := setting_row KEYWORDS_KEY d in
  let timeout_setting := setting_row TIMEOUT_KEY d in
  kws <- match keywords_setting with
         | Some r => match json_loads (value r) with
                     | Some v => Ok v
                     | None => Raise JSONDecodeError
                     end
         | None => Ok (JArr (map JStr defaults))
         end ;;
  tmo <- match timeout_setting with
         | Some r => match py_int (value r) with
                     | Some n => Ok n
                     | None => Raise ValueError
                     end
         | None => Ok DEFAULT_TIMEOUT_SECONDS
         end ;;
  Ok {| execution_mode := match mode_setting with
                          | Some r => value r
                          | None => DEFAULT_EXECUTION_MODE
                          end;
        filter_keywords := kws;
        settings_timeout_seconds := tmo |}.

(** the strings of a JSON list of strings, as the validation of
    [List[str]] accepts it *)
Fixpoint strings_of (items : list json) : option (list string) :=
  match items with
  | [] => Some []
  | JStr s :: rest => option_map (cons s) (strings_of rest)
  | _ :: _ => None
  end.

(** The construction of [CommandSettingsResponse] from the dictionary. *)
Definition validate_settings (s : settings) : result CommandSettingsResponse :=
  match filter_keywords s with
  | JArr items =>
      match strings_of items with
      | Some kws => Ok {| resp_execution_mode := execution_mode s;
                          resp_filter_keywords := kws;
                          resp_timeout_seconds := settings_timeout_seconds s |}
      | None => Raise ValueError
      end
  | _ => Raise ValueError
  end.

(** [set_command_setting] *)
Fixpoint set_row (k v : string) (descr : option string) (rows : list PlatformSettings)
  : list PlatformSettings :=
  match rows with
  | [] => [{| key := k; value := v; description := descr |}]
  | r :: rest =>
      if String.eqb (key r) k
      then {| key := key r; value := v; description := description r |} :: rest
      else r :: set_row k v descr rest
  end.

Definition set_command_setting (d : database) (k v : string) (descr : option string)
  : database :=
  {| platform_settings := set_row k v descr (platform_settings d);
     pending_commands := pending_commands d;
     assessments := assessments d;
     next_id := next_id d |}.

(** [check_and_timeout_expired_commands] *)
Definition check_and_timeout_expired_commands (d : database) (now : Z)
  : result (database * list Z) :=
  s <- get_command_settings d ;;
  '(rows, timed_out_ids) <- sweep_rows now (settings_timeout_seconds s) (pending_commands d) ;;
  Ok (with_rows d rows, timed_out_ids).

(** [check_and_timeout_expired_commands_async]: the sweep, then one
    [command_timeout] message per row timed out. *)
Definition check_and_timeout_expired_commands_async (w : world) (now : Z)
  : result (world * nat) :=
  '(d, timed_out_ids) <- check_and_timeout_expired_commands (db w) now ;;
  Ok ({| db := d;
         calls := calls w;
         broadcasts :=
           (broadcasts w ++
            map (fun cid => {| ev_type := "command_timeout";
                               ev_command_id := cid;
                               ev_scope := None |}) timed_out_ids)%list |},
      List.length timed_out_ids).

(** [list_pending_commands] *)
Definition list_pending_commands (w : world) (now : Z)
    (status_filter : option string) (assessment_filter : option Z)
  : result PendingCommandsListResponse * world :=
  match check_and_timeout_expired_commands_async w now with
  | Raise e => (Raise e, w)
  | Ok (w1, _) =>
      let d := db w1 in
      let joined :=
        filter (fun r => match find_assessment (assessment_id r) (assessments d) with
                         | Some _ => true
                         | None => false
                         end) (pending_commands d) in
      let by_status :=
        match status_filter with
        | Some sf => if String.eqb sf "" then joined
                     else filter (fun r => String.eqb (status r) sf) joined
        | None => joined
        end in
      let by_assessment :=
        match assessment_filter with
        | Some aid => if (aid =? 0)%Z then by_status
                      else filter (fun r => (assessment_id r =? aid)%Z) by_status
        | None => by_status
        end in
      match responses d (order_desc by_assessment) with
      | Raise e => (Raise e, w1)
      | Ok result =>
          (Ok {| commands := result;
                 total := List.length result;
                 pending_count := count_pending d |}, w1)
      end
  end.

(** [get_pending_count] *)
Definition get_pending_count (w : world) (now : Z) : result nat * world :=
  match check_and_timeout_expired_commands_async w now with
  | Raise e => (Raise e, w)
  | Ok (w1, _) => (Ok (count_pending (db w1)), w1)
  end.

(** [get_pending_command] *)
Definition get_pending_command (w : world) (now : Z) (command_id : Z)
  : result (PendingCommand * option string) * world :=
  match check_and_timeout_expired_commands_async w now with
  | Raise e => (Raise e, w)
  | Ok (w1, _) =>
      match pending_row command_id (db w1) with
      | None => (Raise (not_found command_id), w1)
      | Some cmd => (PendingCommandResponse (with_name (db w1) cmd), w1)
      end
  end.

Definition update_row (command_id : Z) (f : PendingCommand -> PendingCommand)
    (rows : list PendingCommand) : list PendingCommand :=
  map (fun r => if (id r =? command_id)%Z then f r else r) rows.

Definition resolution_events (kind : string) (command_id : Z) (r : PendingCommand)
  : list event :=
  [ {| ev_type := kind; ev_command_id := command_id; ev_scope := Some (assessment_id r) |};
    {| ev_type := kind; ev_command_id := command_id; ev_scope := None |} ].

(** [approve_command] *)
Definition approve_command (w : world) (now : Z) (command_id : Z) (approved_by : string)
  : result (PendingCommand * option string) * world :=
  match pending_row command_id (db w) with
  | None => (Raise (not_found command_id), w)
  | Some pending_cmd =>
      if negb (is_pending pending_cmd) then (Raise (already pending_cmd), w)
      else
        let call := {| call_assessment_id := assessment_id pending_cmd;
                       call_command := command pending_cmd;
                       call_phase := phase pending_cmd |} in
        match execute_and_log_command (assessment_id pending_cmd)
                (command pending_cmd) (phase pending_cmd) with
        | Raise e =>
            (Raise e, {| db := db w; calls := (calls w ++ [call])%list;
                         broadcasts := broadcasts w |})
        | Ok exec_res =>
            let d := with_rows (db w)
                       (update_row command_id (mark_executed now approved_by exec_res)
                          (pending_commands (db w))) in
            (PendingCommandResponse
               (with_name d (mark_executed now approved_by exec_res pending_cmd)),
             {| db := d;
                calls := (calls w ++ [call])%list;
                broadcasts := (broadcasts w ++
                  resolution_events "command_approved" command_id pending_cmd)%list |})
        end
  end.

(** [reject_command] *)
Definition reject_command (w : world) (now : Z) (command_id : Z)
    (rejected_by : string) (reason : option string)
  : result (PendingCommand * option string) * world :=
  match pending_row command_id (db w) with
  | None => (Raise (not_found command_id), w)
  | Some pending_cmd =>
      if negb (is_pending pending_cmd) then (Raise (already pending_cmd), w)
      else
        let d := with_rows (db w)
                   (update_row command_id (mark_rejected now rejected_by reason)
                      (pending_commands (db w))) in
        (PendingCommandResponse
           (with_name d (mark_rejected now rejected_by reason pending_cmd)),
         {| db := d;
            calls := calls w;
            broadcasts := (broadcasts w ++
              resolution_events "command_rejected" command_id pending_cmd)%list |})
  end.

(** [delete_pending_command] *)
Definition delete_pending_command (w : world) (command_id : Z) : result unit * world :=
  match pending_row command_id (db w) with
  | None => (Raise (not_found command_id), w)
  | Some _ =>
      (Ok tt,
       {| db := with_rows (db w)
                  (filter (fun r => negb (id r =? command_id)%Z) (pending_commands (db w)));
          calls := calls w;
          broadcasts := broadcasts w |})
  end.

(** [create_pending_command]; the new row takes the next value of the
    sequence and the server's clock. *)
Definition create_pending_command (w : world) (now : Z) (data : command_data)
  : result (PendingCommand * option string) * world :=
  match find_assessment (data_assessment_id data) (assessments (db w)) with
  | None =>
      (Raise (HTTPException HTTP_404_NOT_FOUND
                ("Assessment " ++ str_int (data_assessment_id data) ++ " not found")), w)
  | Some a =>
      match get_command_settings (db w) with
      | Raise e => (Raise e, w)
      | Ok s =>
          let pending_cmd :=
            {| id := next_id (db w);
               assessment_id := data_assessment_id data;
               command := data_command data;
               phase := data_phase data;
               matched_keywords := data_matched_keywords data;
               status := "pending";
               resolved_by := None;
               rejection_reason := None;
               resolved_at := None;
               execution_result := None;
               created_at := Some (utc now);
               timeout_seconds := Some (settings_timeout_seconds s) |} in
          (PendingCommandResponse (pending_cmd, Some (assessment_name a)),
           {| db := {| platform_settings := platform_settings (db w);
                       pending_commands := (pending_commands (db w) ++ [pending_cmd])%list;
                       assessments := assessments (db w);
                       next_id := (next_id (db w) + 1)%Z |};
              calls := calls w;
              broadcasts := (broadcasts w ++
                [{| ev_type := "command_pending_approval";
                    ev_command_id := next_id (db w);
                    ev_scope := None |}])%list |})
      end
  end.

(** *** [approve_command] and [reject_command] between their suspension
    points

    Both routes load the row and test its status, and write to the table
    later, at [await db.commit()]; [approve_command] waits for the command
    service in between.  While a route is suspended other requests are
    served.  The definitions below are the parts of the two routes that run
    without suspension. *)

(** The row loaded by the [select], and the test of its status. *)
Definition load_pending (w : world) (command_id : Z) : result PendingCommand :=
  match pending_row command_id (db w) with
  | None => Raise (not_found command_id)
  | Some pending_cmd =>
      if negb (is_pending pending_cmd) then Raise (already pending_cmd)
      else Ok pending_cmd
  end.

(** The call of the command service for the row loaded. *)
Definition call_of (pending_cmd : PendingCommand) : exec_call :=
  {| call_assessment_id := assessment_id pending_cmd;
     call_command := command pending_cmd;
     call_phase := phase pending_cmd |}.

Definition with_call (w : world) (c : exec_call) : world :=
  {| db := db w; calls := (calls w ++ [c])%list; broadcasts := broadcasts w |}.

(** [approve_command] from the answer of the command service on.  The
    four attributes assigned are written to the row of the primary key
    that was loaded, whatever that row holds by now; when the row is gone
    the flush raises [StaleDataError].  The row is read back, the two
    messages are broadcast and the response is built from it. *)
Definition approve_commit (w : world) (now : Z) (command_id : Z) (approved_by : string)
    (exec_res : exec_result)
  : result (PendingCommand * option string) * world :=
  match pending_row command_id (db w) with
  | None => (Raise StaleDataError, w)
  | Some current =>
      let d := with_rows (db w)
                 (update_row command_id (mark_executed now approved_by exec_res)
                    (pending_commands (db w))) in
      (PendingCommandResponse
         (with_name d (mark_executed now approved_by exec_res current)),
       {| db := d;
          calls := calls w;
          broadcasts := (broadcasts w ++
            resolution_events "command_approved" command_id current)%list |})
  end.

(** [reject_command] from its assignments on. *)
Definition reject_commit (w : world) (now : Z) (command_id : Z)
    (rejected_by : string) (reason : option string)
  : result (PendingCommand * option string) * world :=
  match pending_row command_id (db w) with
  | None => (Raise StaleDataError, w)
  | Some current =>
      let d := with_rows (db w)
                 (update_row command_id (mark_rejected now rejected_by reason)
                    (pending_commands (db w))) in
      (PendingCommandResponse
         (with_name d (mark_rejected now rejected_by reason current)),
       {| db := d;
          calls := calls w;
          broadcasts := (broadcasts w ++
            resolution_events "command_rejected" command_id current)%list |})
  end.

End WithPython.

(** What the sequence and the constructors of the routes guarantee of
    every row: its id is below the sequence, a pending row has no
    [resolved_at], a resolved one has. *)
Definition row_ok (nid : Z) (r : PendingCommand) : Prop :=
  (id r < nid)%Z /\
  (is_pending r = true -> resolved_at r = None) /\
  (is_pending r = false -> resolved_at r <> None).

Definition wf (d : database) : Prop := Forall (row_ok (next_id d)) (pending_commands d).

Definition empty_database : database :=
  {| platform_settings := []; pending_commands := []; assessments := []; next_id := 1 |}.

End Pending.

(** ** The policy engine

    The handler that classifies a submitted command is not among the
    sources; this module follows sections 3, 4.4 and 6 of the specification. *)

Module Policy.

(** Modelled from the spec: the enumeration [execution_mode] of
    PolicyConfig, whose implementation is missing from the sources. *)
Inductive mode : Type := open | filter | closed.

(** Modelled from the spec: the value PolicyConfig (execution mode,
    ordered keyword list, default timeout), missing from the sources. *)
Record PolicyConfig : Type := {
  execution_mode : mode;
  filter_keywords : list string;
  timeout_seconds : Z
}.

(** Modelled from the spec: the result of [classify], missing from the
    sources: execute now, or require approval with the matched keywords. *)
Inductive decision : Type :=
| execute_now
| require_approval (matched_keywords : list string).

(** Modelled from the spec: the keywords of the configuration that are
    substrings of the lower-cased command, in the order of the
    configuration; the matching code is missing from the sources. *)
Definition matching (command : string) (keywords : list string) : list string :=
  List.filter (fun k => PyStr.contains k (PyStr.lower command)) keywords.

(** Modelled from the spec: the policy engine [classify] of section 4.4,
    missing from the sources. *)
Definition classify (command : string) (config : PolicyConfig) : decision :=
  match execution_mode config with
  | closed => require_approval []
  | open => execute_now
  | filter =>
      match matching command (filter_keywords config) with
      | [] => execute_now
      | matched => require_approval matched
      end
  end.

(** Modelled from the spec: the result of [submit_execution], an
    ExecutionResult or a PendingCommand; missing from the sources. *)
Inductive submission : Type :=
| Immediate (r : exec_result)
| Queued (p : Pending.PendingCommand).

(** Modelled from the spec: [enqueue] of section 4.5, which stores a
    pending row with the timeout of the settings at that time; the caller
    of the creation route is missing from the sources. *)
Definition enqueue (config : PolicyConfig) (new_id now assessment_id : Z)
    (command : string) (phase : option string) (matched : list string)
  : Pending.PendingCommand :=
  {| Pending.id := new_id;
     Pending.assessment_id := assessment_id;
     Pending.command := command;
     Pending.phase := phase;
     Pending.matched_keywords := matched;
     Pending.status := "pending";
     Pending.resolved_by := None;
     Pending.rejection_reason := None;
     Pending.resolved_at := None;
     Pending.execution_result := None;
     Pending.created_at := Some (Pending.utc now);
     Pending.timeout_seconds := Some (timeout_seconds config) |}.

(** Modelled from the spec: [submit_execution] of section 6, the entry
    point that resolves the placeholders, classifies the command and
    either runs it or queues it; missing from the sources.  [resolve] is
    the credential substitution and [run] the execution runner. *)
Definition submit_execution (resolve : string -> result string)
    (run : string -> exec_result) (config : PolicyConfig)
    (new_id now assessment_id : Z) (command : string) (phase : option string)
  : result submission :=
  command' <- resolve command ;;
  match classify command' config with
  | execute_now => Ok (Immediate (run command'))
  | require_approval matched =>
      Ok (Queued (enqueue config new_id now assessment_id command' phase matched))
  end.



End Policy.

(** ** [mcp_classes.py]: output formatting, validation and execution *)

Module Service.

Definition ESC : ascii := ascii_of_nat 27.

Definition in_range (lo hi : nat) (c : ascii) : bool :=
  (lo <=? nat_of_ascii c)%nat && (nat_of_ascii c <=? hi)%nat.

(** the classes of the pattern
    [\x1B(?:[@-Z\\-_]|\[[0-?]*[ -/]*[@-~])] *)
Definition is_single (c : ascii) : bool := in_range 64 90 c || in_range 92 95 c.
Definition is_param (c : ascii) : bool := in_range 48 63 c.
Definition is_inter (c : ascii) : bool := in_range 32 47 c.
Definition is_final (c : ascii) : bool := in_range 64 126 c.

(** the number of leading characters of [s] in the class [p] *)
Fixpoint span_len (p : ascii -> bool) (s : string) : nat :=
  match s with
  | EmptyString => O
  | String c s' => if p c then S (span_len p s') else O
  end.

(** The number of characters the pattern consumes behind an ESC that is
    followed by [r], when it matches there. *)
Definition escape_len (r : string) : option nat :=
  match r with
  | EmptyString => None
  | String c r' =>
      if is_single c then Some 1%nat
      else if Ascii.eqb c "["%char then
        let n1 := span_len is_param r' in
        let n2 := span_len is_inter (PyStr.drop n1 r') in
        match PyStr.drop n2 (PyStr.drop n1 r') with
        | String f _ => if is_final f then Some (1 + n1 + n2 + 1)%nat else None
        | EmptyString => None
        end
      else None
  end.

(** [ansi_escape.sub('', s)]; [skip] counts the characters of a match
    that are still to be dropped. *)
Fixpoint strip_ansi_from (skip : nat) (s : string) : string :=
  match s with
  | EmptyString => EmptyString
  | String c s' =>
      match skip with
      | S k => strip_ansi_from k s'
      | O =>
          if Ascii.eqb c ESC then
            match escape_len s' with
            | Some n => strip_ansi_from n s'
            | None => String c (strip_ansi_from O s')
            end
          else String c (strip_ansi_from O s')
      end
  end.

Definition strip_ansi (s : string) : string := strip_ansi_from O s.

(** [s[:n]] for any integer [n] *)
Definition slice_to (n : Z) (s : string) : string :=
  if (0 <=? n)%Z then PyStr.take (Z.to_nat n) s
  else PyStr.take (String.length s - Z.to_nat (- n)) s.

Definition truncation_marker (max_length : Z) (total : nat) : string :=
  String (ascii_of_nat 10) (String (ascii_of_nat 10)
    ("...(output truncated - showing " ++ str_int max_length ++ "/"
     ++ str_int (Z.of_nat total) ++ " chars)")).

(** [AidaMCPService.format_output]; [output_max_length] is the attribute
    of the service. *)
Definition format_output (output_max_length : Z) (output : string) (max_length : option Z)
  : string :=
  match output with
  | EmptyString => output
  | _ =>
      let max_length := match max_length with
                        | Some m => m
                        | None => output_max_length
                        end in
      let clean_output := strip_ansi output in
      if negb (max_length =? -1)%Z && (max_length <? Z.of_nat (String.length clean_output))%Z
      then slice_to max_length clean_output
           ++ truncation_marker max_length (String.length clean_output)
      else clean_output
  end.

(** An entry of [command_history]. *)
Record history_entry : Type := {
  timestamp : Z;
  h_container : string;
  h_command : string;
  h_success : bool;
  h_execution_time : Z
}.

(** The attributes of [AidaMCPService] that initialization, validation,
    execution and the tool check use; times are in microseconds, the time
    to live in seconds.  An [httpx.AsyncClient] is named by an integer;
    [http_client] is [None] until the first [initialize]. *)
Record mcp : Type := {
  http_client : option Z;
  current_container : option string;
  claude_container_name : string;
  is_initialized : bool;
  registry : Runner.service;
  command_history : list history_entry;
  max_history : nat;
  tool_cache : list (string * bool);
  output_max_length : Z;
  output_max_length_cache_time : Z;
  output_max_length_cache_ttl : Z
}.

(** [AidaMCPService.__init__] *)
Definition init_mcp : mcp :=
  {| http_client := None;
     current_container := None;
     claude_container_name := "exegol-aida";
     is_initialized := false;
     registry := Runner.init_service;
     command_history := [];
     max_history := 50;
     tool_cache := [];
     output_max_length := 5000;
     output_max_length_cache_time := 0;
     output_max_length_cache_ttl := 60 |}.

(** The dictionary [validate_container_status] returns. *)
Record validation : Type := {
  v_success : bool;
  v_status : option string;
  v_error : option string;
  v_details : option string
}.

(** The dictionary [execute_container_command] returns. *)
Record execution : Type := {
  e_success : bool;
  e_container : string;
  e_command : string;
  e_stdout : option string;
  e_stderr : option string;
  e_returncode : option Z;
  e_execution_time : Z;
  e_error : option string;
  e_details : option string;
  e_error_type : option string;
  e_raw_error : option string
}.

(** What the backend answers to the request for a setting: the request
    fails, or a response arrives with a status code and, for the value of
    [int(data["value"])], [None] when that raises. *)
Inductive http_outcome : Type :=
| RequestFails
| Responds (status_code : Z) (value : option Z).

(** [l[-n:]] for a positive [n] *)
Definition lastn {A : Type} (n : nat) (l : list A) : list A :=
  skipn (List.length l - n) l.

(** [command[:100] + "..." if len(command) > 100 else command] *)
Definition shorten (command : string) : string :=
  if (100 <? String.length command)%nat
  then PyStr.take 100 command ++ "..."
  else command.

(** the truth value of an optional string *)
Definition selected (c : option string) : option string :=
  match c with
  | Some EmptyString => None
  | other => other
  end.

Definition with_history (self : mcp) (h : list history_entry) : mcp :=
  {| http_client := http_client self;
     current_container := current_container self;
     claude_container_name := claude_container_name self;
     is_initialized := is_initialized self;
     registry := registry self;
     command_history := h;
     max_history := max_history self;
     tool_cache := tool_cache self;
     output_max_length := output_max_length self;
     output_max_length_cache_time := output_max_length_cache_time self;
     output_max_length_cache_ttl := output_max_length_cache_ttl self |}.

Definition with_output_max_length (self : mcp) (v t : Z) : mcp :=
  {| http_client := http_client self;
     current_container := current_container self;
     claude_container_name := claude_container_name self;
     is_initialized := is_initialized self;
     registry := registry self;
     command_history := command_history self;
     max_history := max_history self;
     tool_cache := tool_cache self;
     output_max_length := v;
     output_max_length_cache_time := t;
     output_max_length_cache_ttl := output_max_length_cache_ttl self |}.

Definition with_tool_cache (self : mcp) (c : list (string * bool)) : mcp :=
  {| http_client := http_client self;
     current_container := current_container self;
     claude_container_name := claude_container_name self;
     is_initialized := is_initialized self;
     registry := registry self;
     command_history := command_history self;
     max_history := max_history self;
     tool_cache := c;
     output_max_length := output_max_length self;
     output_max_length_cache_time := output_max_length_cache_time self;
     output_max_length_cache_ttl := output_max_length_cache_ttl self |}.

(** [AidaMCPService.get_output_max_length]: the value, the service after
    the call, and whether the backend was asked. *)
Definition get_output_max_length (http : http_outcome) (self : mcp) (current_time : Z)
  : Z * mcp * bool :=
  if (current_time - output_max_length_cache_time self
      <? output_max_length_cache_ttl self * Runner.ticks_per_second)%Z
  then (output_max_length self, self, false)
  else
    match http with
    | Responds code (Some v) =>
        if (code =? 200)%Z
        then (v, with_output_max_length self v current_time, true)
        else (output_max_length self, self, true)
    | _ => (output_max_length self, self, true)
    end.

Section WithPython.

(** [f"{timeout}"] for a float number of seconds, given in microseconds *)
Variable str_seconds : Z -> string.

Definition run (os : list string -> Runner.os_behaviour) (argv : list string)
  : Runner.run_result * list Runner.action :=
  let '(res, acts, _) := Runner._run_command str_seconds os argv (30 * Runner.ticks_per_second) in
  (res, acts).

(** [AidaMCPService.validate_container_status] *)
Definition validate_container_status (os : list string -> Runner.os_behaviour) (self : mcp)
  : validation * list Runner.action :=
  match selected (current_container self) with
  | None =>
      ({| v_success := false; v_status := None;
          v_error := Some "No container selected"; v_details := None |}, [])
  | Some container =>
      let '(result, acts) :=
        run os ["docker"; "inspect"; container; "--format"; "{{.State.Status}}"] in
      if negb (Runner.success result) then
        ({| v_success := false; v_status := None;
            v_error := Some "Container not found";
            v_details := Some (Runner.stderr result) |}, acts)
      else
        let status := PyStr.strip (Runner.stdout result) in
        if String.eqb status "running" then
          ({| v_success := true; v_status := Some "running";
              v_error := None; v_details := None |}, acts)
        else if String.eqb status "created" || String.eqb status "exited" then
          let '(start_result, acts') := run os ["docker"; "start"; container] in
          if Runner.success start_result then
            ({| v_success := true; v_status := Some "started";
                v_error := None; v_details := None |}, (acts ++ acts')%list)
          else
            ({| v_success := false; v_status := None;
                v_error := Some "Failed to start container";
                v_details := Some (Runner.stderr start_result) |}, (acts ++ acts')%list)
        else
          ({| v_success := false; v_status := None;
              v_error := Some ("Container in invalid state: " ++ status);
              v_details := None |}, acts)
  end.

Definition wrapped (command : string) : string :=
  "source /root/.bashrc 2>/dev/null && " ++ command.

Definition exec_argv (container_name command : string) : list string :=
  ["docker"; "exec"; container_name; "bash"; "-c"; wrapped command].

(** [AidaMCPService.execute_container_command]; the three clock readings
    are those of [start_time], of the end of the command, and of
    [get_output_max_length].  Every call in the [try] block absorbs its own
    failures, so the [except] branch of the block is not entered. *)
Definition execute_container_command (os : list string -> Runner.os_behaviour)
    (http : http_outcome) (self : mcp) (container_name command : string)
    (start_time end_time settings_time : Z)
  : execution * mcp * list Runner.action :=
  let '(validation, vacts) := validate_container_status os self in
  if negb (v_success validation) then
    ({| e_success := false; e_container := container_name; e_command := command;
        e_stdout := None; e_stderr := None; e_returncode := None;
        e_execution_time := 0;
        e_error := Some ("Container validation failed: "
                         ++ match v_error validation with Some e => e | None => "" end);
        e_details := Some (match v_details validation with Some d => d | None => "" end);
        e_error_type := None; e_raw_error := None |},
     self, vacts)
  else
    let '(result, acts) := run os (exec_argv container_name command) in
    let execution_time := (end_time - start_time)%Z in
    let kept :=
      if (max_history self <=? List.length (command_history self))%nat
      then lastn 25 (command_history self)
      else command_history self in
    let history :=
      (kept ++ [{| timestamp := start_time;
                   h_container := container_name;
                   h_command := shorten command;
                   h_success := Runner.success result;
                   h_execution_time := execution_time |}])%list in
    let '(_, self1, _) := get_output_max_length http (with_history self history) settings_time in
    ({| e_success := Runner.success result;
        e_container := container_name;
        e_command := command;
        e_stdout := Some (format_output (output_max_length self1) (Runner.stdout result) None);
        e_stderr := Some (Runner.stderr result);
        e_returncode := Some (Runner.returncode result);
        e_execution_time := execution_time;
        e_error := None; e_details := None;
        e_error_type := Some (Runner.error_type result);
        e_raw_error := Some (match Runner.raw_error result with Some r => r | None => "" end) |},
     self1, (vacts ++ acts)%list).

Definition tool_argv (container tool_name : string) : list string :=
  ["docker"; "exec"; container; "bash"; "-c";
   "source /root/.bashrc 2>/dev/null && which " ++ tool_name].

(** [AidaMCPService.check_tool_availability] *)
Definition check_tool_availability (os : list string -> Runner.os_behaviour) (self : mcp)
    (tool_name : string) : bool * mcp * list Runner.action :=
  match selected (current_container self) with
  | None => (false, self, [])
  | Some container =>
      let cache_key := container ++ ":" ++ tool_name in
      match Commands.dict_get cache_key (tool_cache self) with
      | Some available => (available, self, [])
      | None =>
          let '(result, acts) := run os (tool_argv container tool_name) in
          (Runner.success result,
           with_tool_cache self (Commands.dict_set cache_key (Runner.success result)
                                   (tool_cache self)),
           acts)
      end
  end.

End WithPython.

(** [c["name"] == self.claude_container_name] and
    ["running" in c["status"].lower()] *)
Definition is_running (c : Runner.container) : result bool :=
  st <- PyJson.lower (Runner.status c) ;;
  Ok (PyStr.contains "running" st).

Fixpoint running_containers (containers : list Runner.container)
  : result (list Runner.container) :=
  match containers with
  | [] => Ok []
  | c :: rest =>
      r <- is_running c ;;
      rs <- running_containers rest ;;
      Ok (if r : bool then c :: rs else rs)
  end.

(** The selection of [AidaMCPService.initialize] among the discovered
    containers: the new value of [current_container]. *)
Definition select_container (claude_name : string) (current : option string)
    (containers : list Runner.container) : result (option string) :=
  match find (fun c => String.eqb (Runner.name c) claude_name) containers with
  | Some _ => Ok (Some claude_name)
  | None =>
      running <- running_containers containers ;;
      match running, containers with
      | r :: _, _ => Ok (Some (Runner.name r))
      | [], c :: _ => Ok (Some (Runner.name c))
      | [], [] => Ok current
      end
  end.

Definition with_selection (self : mcp) (reg : Runner.service) (current : option string)
    (initialized : bool) : mcp :=
  {| http_client := http_client self;
     current_container := current;
     claude_container_name := claude_container_name self;
     is_initialized := initialized;
     registry := reg;
     command_history := command_history self;
     max_history := max_history self;
     tool_cache := tool_cache self;
     output_max_length := output_max_length self;
     output_max_length_cache_time := output_max_length_cache_time self;
     output_max_length_cache_ttl := output_max_length_cache_ttl self |}.

(** [self.http_client = client] *)
Definition with_http_client (self : mcp) (client : option Z) : mcp :=
  {| http_client := client;
     current_container := current_container self;
     claude_container_name := claude_container_name self;
     is_initialized := is_initialized self;
     registry := registry self;
     command_history := command_history self;
     max_history := max_history self;
     tool_cache := tool_cache self;
     output_max_length := output_max_length self;
     output_max_length_cache_time := output_max_length_cache_time self;
     output_max_length_cache_ttl := output_max_length_cache_ttl self |}.

(** [AidaMCPService.cleanup]: the clients it closes. *)
Definition cleanup (self : mcp) : list Z :=
  match http_client self with
  | Some client => [client]
  | None => []
  end.

Section Initialize.

Variable str_seconds : Z -> string.
Variable json_loads : string -> option json.

(** [AidaMCPService.initialize]; [client] is the object that
    [httpx.AsyncClient(timeout=120.0)] returns.  The client is created
    and stored on every call, before [is_initialized] is looked at; then,
    for a service that is not initialized: discover, select, mark as
    initialized.  An exception of the selection leaves the service
    uninitialized. *)
Definition initialize (os : list string -> Runner.os_behaviour) (self : mcp)
    (client : Z) (current_time : Z) : result unit * mcp * list Runner.action :=
  let self := with_http_client self (Some client) in
  if is_initialized self then (Ok tt, self, [])
  else
    let '(found, reg, acts) :=
      Runner.discover_containers str_seconds json_loads os (registry self)
        current_time false in
    match found with
    | Raise e => (Raise e, with_selection self reg (current_container self) false, acts)
    | Ok containers =>
        match select_container (claude_container_name self) (current_container self)
                containers with
        | Raise e => (Raise e, with_selection self reg (current_container self) false, acts)
        | Ok current => (Ok tt, with_selection self reg current true, acts)
        end
    end.

End Initialize.

End Service.

(** ** [api/commands.py]: the plain execution route *)

Module CommandRoutes.

Section WithService.

(** [ContainerService.execute_and_log_command] *)
Variable execute_and_log_command : Z -> string -> option string -> result exec_result.

(** [execute_command]: the response and the calls made to the command
    service. *)
Definition execute_command (assessments : list assessment)
    (assessment_id : Z) (command : string) (phase : option string)
  : result exec_result * list exec_call :=
  match find_assessment assessment_id assessments with
  | None =>
      (Raise (HTTPException HTTP_404_NOT_FOUND
                ("Assessment with id " ++ str_int assessment_id ++ " not found")), [])
  | Some _ =>
      (execute_and_log_command assessment_id command phase,
       [{| call_assessment_id := assessment_id;
           call_command := command;
           call_phase := phase |}])
  end.

End WithService.

End CommandRoutes.

(** ** [api/pending_commands.py]: the routes that write the settings

    The routes read the keyword list through [get_command_settings], which
    returns the module-level list [DEFAULT_FILTER_KEYWORDS] itself when no
    keyword row is stored; [add_keyword] and [remove_keyword] then change
    that very list.  The list is therefore part of the state: [defaults]
    is its content when the route starts. *)

Module Keywords.

(** [schemas.CommandSettingsUpdate] *)
Record CommandSettingsUpdate : Type := {
  u_execution_mode : option string;
  u_filter_keywords : option (list string);
  u_timeout_seconds : option Z
}.

Definition is_keyword (keyword : string) (v : json) : bool :=
  match v with
  | JStr s => String.eqb s keyword
  | _ => false
  end.

(** [keyword in keywords] *)
Definition contains_keyword (keyword : string) (keywords : json) : result bool :=
  match keywords with
  | JArr l => Ok (existsb (is_keyword keyword) l)
  | JStr s => Ok (PyStr.contains keyword s)
  | JObj fields => Ok (existsb (fun kv => String.eqb (fst kv) keyword) fields)
  | _ => Raise TypeError
  end.

(** [l.remove(keyword)] for a list that contains it *)
Fixpoint remove_first (keyword : string) (l : list json) : list json :=
  match l with
  | [] => []
  | v :: rest => if is_keyword keyword v then rest else v :: remove_first keyword rest
  end.

Fixpoint remove_first_string (keyword : string) (l : list string) : list string :=
  match l with
  | [] => []
  | v :: rest => if String.eqb v keyword then rest else v :: remove_first_string keyword rest
  end.

Definition valid_mode (m : string) : bool :=
  String.eqb m "open" || String.eqb m "filter" || String.eqb m "closed".

Section WithPython.

(** [json.loads]; [None] stands for [JSONDecodeError] *)
Variable json_loads : string -> option json.

(** [json.dumps] *)
Variable json_dumps : json -> string.

(** [int(s)] for a string; [None] stands for [ValueError] *)
Variable py_int : string -> option Z.

(** The response built from [get_command_settings(db)]. *)
Definition settings_response (defaults : list string) (d : Pending.database)
  : result Pending.CommandSettingsResponse :=
  s <- Pending.get_command_settings json_loads py_int defaults d ;;
  Pending.validate_settings s.

(** The route [get_settings] when the module-level list holds [defaults]. *)
Definition get_settings (defaults : list string) (conn : result Pending.database)
  : Pending.CommandSettingsResponse :=
  match (d <- conn ;; settings_response defaults d) with
  | Ok r => r
  | Raise _ =>
      {| Pending.resp_execution_mode := Pending.DEFAULT_EXECUTION_MODE;
         Pending.resp_filter_keywords := defaults;
         Pending.resp_timeout_seconds := Pending.DEFAULT_TIMEOUT_SECONDS |}
  end.

(** The route [update_settings]: the response, the database after it, and
    the settings broadcast as [command_settings_updated]. *)
Definition update_settings (defaults : list string) (d : Pending.database)
    (update : CommandSettingsUpdate)
  : result Pending.CommandSettingsResponse * Pending.database * list Pending.settings :=
  let mode := match u_execution_mode update with
              | Some EmptyString => None
              | other => other
              end in
  match mode with
  | Some m =>
      if negb (valid_mode m) then
        (Raise (HTTPException HTTP_400_BAD_REQUEST
                  "execution_mode must be 'open', 'filter', or 'closed'"), d, [])
      else
        let d1 := Pending.set_command_setting d Pending.MODE_KEY m
                    (Some "Command execution mode: open, filter, or closed") in
        let d2 := match u_filter_keywords update with
                  | Some l => Pending.set_command_setting d1 Pending.KEYWORDS_KEY
                                (json_dumps (JArr (map JStr l)))
                                (Some "Keywords that trigger approval in filter mode")
                  | None => d1
                  end in
        let d3 := match u_timeout_seconds update with
                  | Some t => Pending.set_command_setting d2 Pending.TIMEOUT_KEY (str_int t)
                                (Some "Timeout in seconds for pending commands")
                  | None => d2
                  end in
        match Pending.get_command_settings json_loads py_int defaults d3 with
        | Raise e => (Raise e, d3, [])
        | Ok s => (settings_response defaults d3, d3, [s])
        end
  | None =>
      let d2 := match u_filter_keywords update with
                | Some l => Pending.set_command_setting d Pending.KEYWORDS_KEY
                              (json_dumps (JArr (map JStr l)))
                              (Some "Keywords that trigger approval in filter mode")
                | None => d
                end in
      let d3 := match u_timeout_seconds update with
                | Some t => Pending.set_command_setting d2 Pending.TIMEOUT_KEY (str_int t)
                              (Some "Timeout in seconds for pending commands")
                | None => d2
                end in
      match Pending.get_command_settings json_loads py_int defaults d3 with
      | Raise e => (Raise e, d3, [])
      | Ok s => (settings_response defaults d3, d3, [s])
      end
  end.

(** The route [add_keyword]: the response, the database and the
    module-level list after it. *)
Definition add_keyword (defaults : list string) (d : Pending.database) (raw : string)
  : result Pending.CommandSettingsResponse * Pending.database * list string :=
  match Pending.get_command_settings json_loads py_int defaults d with
  | Raise e => (Raise e, d, defaults)
  | Ok settings =>
      let keyword := PyStr.lower (PyStr.strip raw) in
      let step : result (Pending.database * list string) :=
        if String.eqb keyword "" then Ok (d, defaults)
        else
          present <- contains_keyword keyword (Pending.filter_keywords settings) ;;
          if present : bool then Ok (d, defaults)
          else
            match Pending.filter_keywords settings with
            | JArr l =>
                Ok (Pending.set_command_setting d Pending.KEYWORDS_KEY
                      (json_dumps (JArr (l ++ [JStr keyword])%list))
                      (Some "Keywords that trigger approval in filter mode"),
                    match Pending.setting_row Pending.KEYWORDS_KEY d with
                    | None => (defaults ++ [keyword])%list
                    | Some _ => defaults
                    end)
            | _ => Raise AttributeError
            end in
      match step with
      | Raise e => (Raise e, d, defaults)
      | Ok (d', defaults') => (settings_response defaults' d', d', defaults')
      end
  end.

(** The route [remove_keyword]. *)
Definition remove_keyword (defaults : list string) (d : Pending.database) (raw : string)
  : result Pending.CommandSettingsResponse * Pending.database * list string :=
  match Pending.get_command_settings json_loads py_int defaults d with
  | Raise e => (Raise e, d, defaults)
  | Ok settings =>
      let keyword := PyStr.lower (PyStr.strip raw) in
      let step : result (Pending.database * list string) :=
        present <- contains_keyword keyword (Pending.filter_keywords settings) ;;
        if present : bool then
          match Pending.filter_keywords settings with
          | JArr l =>
              Ok (Pending.set_command_setting d Pending.KEYWORDS_KEY
                    (json_dumps (JArr (remove_first keyword l)))
                    (Some "Keywords that trigger approval in filter mode"),
                  match Pending.setting_row Pending.KEYWORDS_KEY d with
                  | None => remove_first_string keyword defaults
                  | Some _ => defaults
                  end)
          | _ => Raise AttributeError
          end
        else Ok (d, defaults) in
      match step with
      | Raise e => (Raise e, d, defaults)
      | Ok (d', defaults') => (settings_response defaults' d', d', defaults')
      end
  end.

End WithPython.

End Keywords.

(** ** [websocket/manager.py]: the connection manager

    A connection is named by an integer; a set of connections is a list
    without repetition. *)

Module Sockets.

(** [ConnectionManager]: [active_connections] and
    [assessment_connections]. *)
Record ConnectionManager : Type := {
  active_connections : list Z;
  assessment_connections : list (Z * list Z)
}.

(** [ConnectionManager.__init__] *)
Definition init : ConnectionManager :=
  {| active_connections := []; assessment_connections := [] |}.

Fixpoint get (aid : Z) (d : list (Z * list Z)) : option (list Z) :=
  match d with
  | [] => None
  | (k, v) :: rest => if (k =? aid)%Z then Some v else get aid rest
  end.

Fixpoint set (aid : Z) (v : list Z) (d : list (Z * list Z)) : list (Z * list Z) :=
  match d with
  | [] => [(aid, v)]
  | (k, x) :: rest => if (k =? aid)%Z then (k, v) :: rest else (k, x) :: set aid v rest
  end.

(** [self.assessment_connections.get(assessment_id, set())] *)
Definition subscribers (m : ConnectionManager) (aid : Z) : list Z :=
  match get aid (assessment_connections m) with
  | Some s => s
  | None => []
  end.

Definition member (ws : Z) (s : list Z) : bool := existsb (Z.eqb ws) s.

(** [s.add(ws)] *)
Definition add (ws : Z) (s : list Z) : list Z :=
  if member ws s then s else (s ++ [ws])%list.

(** [l.remove(ws)] *)
Fixpoint remove_first (ws : Z) (l : list Z) : list Z :=
  match l with
  | [] => []
  | x :: rest => if (x =? ws)%Z then rest else x :: remove_first ws rest
  end.

(** [ConnectionManager.connect], once the connection is accepted *)
Definition connect (m : ConnectionManager) (ws : Z) (assessment_id : option Z)
  : ConnectionManager :=
  {| active_connections := (active_connections m ++ [ws])%list;
     assessment_connections :=
       match assessment_id with
       | Some aid => set aid (add ws (subscribers m aid)) (assessment_connections m)
       | None => assessment_connections m
       end |}.

(** [ConnectionManager.disconnect] *)
Definition disconnect (m : ConnectionManager) (ws : Z) : ConnectionManager :=
  {| active_connections := remove_first ws (active_connections m);
     assessment_connections :=
       map (fun kv => (fst kv, List.filter (fun x => negb (x =? ws)%Z) (snd kv)))
           (assessment_connections m) |}.

(** [ConnectionManager.broadcast]: the connections the message was sent
    to, in the order of the sends, and the manager after the clean-up;
    [send_ok] says for which connections [send_text] succeeds. *)
Definition broadcast (send_ok : Z -> bool) (m : ConnectionManager) (assessment_id : option Z)
  : list Z * ConnectionManager :=
  let target_connections :=
    match assessment_id with
    | Some aid => subscribers m aid
    | None => active_connections m
    end in
  let disconnected := List.filter (fun ws => negb (send_ok ws)) target_connections in
  (List.filter send_ok target_connections, fold_left disconnect disconnected m).

(** [ConnectionManager.send_personal] *)
Definition send_personal (send_ok : Z -> bool) (m : ConnectionManager) (ws : Z)
  : bool * ConnectionManager :=
  if send_ok ws then (true, m) else (false, disconnect m ws).

(** [ConnectionManager.get_connection_count] *)
Definition get_connection_count (m : ConnectionManager) (assessment_id : option Z) : nat :=
  match assessment_id with
  | Some aid => List.length (subscribers m aid)
  | None => List.length (active_connections m)
  end.

(** An operation on the manager. *)
Inductive operation : Type :=
| Connect (ws : Z) (assessment_id : option Z)
| Disconnect (ws : Z)
| Broadcast (send_ok : Z -> bool) (assessment_id : option Z)
| SendPersonal (send_ok : Z -> bool) (ws : Z).

Definition apply (m : ConnectionManager) (op : operation) : ConnectionManager :=
  match op with
  | Connect ws aid => connect m ws aid
  | Disconnect ws => disconnect m ws
  | Broadcast send_ok aid => snd (broadcast send_ok m aid)
  | SendPersonal send_ok ws => snd (send_personal send_ok m ws)
  end.

End Sockets.

(** ** Vocabulary of the statements *)

(** [phrase in stderr.lower()] *)
Definition mentions (phrase stderr : string) : bool :=
  PyStr.contains phrase (PyStr.lower stderr).



(** None of the three command settings is stored. *)
Definition no_command_settings (d : Pending.database) : Prop :=
  Pending.setting_row Pending.MODE_KEY d = None /\
  Pending.setting_row Pending.KEYWORDS_KEY d = None /\
  Pending.setting_row Pending.TIMEOUT_KEY d = None.

(** The command line of the list-containers call. *)
Definition docker_ps : list string := ["docker"; "ps"; "-a"; "--format"; "json"].

(** The guard of [discover_containers]: no refresh is forced, the cached
    list is not empty, and it is younger than the time to live. *)
Definition cache_hit (self : Runner.service) (current_time : Z) (force_refresh : bool) : bool :=
  negb force_refresh
  && match Runner.containers_cache self with [] => false | _ => true end
  && (current_time - Runner.cache_timestamp self
      <? Runner.cache_ttl self * Runner.ticks_per_second)%Z.

(** *** The lines of [docker ps --format json]

    Docker prints one object per line, whose keys and values are strings.
    [flat_loads] decodes such a line when no string needs an escape, and
    rejects every other line; on the lines it decodes it returns what
    [json.loads] returns.  [flat_dumps] writes such a line. *)

Definition dquote : ascii := ascii_of_nat 34.

(** the characters up to the closing quote, and what follows it *)
Fixpoint read_string (s : string) : option (string * string) :=
  match s with
  | EmptyString => None
  | String c r =>
      if Ascii.eqb c dquote then Some (EmptyString, r)
      else if Ascii.eqb c (ascii_of_nat 92) || (nat_of_ascii c <? 32)%nat then None
      else match read_string r with
           | Some (v, rest) => Some (String c v, rest)
           | None => None
           end
  end.

Fixpoint read_members (fuel : nat) (s : string) : option (list (string * json)) :=
  match fuel with
  | O => None
  | S fuel' =>
      match s with
      | String c r =>
          if Ascii.eqb c dquote then
            match read_string r with
            | Some (k, String ":"%char (String c2 r2)) =>
                if Ascii.eqb c2 dquote then
                  match read_string r2 with
                  | Some (v, String ","%char r3) =>
                      option_map (cons (k, JStr v)) (read_members fuel' r3)
                  | Some (v, String "}"%char EmptyString) => Some [(k, JStr v)]
                  | _ => None
                  end
                else None
            | _ => None
            end
          else None
      | EmptyString => None
      end
  end.

Definition flat_loads (line : string) : option json :=
  match line with
  | String "{"%char (String "}"%char EmptyString) => Some (JObj [])
  | String "{"%char r => option_map JObj (read_members (String.length r) r)
  | _ => None
  end.

Definition quoted (s : string) : string :=
  String dquote s ++ String dquote EmptyString.

Definition flat_dumps (fields : list (string * string)) : string :=
  "{" ++ String.concat "," (map (fun kv => quoted (fst kv) ++ ":" ++ quoted (snd kv)) fields)
      ++ "}".

(** Two lines as Docker prints them: an Exegol container and another one. *)
Definition exegol_line : string :=
  flat_dumps [("CreatedAt", "2025-01-01 10:00:00 +0000 UTC"); ("ID", "0123456789abcdef");
              ("Image", "nwodtuhs/exegol:full"); ("Names", "exegol-aida");
              ("State", "running")].

Definition nginx_line : string :=
  flat_dumps [("ID", "fedcba9876543210"); ("Image", "nginx:latest");
              ("Names", "web"); ("State", "exited")].

Definition newline : string := String (ascii_of_nat 10) EmptyString.

(** The entry of the list for [exegol_line]. *)
Definition exegol_container : Runner.container :=
  {| Runner.name := "exegol-aida";
     Runner.image := "nwodtuhs/exegol:full";
     Runner.status := JStr "running";
     Runner.id := JStr "0123456789ab";
     Runner.created := JStr "2025-01-01 10:00:00 +0000 UTC";
     Runner.ports := [];
     Runner.source := "docker" |}.

(** An operating system on which every command prints [out] and exits
    with [rc] after a millisecond. *)
Definition prints (rc : Z) (out : string) : list string -> Runner.os_behaviour :=
  fun _ => Runner.Runs (Some 1000%Z) rc out "" false.

(** The list command fails to run: the binary is missing, the spawn or the
    wait raises, the command overruns its 30 seconds, or it exits with a
    non-zero code. *)
Definition list_command_fails (os : list string -> Runner.os_behaviour) : Prop :=
  match os docker_ps with
  | Runner.Runs duration rc _ _ _ =>
      Runner.overruns duration (30 * Runner.ticks_per_second) = true \/ rc <> 0%Z
  | _ => True
  end.

(** The list command runs, and no line of its output decodes. *)
Definition no_line_decodes (json_loads : string -> option json)
    (os : list string -> Runner.os_behaviour) : Prop :=
  match os docker_ps with
  | Runner.Runs _ _ out _ _ =>
      forall line, In line (PyStr.split_lines (PyStr.strip out)) -> json_loads line = None
  | _ => False
  end.

(** every character of [s] satisfies [p] *)
Fixpoint all_chars (p : ascii -> bool) (s : string) : bool :=
  match s with
  | EmptyString => true
  | String c s' => p c && all_chars p s'
  end.

(** The dictionary of the credentials of an assessment, by bare
    placeholder name. *)
Definition assessment_creds (credentials : list Commands.Credential) (assessment_id : Z)
  : list (string * Commands.Credential) :=
  Commands.creds_map
    (List.filter (fun c => (Commands.cred_assessment_id c =? assessment_id)%Z) credentials).

(** The token [name] matches a credential of the dictionary whose
    replacement is the string [v]. *)
Definition resolves (py_str : json -> string) (cmap : list (string * Commands.Credential))
    (name v : string) : Prop :=
  exists cred, Commands.dict_get name cmap = Some cred /\
               Commands.replacement py_str cred = Some v.


(** The request of the failing scenario of C7: a bearer credential without
    a token, and a command that also names a placeholder nobody stored. *)
Definition tokenless : Commands.Credential :=
  {| Commands.cred_id := 1;
     Commands.cred_assessment_id := 1;
     Commands.credential_type := "bearer_token";
     Commands.placeholder := "{{API_TOKEN}}";
     Commands.token := None;
     Commands.username := None;
     Commands.password := None;
     Commands.cookie_value := None;
     Commands.custom_data := None |}.

(** A basic-auth credential with user name u and password p. *)
Definition basic_up : Commands.Credential :=
  {| Commands.cred_id := 2;
     Commands.cred_assessment_id := 1;
     Commands.credential_type := "basic_auth";
     Commands.placeholder := "{{AUTH}}";
     Commands.token := None;
     Commands.username := Some "u";
     Commands.password := Some "p";
     Commands.cookie_value := None;
     Commands.custom_data := None |}.

Definition assessment_one : assessment :=
  {| assessment_ident := 1; assessment_name := "acme" |}.

(** A command service that succeeds and echoes the command it was given. *)
Definition echo_service (assessment_id : Z) (command : string) (phase : option string)
  : result exec_result :=
  Ok {| exec_stdout := command; exec_stderr := ""; exec_returncode := 0;
        exec_success := true |}.

(** *** The pending-command table *)

(** The sweep is due for a row: it is pending, has a creation time, and
    more than its limit has elapsed since. *)
Definition due (now global : Z) (r : Pending.PendingCommand) : bool :=
  Pending.is_pending r
  && match Pending.created_at r with
     | Some created => Pending.expired now created (Pending.cmd_timeout_of global r)
     | None => false
     end.

(** The row after the sweep. *)
Definition swept (now global : Z) (r : Pending.PendingCommand) : Pending.PendingCommand :=
  if due now global r
  then Pending.mark_timeout now (Pending.cmd_timeout_of global r) r
  else r.

(** The creation times of the pending rows carry no time zone, as the
    column [TIMESTAMP] stores them. *)
Definition naive_rows (rows : list Pending.PendingCommand) : Prop :=
  forall r created,
    In r rows -> Pending.is_pending r = true -> Pending.created_at r = Some created ->
    Pending.aware created = false.

(** The message broadcast for a row timed out. *)
Definition timeout_event (cid : Z) : Pending.event :=
  {| Pending.ev_type := "command_timeout";
     Pending.ev_command_id := cid;
     Pending.ev_scope := None |}.

(** The world after a sweep at [now] under the global limit [global]. *)
Definition after_sweep (now global : Z) (w : Pending.world) : Pending.world :=
  {| Pending.db :=
       Pending.with_rows (Pending.db w)
         (map (swept now global) (Pending.pending_commands (Pending.db w)));
     Pending.calls := Pending.calls w;
     Pending.broadcasts :=
       (Pending.broadcasts w ++
        map timeout_event
          (map Pending.id
             (List.filter (due now global) (Pending.pending_commands (Pending.db w)))))%list |}.

(** A reachable table: the ids are distinct and below the sequence, a
    pending row has no [resolved_at] and a resolved row has one. *)
Definition table_ok (d : Pending.database) : Prop :=
  Pending.wf d /\ NoDup (map Pending.id (Pending.pending_commands d)).

(** A row function that keeps the id and either keeps a row or leaves it
    resolved at [now]. *)
Definition resolves_or_keeps (now : Z) (rows : list Pending.PendingCommand)
    (g : Pending.PendingCommand -> Pending.PendingCommand) : Prop :=
  forall x, In x rows ->
    Pending.id (g x) = Pending.id x /\
    (g x = x \/
     (Pending.is_pending (g x) = false /\
      Pending.resolved_at (g x) = Some (Pending.utc now))).

(** What a write at [now] does to the table: it rewrites rows in place,
    deletes the rows of one id, or appends a pending row. *)
Inductive transition (now : Z) (d d' : Pending.database) : Prop :=
| T_update (g : Pending.PendingCommand -> Pending.PendingCommand) :
    resolves_or_keeps now (Pending.pending_commands d) g ->
    Pending.pending_commands d' = map g (Pending.pending_commands d) ->
    Pending.next_id d' = Pending.next_id d ->
    transition now d d'
| T_delete (cid : Z) :
    Pending.pending_commands d'
    = List.filter (fun r => negb (Pending.id r =? cid)%Z) (Pending.pending_commands d) ->
    Pending.next_id d' = Pending.next_id d ->
    transition now d d'
| T_create (row : Pending.PendingCommand) :
    Pending.pending_commands d' = (Pending.pending_commands d ++ [row])%list ->
    Pending.id row = Pending.next_id d ->
    Pending.is_pending row = true ->
    Pending.resolved_at row = None ->
    Pending.next_id d' = (Pending.next_id d + 1)%Z ->
    transition now d d'.

(** A row that asks for a timeout of one second, created at time 0, in the
    table of an installation without stored settings. *)
Definition one_second_row : Pending.PendingCommand :=
  {| Pending.id := 1;
     Pending.assessment_id := 1;
     Pending.command := "rm -rf /tmp/x";
     Pending.phase := None;
     Pending.matched_keywords := ["rm"];
     Pending.status := "pending";
     Pending.resolved_by := None;
     Pending.rejection_reason := None;
     Pending.resolved_at := None;
     Pending.execution_result := None;
     Pending.created_at := Some (Pending.utc 0);
     Pending.timeout_seconds := Some 1%Z |}.

Definition one_second_world : Pending.world :=
  {| Pending.db := {| Pending.platform_settings := [];
                      Pending.pending_commands := [one_second_row];
                      Pending.assessments := [assessment_one];
                      Pending.next_id := 2 |};
     Pending.calls := [];
     Pending.broadcasts := [] |}.

(** *** Vocabulary for the service *)

Definition not_esc (c : ascii) : bool := negb (Ascii.eqb c Service.ESC).

(** A control sequence: ESC, an opening bracket, parameter characters,
    intermediate characters and a final character. *)
Definition csi (params inter : string) (final : ascii) : string :=
  String Service.ESC (String "["%char (params ++ inter ++ String final EmptyString)).

Definition inspect_argv (container : string) : list string :=
  ["docker"; "inspect"; container; "--format"; "{{.State.Status}}"].

Definition start_argv (container : string) : list string :=
  ["docker"; "start"; container].

(** A container passes the filter of the discovery: its image names
    Exegol, its name has no leading slash, its id has at most twelve
    items, and it comes from Docker. *)
Definition exegol_entry (c : Runner.container) : Prop :=
  PyStr.contains "exegol" (PyStr.lower (Runner.image c)) = true /\
  prefix "/" (Runner.name c) = false /\
  (match Runner.id c with
   | JStr s => (String.length s <= 12)%nat
   | JArr l => (List.length l <= 12)%nat
   | _ => False
   end) /\
  Runner.source c = "docker".

(** A service with the current container [c], otherwise as constructed. *)
Definition mcp_on (c : string) : Service.mcp :=
  Service.with_selection Service.init_mcp Runner.init_service (Some c) true.

(** An operating system on which the container is running and every
    command prints [out]. *)
Definition running_os (out : string) : list string -> Runner.os_behaviour :=
  fun argv =>
    match argv with
    | _ :: "inspect" :: _ => Runner.Runs (Some 1000%Z) 0 "running" "" false
    | _ => Runner.Runs (Some 1000%Z) 0 out "" false
    end.

(** *** Vocabulary for the settings routes *)

(** The value stored under a key of [platform_settings]. *)
Definition stored (k : string) (d : Pending.database) : option string :=
  option_map Pending.value (Pending.setting_row k d).

(** The stored execution mode, when there is one, is one of the three
    modes. *)
Definition valid_stored_mode (d : Pending.database) : Prop :=
  match stored Pending.MODE_KEY d with
  | Some m => Keywords.valid_mode m = true
  | None => True
  end.

(** The mode an update gives: an empty string counts as none. *)
Definition given_mode (update : Keywords.CommandSettingsUpdate) : option string :=
  match Keywords.u_execution_mode update with
  | Some EmptyString => None
  | other => other
  end.

(** A decoder of [json.dumps] for lists of strings without escapes, and
    of [str] for integers; on what they decode they return what
    [json.loads] and [int] return. *)
Fixpoint read_items (fuel : nat) (s : string) : option (list json) :=
  match fuel with
  | O => None
  | S fuel' =>
      match s with
      | String c r =>
          if Ascii.eqb c dquote then
            match read_string r with
            | Some (v, String ","%char (String " "%char r3)) =>
                option_map (cons (JStr v)) (read_items fuel' r3)
            | Some (v, String "]"%char EmptyString) => Some [JStr v]
            | _ => None
            end
          else None
      | EmptyString => None
      end
  end.

Definition list_loads (s : string) : option json :=
  match s with
  | String "["%char (String "]"%char EmptyString) => Some (JArr [])
  | String "["%char r => option_map JArr (read_items (String.length r) r)
  | _ => None
  end.

Definition list_dumps (v : json) : string :=
  match v with
  | JArr l =>
      "[" ++ String.concat ", " (map (fun x => match x with
                                               | JStr s => quoted s
                                               | _ => "null"
                                               end) l) ++ "]"
  | _ => "null"
  end.

Definition int_loads (s : string) : option Z :=
  option_map Z.of_int (DecimalString.NilZero.int_of_string s).

(** A database that stores the keyword list [l] and nothing else. *)
Definition keywords_database (l : list string) : Pending.database :=
  Pending.set_command_setting Pending.empty_database Pending.KEYWORDS_KEY
    (list_dumps (JArr (map JStr l))) None.

(** *** Vocabulary for the connection manager *)

(** The connections a broadcast is sent to. *)
Definition targets (m : Sockets.ConnectionManager) (assessment_id : option Z) : list Z :=
  match assessment_id with
  | Some aid => Sockets.subscribers m aid
  | None => Sockets.active_connections m
  end.

(** Every set of subscribers is without repetition and within the active
    connections. *)
Definition sockets_ok (m : Sockets.ConnectionManager) : Prop :=
  forall aid,
    NoDup (Sockets.subscribers m aid) /\
    incl (Sockets.subscribers m aid) (Sockets.active_connections m).

(** The name of a credential: its placeholder without the braces. *)
Definition cred_name (c : Commands.Credential) : string :=
  PyStr.strip_by PyStr.is_brace (Commands.placeholder c).

(** * Properties *)

Example ex_lower: PyStr.lower "Not Found: X_9" = "not found: x_9".
Proof. reflexivity. Qed.

Example ex_replace : PyStr.replace "{{A}}" "tok" "x {{A}} y {{A}}{{a}}" = "x tok y tok{{a}}".
Proof. reflexivity. Qed.

Example ex_strip : PyStr.strip "  a b  " = "a b".
Proof. reflexivity. Qed.

Example ex_split : PyStr.split_lines (String "a" (String (ascii_of_nat 10) "b")) = ["a"; "b"].
Proof. reflexivity. Qed.

Example ex_classify : Runner._classify_error 0 "bash: x: not found" = "command_not_found".
Proof. reflexivity. Qed.

(** ** C4: classification of a completed command *)

(** C4, refuted as stated: with return code 0 and a standard error that
    says "not found" the classification is [command_not_found], not
    success; and with return code 1 a standard error that says both
    "invalid" and "not found" is classified [command_not_found], so the
    phrase "not found" is tested before "invalid" and "usage:". *)
Lemma classify_error_zero_code_not_success :
  Runner._classify_error 0 "bash: nmapp: command not found" = "command_not_found" /\
  Runner._classify_error 0 "bash: nmapp: command not found" <> "success" /\
  Runner._classify_error 1 "invalid option: file not found" = "command_not_found".
Proof.
  repeat split; try reflexivity.
  vm_compute. discriminate.
Qed.

(** C4, as amended: [_classify_error] follows this priority order: return
    code 127 gives [command_not_found]; 126 gives [permission_denied]; 2
    gives [invalid_arguments]; otherwise a lower-cased standard error
    containing "not found" gives [command_not_found]; else one containing
    "permission denied" gives [permission_denied]; else one containing
    "invalid" or "usage:" gives [invalid_command]; else a nonzero code gives
    [command_failed]; else the result is [success].  So the result is
    [success] exactly when the code is 0 and the standard error contains
    none of the four phrases. *)
Theorem classify_error_priority (returncode : Z) (stderr : string) :
  (returncode = 127%Z -> Runner._classify_error returncode stderr = "command_not_found") /\
  (returncode = 126%Z -> Runner._classify_error returncode stderr = "permission_denied") /\
  (returncode = 2%Z -> Runner._classify_error returncode stderr = "invalid_arguments") /\
  (returncode <> 127%Z -> returncode <> 126%Z -> returncode <> 2%Z ->
     (mentions "not found" stderr = true ->
        Runner._classify_error returncode stderr = "command_not_found") /\
     (mentions "not found" stderr = false ->
      mentions "permission denied" stderr = true ->
        Runner._classify_error returncode stderr = "permission_denied") /\
     (mentions "not found" stderr = false ->
      mentions "permission denied" stderr = false ->
      mentions "invalid" stderr || mentions "usage:" stderr = true ->
        Runner._classify_error returncode stderr = "invalid_command") /\
     (mentions "not found" stderr = false ->
      mentions "permission denied" stderr = false ->
      mentions "invalid" stderr || mentions "usage:" stderr = false ->
        (returncode <> 0%Z -> Runner._classify_error returncode stderr = "command_failed") /\
        (returncode = 0%Z -> Runner._classify_error returncode stderr = "success"))) /\
  (Runner._classify_error returncode stderr = "success" <->
     returncode = 0%Z /\
     mentions "not found" stderr = false /\
     mentions "permission denied" stderr = false /\
     mentions "invalid" stderr = false /\
     mentions "usage:" stderr = false).
Proof.
  unfold Runner._classify_error, mentions.
  destruct (Z.eqb_spec returncode 127) as [E127|N127];
  [ subst; repeat split; intros; try reflexivity; try lia; try discriminate;
    match goal with H : _ /\ _ |- _ => destruct H; lia end | ].
  destruct (Z.eqb_spec returncode 126) as [E126|N126];
  [ subst; repeat split; intros; try reflexivity; try lia; try discriminate;
    match goal with H : _ /\ _ |- _ => destruct H; lia end | ].
  destruct (Z.eqb_spec returncode 2) as [E2|N2];
  [ subst; repeat split; intros; try reflexivity; try lia; try discriminate;
    match goal with H : _ /\ _ |- _ => destruct H; lia end | ].
  destruct (PyStr.contains "not found" (PyStr.lower stderr)) eqn:Hnf;
  destruct (PyStr.contains "permission denied" (PyStr.lower stderr)) eqn:Hpd;
  destruct (PyStr.contains "invalid" (PyStr.lower stderr)) eqn:Hinv;
  destruct (PyStr.contains "usage:" (PyStr.lower stderr)) eqn:Hus;
  destruct (Z.eqb_spec returncode 0) as [E0|N0]; cbn [orb negb];
  repeat split; intros; try reflexivity; try lia; try discriminate; try tauto;
  repeat match goal with H : _ /\ _ |- _ => destruct H end;
  try discriminate; try lia.
Qed.

(** The priority order at work: a clean exit is a success, and return code 1
    with a silent standard error is [command_failed]. *)
Lemma classify_error_priority_witness :
  Runner._classify_error 0 "" = "success" /\
  Runner._classify_error 1 "" = "command_failed" /\
  Runner._classify_error 127 "" = "command_not_found".
Proof.
  pose proof (classify_error_priority 0 "") as H0.
  pose proof (classify_error_priority 1 "") as H1.
  pose proof (classify_error_priority 127 "") as H127.
  split; [ | split ].
  - apply (proj2 (proj2 (proj2 (proj2 H0)))). repeat split; reflexivity.
  - destruct H1 as (_ & _ & _ & H1 & _).
    destruct H1 as (_ & _ & _ & H1); try lia.
    apply H1; try reflexivity. lia.
  - apply (proj1 H127). reflexivity.
Defined.

(** ** C2: the policy engine *)

Lemma matching_In (command : string) (kws : list string) (k : string) :
  In k (Policy.matching command kws) <->
  In k kws /\ PyStr.contains k (PyStr.lower command) = true.
Proof.
  unfold Policy.matching.
  exact (filter_In (fun k0 => PyStr.contains k0 (PyStr.lower command)) k kws).
Qed.

Lemma matching_nil (command : string) (kws : list string) :
  Policy.matching command kws = [] <->
  (forall k, In k kws -> PyStr.contains k (PyStr.lower command) = false).
Proof.
  split.
  - intros E k Hk.
    destruct (PyStr.contains k (PyStr.lower command)) eqn:Hc; [ | reflexivity ].
    assert (In k (Policy.matching command kws)) as Hin
      by (apply matching_In; split; assumption).
    rewrite E in Hin. destruct Hin.
  - intros H. destruct (Policy.matching command kws) as [ | k m ] eqn:E; [ reflexivity | ].
    assert (In k (Policy.matching command kws)) as Hin by (rewrite E; left; reflexivity).
    apply matching_In in Hin. destruct Hin as [Hk Hc].
    rewrite (H k Hk) in Hc. discriminate.
Qed.

Lemma classify_filter (command : string) (kws : list string) (t : Z) :
  Policy.classify command
    {| Policy.execution_mode := Policy.filter;
       Policy.filter_keywords := kws;
       Policy.timeout_seconds := t |}
  = match Policy.matching command kws with
    | [] => Policy.execute_now
    | m => Policy.require_approval m
    end.
Proof. reflexivity. Qed.

(** C2: the classification is a function of the execution mode, the keyword
    list and the command text alone.  Under [closed] every command requires
    approval with no matched keyword, and a submitted command is never run
    at once: it is queued, with empty [matched_keywords], as soon as its
    placeholders resolve.  Under [open] every command executes now.  Under
    [filter] a command requires approval if and only if some configured
    keyword is a substring of the lower-cased command, and the matched
    keywords are exactly those keywords; with the keywords rm and sudo,
    "ls -la" executes now and "sudo rm -rf /tmp/x" is queued with both. *)
Theorem policy_classification :
  (forall command kws t,
     Policy.classify command
       {| Policy.execution_mode := Policy.closed;
          Policy.filter_keywords := kws; Policy.timeout_seconds := t |}
     = Policy.require_approval []) /\
  (forall command kws t,
     Policy.classify command
       {| Policy.execution_mode := Policy.open;
          Policy.filter_keywords := kws; Policy.timeout_seconds := t |}
     = Policy.execute_now) /\
  (forall command kws t,
     let config := {| Policy.execution_mode := Policy.filter;
                      Policy.filter_keywords := kws; Policy.timeout_seconds := t |} in
     ((exists m, Policy.classify command config = Policy.require_approval m) <->
      (exists k, In k kws /\ PyStr.contains k (PyStr.lower command) = true)) /\
     (Policy.classify command config = Policy.execute_now <->
      (forall k, In k kws -> PyStr.contains k (PyStr.lower command) = false)) /\
     (forall m, Policy.classify command config = Policy.require_approval m ->
        forall k, In k m <-> In k kws /\ PyStr.contains k (PyStr.lower command) = true)) /\
  (forall command m kws t t',
     Policy.classify command
       {| Policy.execution_mode := m;
          Policy.filter_keywords := kws; Policy.timeout_seconds := t |}
     = Policy.classify command
       {| Policy.execution_mode := m;
          Policy.filter_keywords := kws; Policy.timeout_seconds := t' |}) /\
  (forall t,
     let config := {| Policy.execution_mode := Policy.filter;
                      Policy.filter_keywords := ["rm"; "sudo"];
                      Policy.timeout_seconds := t |} in
     Policy.classify "ls -la" config = Policy.execute_now /\
     Policy.classify "sudo rm -rf /tmp/x" config = Policy.require_approval ["rm"; "sudo"]) /\
  (forall resolve run kws t new_id now assessment_id command phase,
     let submitted m :=
       Policy.submit_execution resolve run
         {| Policy.execution_mode := m;
            Policy.filter_keywords := kws; Policy.timeout_seconds := t |}
         new_id now assessment_id command phase in
     (forall r, submitted Policy.closed <> Ok (Policy.Immediate r)) /\
     (forall command', resolve command = Ok command' ->
        (exists p, submitted Policy.closed = Ok (Policy.Queued p) /\
                   Pending.matched_keywords p = [] /\
                   Pending.command p = command' /\
                   Pending.status p = "pending") /\
        submitted Policy.open = Ok (Policy.Immediate (run command')) /\
        (Policy.matching command' kws = [] ->
           submitted Policy.filter = Ok (Policy.Immediate (run command'))) /\
        (Policy.matching command' kws <> [] ->
           exists p, submitted Policy.filter = Ok (Policy.Queued p) /\
                     Pending.matched_keywords p = Policy.matching command' kws /\
                     Pending.command p = command' /\
                     Pending.status p = "pending"))).
Proof.
  split; [ reflexivity | ].
  split; [ reflexivity | ].
  split.
  { intros command kws t config. subst config. rewrite classify_filter.
    split; [ | split ].
    - split.
      + intros [m E]. destruct (Policy.matching command kws) as [ | k m' ] eqn:Em;
          [ discriminate | ].
        exists k. apply matching_In. rewrite Em. left. reflexivity.
      + intros [k Hk]. apply matching_In in Hk.
        destruct (Policy.matching command kws) as [ | k' m' ]; [ destruct Hk | ].
        eexists. reflexivity.
    - rewrite <- matching_nil.
      destruct (Policy.matching command kws); split; intros E;
        try reflexivity; discriminate.
    - intros m E k. rewrite <- matching_In.
      destruct (Policy.matching command kws) as [ | k' m' ]; [ discriminate | ].
      injection E as <-. reflexivity. }
  split.
  { intros command m kws t t'. destruct m; reflexivity. }
  split.
  { intros t config. split; reflexivity. }
  intros resolve run kws t new_id now assessment_id command phase submitted.
  subst submitted. unfold Policy.submit_execution, bind. split.
  - intros r. destruct (resolve command); cbn; discriminate.
  - intros command' E. rewrite E. repeat split.
    + eexists. split; [ reflexivity | ]. repeat split.
    + rewrite classify_filter. intros Em. rewrite Em. reflexivity.
    + rewrite classify_filter. intros Em.
      destruct (Policy.matching command' kws) as [ | k m ]; [ congruence | ].
      eexists. split; [ reflexivity | ]. repeat split.
Qed.

(** The theorem at the commands of the specification, submitted with the
    keywords rm and sudo and no placeholder to resolve. *)
Lemma policy_classification_witness :
  (exists p,
     Policy.submit_execution (fun c => Ok c)
       (fun _ => {| exec_stdout := ""; exec_stderr := "";
                    exec_returncode := 0; exec_success := true |})
       {| Policy.execution_mode := Policy.filter;
          Policy.filter_keywords := ["rm"; "sudo"];
          Policy.timeout_seconds := 30 |}
       1 0 1 "sudo rm -rf /tmp/x" None = Ok (Policy.Queued p) /\
     Pending.matched_keywords p = ["rm"; "sudo"] /\
     Pending.command p = "sudo rm -rf /tmp/x" /\
     Pending.status p = "pending").
Proof.
  destruct policy_classification as (_ & _ & _ & _ & _ & H).
  destruct (H (fun c => Ok c)
              (fun _ => {| exec_stdout := ""; exec_stderr := "";
                           exec_returncode := 0; exec_success := true |})
              ["rm"; "sudo"] 30%Z 1%Z 0%Z 1%Z "sudo rm -rf /tmp/x" None) as [_ H'].
  destruct (H' "sudo rm -rf /tmp/x" eq_refl) as (_ & _ & _ & Hq).
  apply Hq. vm_compute. discriminate.
Defined.

(** ** C10: the settings of a fresh installation *)

Lemma strings_of_map (l : list string) : Pending.strings_of (map JStr l) = Some l.
Proof.
  induction l as [ | x l IH ]; [ reflexivity | ].
  cbn [map Pending.strings_of]. rewrite IH. reflexivity.
Qed.

Lemma get_command_settings_defaults json_loads py_int defaults (d : Pending.database) :
  no_command_settings d ->
  Pending.get_command_settings json_loads py_int defaults d
  = Ok {| Pending.execution_mode := "open";
          Pending.filter_keywords := JArr (map JStr defaults);
          Pending.settings_timeout_seconds := 30 |}.
Proof.
  intros (Hm & Hk & Ht). unfold Pending.get_command_settings.
  rewrite Hm, Hk, Ht. reflexivity.
Qed.





(** ** C5: a command that overruns its timeout *)

(** C5: when the child spawned for [argv] needs more than [timeout] (or
    never finishes), [_run_command] returns a result with [success] false,
    return code -1 and error type [timeout]; before it returns it has
    killed the child, which is no longer alive: it has been collected after
    the kill, or had exited by itself when the kill was attempted. *)
Theorem run_command_timeout
    (str_seconds : Z -> string) (os : list string -> Runner.os_behaviour)
    (argv : list string) (timeout : Z)
    (duration : option Z) (rc : Z) (out err : string) (gone_at_kill : bool) :
  os argv = Runner.Runs duration rc out err gone_at_kill ->
  Runner.overruns duration timeout = true ->
  exists res acts p,
    Runner._run_command str_seconds os argv timeout = (res, acts, Some p) /\
    Runner.success res = false /\
    Runner.returncode res = (-1)%Z /\
    Runner.error_type res = "timeout" /\
    Runner.stdout res = "" /\
    (exists rest, acts = Runner.Spawn argv :: Runner.WaitFor timeout :: Runner.Kill :: rest) /\
    p <> Runner.Alive /\
    (gone_at_kill = false ->
       p = Runner.Reaped /\
       acts = [Runner.Spawn argv; Runner.WaitFor timeout; Runner.Kill; Runner.Communicate]).
Proof.
  intros Hos Hover. unfold Runner._run_command. rewrite Hos, Hover.
  destruct gone_at_kill; cbn.
  - do 3 eexists. split; [ reflexivity | ]. cbn.
    repeat split; try discriminate. eexists. reflexivity.
  - do 3 eexists. split; [ reflexivity | ]. cbn.
    repeat split; try discriminate. eexists. reflexivity.
Qed.

(** The theorem for [sleep 60] under a timeout of two seconds. *)
Lemma run_command_timeout_witness :
  exists res acts p,
    Runner._run_command (fun _ => "2.0")
      (fun _ => Runner.Runs (Some 60000000%Z) 0 "" "" false)
      ["docker"; "exec"; "exegol-aida"; "bash"; "-c"; "sleep 60"] 2000000
    = (res, acts, Some p) /\
    Runner.success res = false /\
    Runner.returncode res = (-1)%Z /\
    Runner.error_type res = "timeout" /\
    p <> Runner.Alive.
Proof.
  destruct (run_command_timeout (fun _ => "2.0")
              (fun _ => Runner.Runs (Some 60000000%Z) 0 "" "" false)
              ["docker"; "exec"; "exegol-aida"; "bash"; "-c"; "sleep 60"] 2000000%Z
              (Some 60000000%Z) 0%Z "" "" false eq_refl eq_refl)
    as (res & acts & p & E & Hs & Hr & Ht & _ & _ & Hp & _).
  exists res, acts, p. repeat split; assumption.
Defined.

(** ** C8 and C9: the discovery cache and its failures *)

Lemma discover_hit (str_seconds : Z -> string) (json_loads : string -> option json)
    (os : list string -> Runner.os_behaviour) (self : Runner.service)
    (current_time : Z) (force_refresh : bool) :
  cache_hit self current_time force_refresh = true ->
  Runner.discover_containers str_seconds json_loads os self current_time force_refresh
  = (Ok (Runner.containers_cache self), self, []).
Proof.
  unfold cache_hit, Runner.discover_containers. intros H.
  destruct force_refresh; [ discriminate | ].
  destruct (Runner.containers_cache self); [ discriminate | ].
  cbn in *. rewrite H. reflexivity.
Qed.

Lemma discover_miss (str_seconds : Z -> string) (json_loads : string -> option json)
    (os : list string -> Runner.os_behaviour) (self : Runner.service)
    (current_time : Z) (force_refresh : bool) :
  cache_hit self current_time force_refresh = false ->
  Runner.discover_containers str_seconds json_loads os self current_time force_refresh
  = (let containers :=
       match fst (Runner.discover_body str_seconds json_loads os) with
       | Ok l => l
       | Raise _ => []
       end in
     (Ok containers,
      {| Runner.containers_cache := containers;
         Runner.cache_timestamp := current_time;
         Runner.cache_ttl := Runner.cache_ttl self |},
      snd (Runner.discover_body str_seconds json_loads os))).
Proof.
  unfold cache_hit, Runner.discover_containers. intros H.
  destruct force_refresh; destruct (Runner.containers_cache self);
    cbn [negb andb] in *; try rewrite H;
    destruct (Runner.discover_body str_seconds json_loads os); reflexivity.
Qed.

Lemma discover_body_spawns (str_seconds : Z -> string) (json_loads : string -> option json)
    (os : list string -> Runner.os_behaviour) :
  exists rest,
    snd (Runner.discover_body str_seconds json_loads os) = Runner.Spawn docker_ps :: rest.
Proof.
  unfold Runner.discover_body, Runner._run_command. fold docker_ps.
  destruct (os docker_ps) as [ msg | msg | duration rc out err gone | msg ];
    try (eexists; reflexivity).
  destruct (Runner.overruns duration (30 * Runner.ticks_per_second)).
  - destruct gone; cbn; eexists; reflexivity.
  - eexists; reflexivity.
Qed.

(** C8, refuted as stated: a discovery that finds no Exegol container
    leaves an empty cache, and the next discovery, one second later and not
    forced, runs [docker ps] again; when a container has appeared in
    between, the two calls return different lists. *)
Lemma discover_empty_cache_reinvokes :
  let first :=
    Runner.discover_containers (fun _ => "30.0") flat_loads (prints 0 nginx_line)
      Runner.init_service 100000000 false in
  let second :=
    Runner.discover_containers (fun _ => "30.0") flat_loads (prints 0 exegol_line)
      (snd (fst first)) 101000000 false in
  fst (fst first) = Ok [] /\
  snd second = [Runner.Spawn docker_ps; Runner.WaitFor 30000000] /\
  fst (fst second) = Ok [exegol_container] /\
  fst (fst second) <> fst (fst first).
Proof.
  cbv zeta. repeat split; try (vm_compute; reflexivity).
  vm_compute. discriminate.
Qed.

(** C8, as amended: a discovery that is not forced returns the cached
    list, without running anything and without changing the cache, when the
    cached list is not empty and is younger than the time to live (30
    seconds for the service as constructed); so, after a discovery that
    returned a non-empty list, a second unforced discovery within the time
    to live returns the same list and runs nothing.  A forced discovery
    always runs [docker ps] and replaces the cache by the list it returns
    and the timestamp by the current time. *)
Theorem discover_cache
    (str_seconds : Z -> string) (json_loads : string -> option json) :
  Runner.cache_ttl Runner.init_service = 30%Z /\
  (forall os self current_time,
     Runner.containers_cache self <> [] ->
     (current_time - Runner.cache_timestamp self
      < Runner.cache_ttl self * Runner.ticks_per_second)%Z ->
     Runner.discover_containers str_seconds json_loads os self current_time false
     = (Ok (Runner.containers_cache self), self, [])) /\
  (forall os1 os2 self t1 t2 force l1 self1 acts1,
     Runner.discover_containers str_seconds json_loads os1 self t1 force
     = (Ok l1, self1, acts1) ->
     l1 <> [] ->
     (t2 - Runner.cache_timestamp self1
      < Runner.cache_ttl self1 * Runner.ticks_per_second)%Z ->
     Runner.discover_containers str_seconds json_loads os2 self1 t2 false
     = (Ok l1, self1, [])) /\
  (forall os self current_time,
     exists l rest,
       Runner.discover_containers str_seconds json_loads os self current_time true
       = (Ok l,
          {| Runner.containers_cache := l;
             Runner.cache_timestamp := current_time;
             Runner.cache_ttl := Runner.cache_ttl self |},
          Runner.Spawn docker_ps :: rest)).
Proof.
  assert (forall os self current_time,
     Runner.containers_cache self <> [] ->
     (current_time - Runner.cache_timestamp self
      < Runner.cache_ttl self * Runner.ticks_per_second)%Z ->
     Runner.discover_containers str_seconds json_loads os self current_time false
     = (Ok (Runner.containers_cache self), self, [])) as Hhit.
  { intros os self current_time Hne Hlt. apply discover_hit.
    unfold cache_hit. destruct (Runner.containers_cache self); [ congruence | ].
    cbn. apply Z.ltb_lt. exact Hlt. }
  split; [ reflexivity | ]. split; [ exact Hhit | ]. split.
  - intros os1 os2 self t1 t2 force l1 self1 acts1 E Hne Hlt.
    assert (Runner.containers_cache self1 = l1) as Hc.
    { destruct (cache_hit self t1 force) eqn:Hh.
      - rewrite (discover_hit _ _ _ _ _ _ Hh) in E. congruence.
      - rewrite (discover_miss _ _ _ _ _ _ Hh) in E. cbv zeta in E.
        injection E as E1 E2 E3. subst self1. cbn. exact E1. }
    rewrite <- Hc. apply Hhit; [ rewrite Hc; exact Hne | exact Hlt ].
  - intros os self current_time.
    rewrite discover_miss by reflexivity. cbv zeta.
    destruct (discover_body_spawns str_seconds json_loads os) as [rest Hrest].
    rewrite Hrest. eexists. eexists. reflexivity.
Qed.

(** The theorem on two discoveries one second apart: the first finds the
    Exegol container, the second returns it from the cache although the
    container is gone. *)
Lemma discover_cache_witness :
  Runner.discover_containers (fun _ => "30.0") flat_loads (prints 0 "")
    (snd (fst (Runner.discover_containers (fun _ => "30.0") flat_loads
                 (prints 0 exegol_line) Runner.init_service 100000000 false)))
    101000000 false
  = (Ok [exegol_container],
     {| Runner.containers_cache := [exegol_container];
        Runner.cache_timestamp := 100000000;
        Runner.cache_ttl := 30 |},
     []).
Proof.
  refine (proj1 (proj2 (proj2 (discover_cache (fun _ => "30.0") flat_loads)))
            (prints 0 exegol_line) (prints 0 "") Runner.init_service
            100000000%Z 101000000%Z false [exegol_container] _
            [Runner.Spawn docker_ps; Runner.WaitFor 30000000] _ _ _).
  - vm_compute. reflexivity.
  - discriminate.
  - vm_compute. reflexivity.
Defined.

Lemma parse_lines_undecodable (json_loads : string -> option json)
    (lines : list string) (acc : list Runner.container) :
  (forall line, In line lines -> json_loads line = None) ->
  Runner.parse_lines json_loads lines acc = Ok acc.
Proof.
  induction lines as [ | line rest IH ]; intros H; [ reflexivity | ].
  cbn [Runner.parse_lines].
  destruct (negb (String.eqb (PyStr.strip line) "")).
  - unfold Runner.parse_line. rewrite (H line (or_introl eq_refl)). cbn.
    apply IH. intros l Hl. apply H. right. exact Hl.
  - apply IH. intros l Hl. apply H. right. exact Hl.
Qed.

Lemma parse_lines_skips (json_loads : string -> option json)
    (before after : list string) (line : string) (acc : list Runner.container) :
  json_loads line = None ->
  Runner.parse_lines json_loads (before ++ line :: after)%list acc
  = Runner.parse_lines json_loads (before ++ after)%list acc.
Proof.
  intros Hline. revert acc.
  induction before as [ | x before IH ]; intros acc.
  - cbn [app Runner.parse_lines].
    destruct (negb (String.eqb (PyStr.strip line) "")); [ | reflexivity ].
    unfold Runner.parse_line. rewrite Hline. reflexivity.
  - cbn [app Runner.parse_lines].
    destruct (negb (String.eqb (PyStr.strip x) "")); [ | apply IH ].
    destruct (Runner.parse_line json_loads x) as [ [ c | ] | e ]; try apply IH.
    destruct (Runner.caught_per_line e); [ apply IH | reflexivity ].
Qed.

Lemma discover_body_fails (str_seconds : Z -> string) (json_loads : string -> option json)
    (os : list string -> Runner.os_behaviour) :
  list_command_fails os ->
  fst (Runner.discover_body str_seconds json_loads os) = Ok [].
Proof.
  unfold list_command_fails, Runner.discover_body, Runner._run_command. fold docker_ps.
  destruct (os docker_ps) as [ msg | msg | duration rc out err gone | msg ];
    intros H; try reflexivity.
  destruct (Runner.overruns duration (30 * Runner.ticks_per_second)) eqn:Ho.
  - destruct gone; reflexivity.
  - destruct H as [ H | H ]; [ discriminate | ].
    cbn. destruct (Z.eqb_spec rc 0); [ contradiction | reflexivity ].
Qed.

Lemma discover_body_undecodable (str_seconds : Z -> string)
    (json_loads : string -> option json) (os : list string -> Runner.os_behaviour) :
  no_line_decodes json_loads os ->
  fst (Runner.discover_body str_seconds json_loads os) = Ok [].
Proof.
  unfold no_line_decodes, Runner.discover_body, Runner._run_command. fold docker_ps.
  destruct (os docker_ps) as [ msg | msg | duration rc out err gone | msg ];
    intros H; try contradiction.
  destruct (Runner.overruns duration (30 * Runner.ticks_per_second)).
  - destruct gone; reflexivity.
  - cbn. destruct ((rc =? 0)%Z && negb (String.eqb (PyStr.strip out) "")); [ | reflexivity ].
    apply parse_lines_undecodable. exact H.
Qed.

(** C9, refuted as stated: when the output of [docker ps] holds a line that
    is not JSON between two well-formed ones, the discovery skips that line
    and returns the Exegol container of the well-formed line, not an empty
    list. *)
Lemma discover_malformed_line_not_empty :
  fst (fst (Runner.discover_containers (fun _ => "30.0") flat_loads
              (prints 0 (nginx_line ++ newline ++ "Cannot parse this" ++ newline ++ exegol_line))
              Runner.init_service 100000000 false))
  = Ok [exegol_container] /\
  flat_loads "Cannot parse this" = None.
Proof. split; vm_compute; reflexivity. Qed.

(** C9, as amended: [discover_containers] never raises.  When it runs the
    list command and that command fails (missing binary, failed spawn or
    wait, timeout, non-zero exit), or no line of its output decodes, or the
    parsing raises an exception that the handler of a line does not catch,
    the discovery returns the empty list and caches it.  A line that does
    not decode is skipped: the result is the one for the output without
    that line. *)
Theorem discover_absorbs_failures
    (str_seconds : Z -> string) (json_loads : string -> option json)
    (os : list string -> Runner.os_behaviour) (self : Runner.service)
    (current_time : Z) (force_refresh : bool) :
  (exists l,
     fst (fst (Runner.discover_containers str_seconds json_loads os self
                 current_time force_refresh)) = Ok l) /\
  (cache_hit self current_time force_refresh = false ->
   list_command_fails os \/ no_line_decodes json_loads os \/
   (exists e, fst (Runner.discover_body str_seconds json_loads os) = Raise e) ->
   exists acts,
     Runner.discover_containers str_seconds json_loads os self current_time force_refresh
     = (Ok [],
        {| Runner.containers_cache := [];
           Runner.cache_timestamp := current_time;
           Runner.cache_ttl := Runner.cache_ttl self |},
        acts)) /\
  (forall before after line acc,
     json_loads line = None ->
     Runner.parse_lines json_loads (before ++ line :: after)%list acc
     = Runner.parse_lines json_loads (before ++ after)%list acc).
Proof.
  split; [ | split ].
  - destruct (cache_hit self current_time force_refresh) eqn:Hh.
    + rewrite (discover_hit _ _ _ _ _ _ Hh). eexists. reflexivity.
    + rewrite (discover_miss _ _ _ _ _ _ Hh). eexists. reflexivity.
  - intros Hh Hfail. rewrite (discover_miss _ _ _ _ _ _ Hh). cbv zeta.
    assert (match fst (Runner.discover_body str_seconds json_loads os) with
            | Ok l => l
            | Raise _ => []
            end = []) as ->.
    { destruct Hfail as [ H | [ H | [ e H ] ] ].
      - rewrite (discover_body_fails _ _ _ H). reflexivity.
      - rewrite (discover_body_undecodable _ _ _ H). reflexivity.
      - rewrite H. reflexivity. }
    eexists. reflexivity.
  - intros before after line acc H. apply parse_lines_skips. exact H.
Qed.

(** The theorem when the Docker binary is missing. *)
Lemma discover_absorbs_failures_witness :
  exists acts,
    Runner.discover_containers (fun _ => "30.0") flat_loads
      (fun _ => Runner.NoSuchBinary "No such file or directory: 'docker'")
      Runner.init_service 100000000 false
    = (Ok [],
       {| Runner.containers_cache := [];
          Runner.cache_timestamp := 100000000;
          Runner.cache_ttl := 30 |},
       acts).
Proof.
  apply (proj1 (proj2 (discover_absorbs_failures (fun _ => "30.0") flat_loads
                         (fun _ => Runner.NoSuchBinary "No such file or directory: 'docker'")
                         Runner.init_service 100000000%Z false))).
  - reflexivity.
  - left. exact I.
Defined.

(** ** C6 and C7: credential substitution *)








Lemma append_assoc (a b c : string) : (a ++ b) ++ c = a ++ b ++ c.
Proof. induction a as [ | x a IH ]; cbn; [ reflexivity | rewrite IH; reflexivity ]. Qed.



Lemma dict_get_set {V : Type} (k k' : string) (v : V) (d : list (string * V)) :
  Commands.dict_get k' (Commands.dict_set k v d)
  = if String.eqb k k' then Some v else Commands.dict_get k' d.
Proof.
  induction d as [ | [x y] d IH ]; cbn.
  - destruct (String.eqb k k'); reflexivity.
  - destruct (String.eqb_spec x k) as [ -> | Hx ]; cbn.
    + destruct (String.eqb k k'); reflexivity.
    + rewrite IH. destruct (String.eqb_spec x k') as [ -> | Hx' ];
        [ | reflexivity ].
      destruct (String.eqb_spec k k') as [ -> | ]; [ contradiction | reflexivity ].
Qed.




Lemma substitute_unresolved (py_str : json -> string)
    (cmap : list (string * Commands.Credential)) (placeholders : list string) :
  forall command,
    (exists name, In name placeholders /\ Commands.dict_get name cmap = None) ->
    exists e, Commands.substitute py_str cmap placeholders command = Raise e.
Proof.
  induction placeholders as [ | name rest IH ]; intros command (n & Hin & Hn).
  - destruct Hin.
  - cbn [Commands.substitute].
    destruct (Commands.dict_get name cmap) as [ cred | ] eqn:Hget;
      [ | eexists; reflexivity ].
    destruct (Commands.replacement py_str cred) as [ v | ]; cbn;
      [ | eexists; reflexivity ].
    apply IH. exists n. split; [ | exact Hn ].
    destruct Hin as [ -> | Hin ]; [ congruence | exact Hin ].
Qed.

Lemma substitute_first_unresolved (py_str : json -> string)
    (cmap : list (string * Commands.Credential)) (value : string -> string)
    (before : list string) (name : string) (after : list string) :
  forall command,
    (forall n, In n before -> resolves py_str cmap n (value n)) ->
    Commands.dict_get name cmap = None ->
    Commands.substitute py_str cmap (before ++ name :: after)%list command
    = Raise (HTTPException HTTP_404_NOT_FOUND
               ("Placeholder '" ++ Commands.braced name ++ "' not found in credentials")).
Proof.
  induction before as [ | b before IH ]; intros command Hres Hname.
  - cbn. rewrite Hname. reflexivity.
  - cbn [app Commands.substitute].
    destruct (Hres b (or_introl eq_refl)) as (cred & Hget & Hrep).
    rewrite Hget, Hrep. cbn. apply IH; [ | exact Hname ].
    intros n Hn. apply Hres. right. exact Hn.
Qed.

Lemma substitute_credentials_unfold (py_str : json -> string)
    (credentials : list Commands.Credential) (assessment_id : Z) (command : string) :
  Commands.substitute_credentials py_str credentials assessment_id command
  = Commands.substitute py_str (assessment_creds credentials assessment_id)
      (Commands.findall command) command.
Proof.
  unfold Commands.substitute_credentials, assessment_creds.
  destruct (Commands.findall command); reflexivity.
Qed.



(** What the code does for an unresolved placeholder: the request raises
    and the command service is never called; the error is the 404 that
    names the first unresolved token when the tokens before it resolve to
    credentials that have a replacement. *)
Lemma unresolved_placeholder_rejected
    (py_str : json -> string)
    (execute_and_log_command : Z -> string -> option string -> result exec_result)
    (assessments : list assessment) (credentials : list Commands.Credential)
    (assessment_id : Z) (command : string) (phase : option string) :
  ((exists name, In name (Commands.findall command) /\
                 Commands.dict_get name (assessment_creds credentials assessment_id) = None) ->
   exists e,
     Commands.execute_command_with_credentials py_str execute_and_log_command
       assessments credentials assessment_id command phase = (Raise e, [])) /\
  (forall before name after (value : string -> string),
     find_assessment assessment_id assessments <> None ->
     Commands.findall command = (before ++ name :: after)%list ->
     (forall n, In n before ->
        resolves py_str (assessment_creds credentials assessment_id) n (value n)) ->
     Commands.dict_get name (assessment_creds credentials assessment_id) = None ->
     Commands.execute_command_with_credentials py_str execute_and_log_command
       assessments credentials assessment_id command phase
     = (Raise (HTTPException HTTP_404_NOT_FOUND
                 ("Placeholder '" ++ Commands.braced name ++ "' not found in credentials")),
        [])).
Proof.
  split.
  - intros Hex. unfold Commands.execute_command_with_credentials.
    destruct (find_assessment assessment_id assessments); [ | eexists; reflexivity ].
    rewrite substitute_credentials_unfold.
    destruct (substitute_unresolved py_str _ _ command Hex) as [e ->].
    exists e. reflexivity.
  - intros before name after value Ha Hfind Hres Hname.
    unfold Commands.execute_command_with_credentials.
    destruct (find_assessment assessment_id assessments); [ | contradiction ].
    rewrite substitute_credentials_unfold, Hfind.
    rewrite (substitute_first_unresolved py_str _ value before name after command Hres Hname).
    reflexivity.
Qed.

(** C7, where the code departs from it: the command names the stored
    placeholder API_TOKEN, whose bearer credential has no token, and then
    the placeholder MISSING, which no credential matches.  The request
    fails and nothing is executed, but the error raised is the [TypeError]
    of replacing by [None], not an error naming MISSING. *)
Theorem unresolved_placeholder_after_tokenless
    (py_str : json -> string)
    (execute_and_log_command : Z -> string -> option string -> result exec_result) :
  Commands.findall "curl -H 'X-Api: {{API_TOKEN}}' http://t/{{MISSING}}"
  = ["API_TOKEN"; "MISSING"] /\
  Commands.dict_get "MISSING" (assessment_creds [tokenless] 1) = None /\
  Commands.execute_command_with_credentials py_str execute_and_log_command
    [assessment_one] [tokenless] 1
    "curl -H 'X-Api: {{API_TOKEN}}' http://t/{{MISSING}}" None
  = (Raise TypeError, []).
Proof. repeat split. Qed.

(** ** C3 and C1: the timeout sweep and the approval state machine *)

Lemma due_pending (now global : Z) (r : Pending.PendingCommand) :
  due now global r = true -> Pending.is_pending r = true.
Proof. unfold due. intros H. apply andb_true_iff in H. tauto. Qed.

Lemma swept_id (now global : Z) (r : Pending.PendingCommand) :
  Pending.id (swept now global r) = Pending.id r.
Proof. unfold swept. destruct (due now global r); reflexivity. Qed.

Lemma swept_resolved (now global : Z) (r : Pending.PendingCommand) :
  Pending.is_pending r = false -> swept now global r = r.
Proof. unfold swept, due. intros ->. reflexivity. Qed.

Lemma sweep_row_ok (now global : Z) (r : Pending.PendingCommand) (r' : Pending.PendingCommand)
    (hit : bool) :
  Pending.sweep_row now global r = Ok (r', hit) ->
  r' = swept now global r /\ hit = due now global r.
Proof.
  unfold Pending.sweep_row, swept, due.
  destruct (Pending.is_pending r); cbn.
  - destruct (Pending.created_at r) as [ created | ].
    + destruct (Pending.aware created); [ discriminate | ].
      destruct (Pending.expired now created (Pending.cmd_timeout_of global r));
        intros E; injection E as <- <-; split; reflexivity.
    + intros E; injection E as <- <-; split; reflexivity.
  - intros E; injection E as <- <-; split; reflexivity.
Qed.

Lemma sweep_rows_ok (now global : Z) (rows : list Pending.PendingCommand) :
  forall rows' ids,
    Pending.sweep_rows now global rows = Ok (rows', ids) ->
    rows' = map (swept now global) rows /\
    ids = map Pending.id (List.filter (due now global) rows).
Proof.
  induction rows as [ | r rows IH ]; intros rows' ids E; cbn in E.
  - injection E as <- <-. split; reflexivity.
  - destruct (Pending.sweep_row now global r) as [ [r1 hit] | e ] eqn:Er; [ | discriminate ].
    cbn in E.
    destruct (Pending.sweep_rows now global rows) as [ [rows1 ids1] | e ]; [ | discriminate ].
    cbn in E. injection E as <- <-.
    destruct (sweep_row_ok _ _ _ _ _ Er) as [-> ->].
    destruct (IH rows1 ids1 eq_refl) as [-> ->].
    split; [ reflexivity | ]. cbn. destruct (due now global r); reflexivity.
Qed.

Lemma sweep_rows_naive (now global : Z) (rows : list Pending.PendingCommand) :
  naive_rows rows ->
  Pending.sweep_rows now global rows
  = Ok (map (swept now global) rows, map Pending.id (List.filter (due now global) rows)).
Proof.
  induction rows as [ | r rows IH ]; intros Hn; [ reflexivity | ].
  assert (naive_rows rows) as Hn'
    by (intros x c Hx; apply Hn; right; exact Hx).
  cbn [Pending.sweep_rows]. rewrite (IH Hn').
  assert (Pending.sweep_row now global r = Ok (swept now global r, due now global r)) as ->.
  { unfold Pending.sweep_row, swept, due.
    destruct (Pending.is_pending r) eqn:Hp; [ | reflexivity ].
    destruct (Pending.created_at r) as [ created | ] eqn:Hc; [ | reflexivity ].
    rewrite (Hn r created (or_introl eq_refl) Hp Hc). cbn.
    destruct (Pending.expired now created (Pending.cmd_timeout_of global r)); reflexivity. }
  cbn. destruct (due now global r); reflexivity.
Qed.

Lemma find_map_id (g : Pending.PendingCommand -> Pending.PendingCommand) (cid : Z)
    (rows : list Pending.PendingCommand) :
  (forall x, In x rows -> Pending.id (g x) = Pending.id x) ->
  find (fun r => (Pending.id r =? cid)%Z) (map g rows)
  = option_map g (find (fun r => (Pending.id r =? cid)%Z) rows).
Proof.
  induction rows as [ | r rows IH ]; intros H; [ reflexivity | ].
  cbn. rewrite (H r (or_introl eq_refl)).
  destruct (Pending.id r =? cid)%Z; [ reflexivity | ].
  apply IH. intros x Hx. apply H. right. exact Hx.
Qed.

Lemma find_filter_other (cid cid' : Z) (rows : list Pending.PendingCommand) :
  cid <> cid' ->
  find (fun r => (Pending.id r =? cid)%Z)
       (List.filter (fun r => negb (Pending.id r =? cid')%Z) rows)
  = find (fun r => (Pending.id r =? cid)%Z) rows.
Proof.
  intros Hne. induction rows as [ | r rows IH ]; [ reflexivity | ].
  cbn. destruct (Z.eqb_spec (Pending.id r) cid') as [ E' | N' ]; cbn.
  - destruct (Z.eqb_spec (Pending.id r) cid); [ congruence | exact IH ].
  - rewrite IH. reflexivity.
Qed.

Lemma find_filter_same (cid : Z) (rows : list Pending.PendingCommand) :
  find (fun r => (Pending.id r =? cid)%Z)
       (List.filter (fun r => negb (Pending.id r =? cid)%Z) rows) = None.
Proof.
  induction rows as [ | r rows IH ]; [ reflexivity | ].
  cbn. destruct (Z.eqb_spec (Pending.id r) cid) as [ E | N ]; cbn; [ exact IH | ].
  destruct (Z.eqb_spec (Pending.id r) cid); [ contradiction | exact IH ].
Qed.

Lemma find_app_last (cid : Z) (rows : list Pending.PendingCommand)
    (row : Pending.PendingCommand) :
  find (fun r => (Pending.id r =? cid)%Z) (rows ++ [row])%list
  = match find (fun r => (Pending.id r =? cid)%Z) rows with
    | Some r => Some r
    | None => if (Pending.id row =? cid)%Z then Some row else None
    end.
Proof.
  induction rows as [ | r rows IH ]; cbn; [ reflexivity | ].
  destruct (Pending.id r =? cid)%Z; [ reflexivity | exact IH ].
Qed.

Lemma pending_row_In (cid : Z) (d : Pending.database) (r : Pending.PendingCommand) :
  Pending.pending_row cid d = Some r ->
  In r (Pending.pending_commands d) /\ Pending.id r = cid.
Proof.
  unfold Pending.pending_row. intros H. apply find_some in H.
  destruct H as [Hin Hid]. split; [ exact Hin | apply Z.eqb_eq; exact Hid ].
Qed.

Lemma unique_row (rows : list Pending.PendingCommand) (cid : Z)
    (r x : Pending.PendingCommand) :
  NoDup (map Pending.id rows) ->
  find (fun r0 => (Pending.id r0 =? cid)%Z) rows = Some r ->
  In x rows -> Pending.id x = cid -> x = r.
Proof.
  induction rows as [ | y rows IH ]; intros Hnd Hf Hx Hid; [ destruct Hx | ].
  cbn in Hnd, Hf. inversion Hnd as [ | ? ? Hnotin Hnd' ]; subst.
  destruct (Z.eqb_spec (Pending.id y) (Pending.id x)) as [ E | N ].
  - injection Hf as <-. destruct Hx as [ -> | Hx ]; [ reflexivity | ].
    exfalso. apply Hnotin. rewrite E. apply in_map. exact Hx.
  - destruct Hx as [ -> | Hx ]; [ contradiction | ].
    apply IH; try assumption. reflexivity.
Qed.

Lemma table_ok_row (d : Pending.database) (cid : Z) (r : Pending.PendingCommand) :
  table_ok d -> Pending.pending_row cid d = Some r ->
  (cid < Pending.next_id d)%Z /\
  (Pending.is_pending r = true -> Pending.resolved_at r = None) /\
  (Pending.is_pending r = false -> Pending.resolved_at r <> None).
Proof.
  intros [Hwf _] H. destruct (pending_row_In _ _ _ H) as [Hin <-].
  unfold Pending.wf in Hwf. rewrite Forall_forall in Hwf.
  exact (Hwf r Hin).
Qed.

Lemma transition_table_ok (now : Z) (d d' : Pending.database) :
  table_ok d -> transition now d d' -> table_ok d'.
Proof.
  intros [Hwf Hnd] T. unfold table_ok, Pending.wf in *.
  rewrite Forall_forall in Hwf.
  destruct T as [ g Hg Hrows Hnext | cid Hrows Hnext | row Hrows Hid Hp Hr Hnext ];
    rewrite Hrows, Hnext.
  - split.
    + rewrite Forall_forall. intros y Hy. apply in_map_iff in Hy.
      destruct Hy as (x & <- & Hx). destruct (Hg x Hx) as [Hgid Hcase].
      destruct (Hwf x Hx) as (H1 & H2 & H3).
      destruct Hcase as [ -> | (Hpg & Hres) ]; [ repeat split; assumption | ].
      unfold Pending.row_ok. rewrite Hgid. repeat split; [ exact H1 | | ].
      * intros E. congruence.
      * intros _. rewrite Hres. discriminate.
    + rewrite map_map.
      rewrite (map_ext_in (fun x => Pending.id (g x)) Pending.id); [ exact Hnd | ].
      intros x Hx. exact (proj1 (Hg x Hx)).
  - split.
    + rewrite Forall_forall. intros y Hy. apply filter_In in Hy. apply Hwf. tauto.
    + clear Hrows. induction (Pending.pending_commands d) as [ | x rows IH ]; [ constructor | ].
      cbn in *. inversion Hnd as [ | ? ? Hnotin Hnd' ]; subst.
      assert (NoDup (map Pending.id
                 (List.filter (fun r => negb (Pending.id r =? cid)%Z) rows))) as IH'
        by (apply IH; [ intros y Hy; apply Hwf; right; exact Hy | exact Hnd' ]).
      destruct (negb (Pending.id x =? cid)%Z); [ | exact IH' ].
      cbn. constructor; [ | exact IH' ].
      intros Hin. apply Hnotin. apply in_map_iff in Hin.
      destruct Hin as (y & Ey & Hy). apply filter_In in Hy.
      rewrite <- Ey. apply in_map. tauto.
  - split.
    + rewrite Forall_forall. intros y Hy. apply in_app_iff in Hy.
      destruct Hy as [ Hy | [ <- | [] ] ].
      * destruct (Hwf y Hy) as (H1 & H2 & H3). repeat split; try assumption. lia.
      * repeat split; [ lia | intros _; exact Hr | intros E; congruence ].
    + rewrite map_app. cbn. apply NoDup_app; [ exact Hnd | repeat constructor; intros [] | ].
      intros a Ha [ <- | [] ]. apply in_map_iff in Ha. destruct Ha as (y & Ey & Hy).
      destruct (Hwf y Hy) as (H1 & _). lia.
Qed.

Lemma transition_refl (now : Z) (d : Pending.database) : transition now d d.
Proof.
  apply (T_update now d d (fun x => x)).
  - intros x _. split; [ reflexivity | left; reflexivity ].
  - symmetry. apply map_id.
  - reflexivity.
Qed.

Lemma swept_resolves_or_keeps (now global : Z) (rows : list Pending.PendingCommand) :
  resolves_or_keeps now rows (swept now global).
Proof.
  intros x _. split; [ apply swept_id | ].
  unfold swept. destruct (due now global x) eqn:Hd; [ right | left; reflexivity ].
  split; reflexivity.
Qed.

Section PendingStore.

Variable json_loads : string -> option json.
Variable py_int : string -> option Z.
Variable defaults : list string.
Variable execute_and_log_command : Z -> string -> option string -> result exec_result.

Lemma sweep_async_ok (w w1 : Pending.world) (now : Z) (n : nat) :
  Pending.check_and_timeout_expired_commands_async json_loads py_int defaults w now = Ok (w1, n) ->
  exists s,
    Pending.get_command_settings json_loads py_int defaults (Pending.db w) = Ok s /\
    w1 = after_sweep now (Pending.settings_timeout_seconds s) w.
Proof.
  unfold Pending.check_and_timeout_expired_commands_async,
    Pending.check_and_timeout_expired_commands, bind.
  destruct (Pending.get_command_settings json_loads py_int defaults (Pending.db w)) as [ s | e ];
    [ | discriminate ].
  destruct (Pending.sweep_rows now (Pending.settings_timeout_seconds s)
              (Pending.pending_commands (Pending.db w))) as [ [rows ids] | e ] eqn:Es;
    [ | discriminate ].
  intros E. injection E as <- <-. exists s. split; [ reflexivity | ].
  destruct (sweep_rows_ok _ _ _ _ _ Es) as [-> ->]. reflexivity.
Qed.

Lemma sweep_async_naive (w : Pending.world) (now : Z) (s : Pending.settings) :
  Pending.get_command_settings json_loads py_int defaults (Pending.db w) = Ok s ->
  naive_rows (Pending.pending_commands (Pending.db w)) ->
  Pending.check_and_timeout_expired_commands_async json_loads py_int defaults w now
  = Ok (after_sweep now (Pending.settings_timeout_seconds s) w,
        List.length (List.filter (due now (Pending.settings_timeout_seconds s))
                       (Pending.pending_commands (Pending.db w)))).
Proof.
  intros Hs Hn.
  unfold Pending.check_and_timeout_expired_commands_async,
    Pending.check_and_timeout_expired_commands, bind.
  rewrite Hs, (sweep_rows_naive now _ _ Hn). unfold after_sweep.
  rewrite length_map. reflexivity.
Qed.

Lemma after_sweep_transition (now global : Z) (w : Pending.world) :
  transition now (Pending.db w) (Pending.db (after_sweep now global w)).
Proof.
  apply (T_update now _ _ (swept now global)).
  - apply swept_resolves_or_keeps.
  - reflexivity.
  - reflexivity.
Qed.

Lemma update_row_transition (now : Z) (d : Pending.database) (cid : Z)
    (f : Pending.PendingCommand -> Pending.PendingCommand) :
  (forall x, Pending.id (f x) = Pending.id x /\ Pending.is_pending (f x) = false /\
             Pending.resolved_at (f x) = Some (Pending.utc now)) ->
  transition now d (Pending.with_rows d (Pending.update_row cid f (Pending.pending_commands d))).
Proof.
  intros Hf.
  apply (T_update now _ _ (fun x => if (Pending.id x =? cid)%Z then f x else x)).
  - intros x Hx. destruct (Pending.id x =? cid)%Z.
    + destruct (Hf x) as (H1 & H2 & H3). split; [ exact H1 | right; split; assumption ].
    + split; [ reflexivity | left; reflexivity ].
  - reflexivity.
  - reflexivity.
Qed.

Lemma approve_command_parts (w : Pending.world) (now : Z) (command_id : Z)
    (approved_by : string) :
  Pending.approve_command execute_and_log_command w now command_id approved_by
  = match Pending.load_pending w command_id with
    | Raise e => (Raise e, w)
    | Ok pending_cmd =>
        match execute_and_log_command (Pending.assessment_id pending_cmd)
                (Pending.command pending_cmd) (Pending.phase pending_cmd) with
        | Raise e => (Raise e, Pending.with_call w (Pending.call_of pending_cmd))
        | Ok exec_res =>
            Pending.approve_commit (Pending.with_call w (Pending.call_of pending_cmd))
              now command_id approved_by exec_res
        end
    end.
Proof.
  unfold Pending.approve_command, Pending.load_pending, Pending.approve_commit.
  destruct (Pending.pending_row command_id (Pending.db w)) as [ r | ] eqn:Hrow;
    [ | reflexivity ].
  destruct (Pending.is_pending r); cbn [negb]; [ | reflexivity ].
  destruct (execute_and_log_command _ _ _) as [ res | e ]; [ | reflexivity ].
  cbn [Pending.with_call Pending.db Pending.calls Pending.broadcasts]. rewrite Hrow.
  reflexivity.
Qed.

Lemma reject_command_parts (w : Pending.world) (now : Z) (command_id : Z)
    (rejected_by : string) (reason : option string) :
  Pending.reject_command w now command_id rejected_by reason
  = match Pending.load_pending w command_id with
    | Raise e => (Raise e, w)
    | Ok _ => Pending.reject_commit w now command_id rejected_by reason
    end.
Proof.
  unfold Pending.reject_command, Pending.load_pending, Pending.reject_commit.
  destruct (Pending.pending_row command_id (Pending.db w)) as [ r | ] eqn:Hrow;
    [ | reflexivity ].
  destruct (Pending.is_pending r); reflexivity.
Qed.

Lemma writes_are_transitions (w : Pending.world) (now : Z) :
  (forall w1 n,
     Pending.check_and_timeout_expired_commands_async json_loads py_int defaults w now = Ok (w1, n) ->
     transition now (Pending.db w) (Pending.db w1)) /\
  (forall cid approved_by res,
     transition now (Pending.db w)
       (Pending.db (snd (Pending.approve_commit w now cid approved_by res)))) /\
  (forall cid rejected_by reason,
     transition now (Pending.db w)
       (Pending.db (snd (Pending.reject_commit w now cid rejected_by reason)))) /\
  (forall cid,
     transition now (Pending.db w) (Pending.db (snd (Pending.delete_pending_command w cid)))) /\
  (forall data,
     transition now (Pending.db w)
       (Pending.db (snd (Pending.create_pending_command json_loads py_int defaults w now data)))) /\
  (forall k v descr,
     transition now (Pending.db w) (Pending.set_command_setting (Pending.db w) k v descr)).
Proof.
  split; [ | split; [ | split; [ | split; [ | split ] ] ] ].
  - intros w1 n E. destruct (sweep_async_ok _ _ _ _ E) as (s & _ & ->).
    apply after_sweep_transition.
  - intros cid approved_by res. unfold Pending.approve_commit.
    destruct (Pending.pending_row cid (Pending.db w)); [ | apply transition_refl ].
    cbn [snd Pending.db]. apply update_row_transition. intros x. repeat split.
  - intros cid rejected_by reason. unfold Pending.reject_commit.
    destruct (Pending.pending_row cid (Pending.db w)); [ | apply transition_refl ].
    cbn [snd Pending.db]. apply update_row_transition. intros x. repeat split.
  - intros cid. unfold Pending.delete_pending_command.
    destruct (Pending.pending_row cid (Pending.db w)); [ | apply transition_refl ].
    apply (T_delete now _ _ cid); reflexivity.
  - intros data. unfold Pending.create_pending_command.
    destruct (find_assessment _ _); [ | apply transition_refl ].
    destruct (Pending.get_command_settings json_loads py_int defaults (Pending.db w)) as [ s | e ];
      [ | apply transition_refl ].
    cbn. eapply T_create; reflexivity.
  - intros k v descr. apply (T_update now _ _ (fun x => x)).
    + intros x _. split; [ reflexivity | left; reflexivity ].
    + cbn. symmetry. apply map_id.
    + reflexivity.
Qed.

Lemma transition_stays_resolved (now : Z) (d d' : Pending.database) (cid : Z)
    (r : Pending.PendingCommand) :
  table_ok d -> transition now d d' ->
  Pending.pending_row cid d = Some r -> Pending.is_pending r = false ->
  (exists r', Pending.pending_row cid d' = Some r' /\ Pending.is_pending r' = false /\
              Pending.resolved_at r' <> None) \/
  (Pending.pending_row cid d' = None /\ (cid < Pending.next_id d')%Z).
Proof.
  intros Hok T Hrow Hp. destruct (pending_row_In _ _ _ Hrow) as [Hin Hid].
  destruct (table_ok_row _ _ _ Hok Hrow) as (Hlt & _ & Hres).
  unfold Pending.pending_row in *.
  destruct T as [ g Hg Hrows Hnext | cid' Hrows Hnext | row Hrows Hrid Hrp Hrr Hnext ];
    rewrite Hrows, Hnext.
  - left. rewrite find_map_id by (intros x Hx; exact (proj1 (Hg x Hx))).
    rewrite Hrow. exists (g r). split; [ reflexivity | ].
    destruct (Hg r Hin) as [_ [ E | (Hpg & Hrg) ]].
    + rewrite E. split; [ exact Hp | exact (Hres Hp) ].
    + split; [ exact Hpg | rewrite Hrg; discriminate ].
  - destruct (Z.eq_dec cid cid') as [ <- | N ].
    + right. split; [ apply find_filter_same | exact Hlt ].
    + left. exists r. rewrite find_filter_other by exact N.
      split; [ exact Hrow | split; [ exact Hp | exact (Hres Hp) ] ].
  - left. exists r. rewrite find_app_last, Hrow.
    split; [ reflexivity | split; [ exact Hp | exact (Hres Hp) ] ].
Qed.

Lemma transition_absent_row (now : Z) (d d' : Pending.database) (cid : Z) :
  transition now d d' ->
  Pending.pending_row cid d = None -> (cid < Pending.next_id d)%Z ->
  Pending.pending_row cid d' = None /\ (cid < Pending.next_id d')%Z.
Proof.
  intros T Hrow Hlt. unfold Pending.pending_row in *.
  destruct T as [ g Hg Hrows Hnext | cid' Hrows Hnext | row Hrows Hrid Hrp Hrr Hnext ];
    rewrite Hrows, Hnext.
  - split; [ | exact Hlt ].
    rewrite find_map_id by (intros x Hx; exact (proj1 (Hg x Hx))).
    rewrite Hrow. reflexivity.
  - split; [ | exact Hlt ].
    destruct (Z.eq_dec cid cid') as [ <- | N ]; [ apply find_filter_same | ].
    rewrite find_filter_other by exact N. exact Hrow.
  - split; [ | lia ]. rewrite find_app_last, Hrow.
    destruct (Z.eqb_spec (Pending.id row) cid); [ lia | reflexivity ].
Qed.

Lemma transition_leaves_pending (now : Z) (d d' : Pending.database) (cid : Z)
    (r r' : Pending.PendingCommand) :
  table_ok d -> transition now d d' ->
  Pending.pending_row cid d = Some r -> Pending.is_pending r = true ->
  Pending.pending_row cid d' = Some r' -> Pending.is_pending r' = false ->
  Pending.resolved_at r = None /\ Pending.resolved_at r' = Some (Pending.utc now).
Proof.
  intros Hok T Hrow Hp Hrow' Hp'. destruct (pending_row_In _ _ _ Hrow) as [Hin Hid].
  destruct (table_ok_row _ _ _ Hok Hrow) as (Hlt & Hnone & _).
  split; [ exact (Hnone Hp) | ].
  unfold Pending.pending_row in *.
  destruct T as [ g Hg Hrows Hnext | cid' Hrows Hnext | row Hrows Hrid Hrp Hrr Hnext ];
    rewrite Hrows in Hrow'.
  - rewrite find_map_id in Hrow' by (intros x Hx; exact (proj1 (Hg x Hx))).
    rewrite Hrow in Hrow'. cbn in Hrow'. injection Hrow' as <-.
    destruct (Hg r Hin) as [_ [ E | (_ & Hres) ]]; [ | exact Hres ].
    rewrite E in Hp'. congruence.
  - destruct (Z.eq_dec cid cid') as [ <- | N ].
    + rewrite find_filter_same in Hrow'. discriminate.
    + rewrite find_filter_other in Hrow' by exact N. congruence.
  - rewrite find_app_last, Hrow in Hrow'. congruence.
Qed.

Lemma resolved_row_refused (w : Pending.world) (command_id : Z)
    (r : Pending.PendingCommand) :
  Pending.pending_row command_id (Pending.db w) = Some r ->
  Pending.status r <> "pending" ->
  Pending.load_pending w command_id
  = Raise (HTTPException HTTP_400_BAD_REQUEST ("Command is already " ++ Pending.status r)) /\
  (forall now approved_by,
     Pending.approve_command execute_and_log_command w now command_id approved_by
     = (Raise (HTTPException HTTP_400_BAD_REQUEST
                 ("Command is already " ++ Pending.status r)), w)) /\
  (forall now rejected_by reason,
     Pending.reject_command w now command_id rejected_by reason
     = (Raise (HTTPException HTTP_400_BAD_REQUEST
                 ("Command is already " ++ Pending.status r)), w)).
Proof.
  intros Hrow Hst.
  assert (Pending.is_pending r = false) as Hp.
  { unfold Pending.is_pending. apply String.eqb_neq. exact Hst. }
  assert (Pending.load_pending w command_id
          = Raise (HTTPException HTTP_400_BAD_REQUEST
                     ("Command is already " ++ Pending.status r))) as Hload
    by (unfold Pending.load_pending; rewrite Hrow, Hp; reflexivity).
  split; [ exact Hload | ]. split.
  - intros now approved_by. rewrite approve_command_parts, Hload. reflexivity.
  - intros now rejected_by reason. rewrite reject_command_parts, Hload. reflexivity.
Qed.

End PendingStore.

Lemma insert_desc_In (x r : Pending.PendingCommand) (l : list Pending.PendingCommand) :
  In x (Pending.insert_desc r l) -> x = r \/ In x l.
Proof.
  induction l as [ | y l IH ]; cbn.
  - intros [ <- | [] ]. left. reflexivity.
  - destruct (Pending.not_before y r); cbn.
    + intros [ <- | H ]; [ right; left; reflexivity | ].
      destruct (IH H) as [ -> | H' ]; [ left; reflexivity | right; right; exact H' ].
    + intros [ <- | H ]; [ left; reflexivity | right; exact H ].
Qed.

Lemma order_desc_In (x : Pending.PendingCommand) (l : list Pending.PendingCommand) :
  In x (Pending.order_desc l) -> In x l.
Proof.
  induction l as [ | y l IH ]; cbn; [ tauto | ].
  intros H. apply insert_desc_In in H. destruct H as [ -> | H ]; [ left; reflexivity | ].
  right. apply IH. exact H.
Qed.

Lemma responses_In (d : Pending.database) (cmds : list Pending.PendingCommand) :
  forall rs, Pending.responses d cmds = Ok rs ->
    forall cmd name, In (cmd, name) rs -> In cmd cmds.
Proof.
  induction cmds as [ | c cmds IH ]; intros rs E cmd name Hin; cbn in E.
  - injection E as <-. destruct Hin.
  - unfold Pending.PendingCommandResponse, bind in E. cbn in E.
    destruct (Pending.created_at c); [ | discriminate ].
    destruct (Pending.responses d cmds) as [ rs' | e ]; [ | discriminate ].
    injection E as <-. destruct Hin as [ E | Hin ].
    + left. unfold Pending.with_name in E. congruence.
    + right. exact (IH rs' eq_refl cmd name Hin).
Qed.

Lemma is_pending_status (r : Pending.PendingCommand) :
  (Pending.is_pending r = true <-> Pending.status r = "pending") /\
  (Pending.is_pending r = false <-> Pending.status r <> "pending").
Proof.
  unfold Pending.is_pending.
  destruct (String.eqb_spec (Pending.status r) "pending") as [ E | N ]; split; split;
    intros H; try reflexivity; try assumption; try discriminate; contradiction.
Qed.

(** C3, refuted as stated: a pending row with [timeout_seconds] = 1 that is
    read exactly one second after its creation is still pending after the
    read, by id, by list and by count; the sweep compares with "greater
    than". *)
Lemma read_at_one_second_keeps_pending :
  Pending.timeout_seconds one_second_row = Some 1%Z /\
  Pending.created_at one_second_row = Some (Pending.utc 0) /\
  (1 * 1000000 <= 1000000 - Pending.micros (Pending.utc 0))%Z /\
  fst (Pending.get_pending_command (fun _ => None) (fun _ => None)
      Pending.DEFAULT_FILTER_KEYWORDS one_second_world 1000000 1)
  = Ok (one_second_row, Some "acme") /\
  Pending.status one_second_row = "pending" /\
  fst (Pending.get_pending_count (fun _ => None) (fun _ => None)
      Pending.DEFAULT_FILTER_KEYWORDS one_second_world 1000000)
  = Ok 1%nat /\
  fst (Pending.list_pending_commands (fun _ => None) (fun _ => None)
      Pending.DEFAULT_FILTER_KEYWORDS one_second_world
         1000000 None None)
  = Ok {| Pending.commands := [(one_second_row, Some "acme")];
          Pending.total := 1;
          Pending.pending_count := 1 |}.
Proof. repeat split. cbn. lia. Qed.

(** C3, as amended: when the stored settings can be read and the creation
    times of the pending rows are naive timestamps, each of the three reads
    (list, count, get-by-id) first runs the timeout sweep and answers from
    the table after it.  The sweep rewrites every row that is pending, has
    a creation time, and for which the time elapsed since creation is
    greater than its limit (its own [timeout_seconds], else the global
    setting): its status becomes timeout, its rejection reason names the
    limit, and its [resolved_at] is the time of the read; every other row
    is left as it is.  In particular a pending row with [timeout_seconds] =
    1 is timed out by the first read that occurs more than one second
    after its creation. *)
Theorem sweep_on_read
    (json_loads : string -> option json) (py_int : string -> option Z)
    (defaults : list string) (w : Pending.world) (now : Z) (s : Pending.settings) :
  Pending.get_command_settings json_loads py_int defaults (Pending.db w) = Ok s ->
  naive_rows (Pending.pending_commands (Pending.db w)) ->
  let global := Pending.settings_timeout_seconds s in
  let w1 := after_sweep now global w in
  (forall sf af,
     snd (Pending.list_pending_commands json_loads py_int defaults w now sf af) = w1 /\
     forall resp,
       fst (Pending.list_pending_commands json_loads py_int defaults w now sf af) = Ok resp ->
       Pending.pending_count resp = Pending.count_pending (Pending.db w1) /\
       forall cmd name, In (cmd, name) (Pending.commands resp) ->
         In cmd (Pending.pending_commands (Pending.db w1))) /\
  Pending.get_pending_count json_loads py_int defaults w now
  = (Ok (Pending.count_pending (Pending.db w1)), w1) /\
  (forall cid,
     Pending.get_pending_command json_loads py_int defaults w now cid
     = (match Pending.pending_row cid (Pending.db w) with
        | Some cmd =>
            Pending.PendingCommandResponse
              (Pending.with_name (Pending.db w) (swept now global cmd))
        | None => Raise (Pending.not_found cid)
        end, w1)) /\
  (forall r, In r (Pending.pending_commands (Pending.db w)) ->
     In (swept now global r) (Pending.pending_commands (Pending.db w1))) /\
  (forall r created,
     Pending.status r = "pending" ->
     Pending.created_at r = Some created ->
     (Pending.cmd_timeout_of global r * 1000000 < now - Pending.micros created)%Z ->
     swept now global r = Pending.mark_timeout now (Pending.cmd_timeout_of global r) r /\
     Pending.status (swept now global r) = "timeout" /\
     Pending.rejection_reason (swept now global r)
     = Some ("Auto-cancelled: exceeded " ++ str_int (Pending.cmd_timeout_of global r)
             ++ "s timeout") /\
     Pending.resolved_at (swept now global r) = Some (Pending.utc now)) /\
  (forall r,
     Pending.status r <> "pending" \/ Pending.created_at r = None \/
     (exists created, Pending.created_at r = Some created /\
        (now - Pending.micros created <= Pending.cmd_timeout_of global r * 1000000)%Z) ->
     swept now global r = r) /\
  (forall r,
     (forall t, Pending.timeout_seconds r = Some t -> Pending.cmd_timeout_of global r = t) /\
     (Pending.timeout_seconds r = None -> Pending.cmd_timeout_of global r = global)) /\
  (forall r created,
     Pending.status r = "pending" ->
     Pending.timeout_seconds r = Some 1%Z ->
     Pending.created_at r = Some created ->
     (1000000 < now - Pending.micros created)%Z ->
     Pending.status (swept now global r) = "timeout" /\
     Pending.rejection_reason (swept now global r)
     = Some "Auto-cancelled: exceeded 1s timeout" /\
     Pending.resolved_at (swept now global r) = Some (Pending.utc now)).
Proof.
  intros Hs Hn global w1.
  pose proof (sweep_async_naive json_loads py_int defaults w now s Hs Hn) as Hsweep.
  fold global in Hsweep. fold w1 in Hsweep.
  assert (forall r created,
     Pending.status r = "pending" ->
     Pending.created_at r = Some created ->
     (Pending.cmd_timeout_of global r * 1000000 < now - Pending.micros created)%Z ->
     swept now global r = Pending.mark_timeout now (Pending.cmd_timeout_of global r) r)
    as Hdue.
  { intros r created Hst Hc Hlt. unfold swept, due, Pending.expired.
    rewrite (proj2 (proj1 (is_pending_status r)) Hst), Hc.
    rewrite (proj2 (Z.ltb_lt _ _) Hlt). reflexivity. }
  split; [ | split; [ | split; [ | split; [ | split; [ | split; [ | split ] ] ] ] ] ].
  - intros sf af. unfold Pending.list_pending_commands. rewrite Hsweep.
    destruct (Pending.responses (Pending.db w1) _) as [ rs | e ] eqn:Er;
      (split; [ reflexivity | ]); intros resp E; [ | discriminate ].
    injection E as <-. split; [ reflexivity | ].
    intros cmd name Hin. cbn [Pending.commands] in Hin.
    apply (responses_In _ _ _ Er) in Hin. apply order_desc_In in Hin.
    destruct sf as [ sf | ]; [ destruct (String.eqb sf "") | ];
      (destruct af as [ aid | ]; [ destruct (aid =? 0)%Z | ]);
      repeat (apply filter_In in Hin; destruct Hin as [Hin _]); exact Hin.
  - unfold Pending.get_pending_count. rewrite Hsweep. reflexivity.
  - intros cid. unfold Pending.get_pending_command. rewrite Hsweep.
    unfold Pending.pending_row, w1, after_sweep. cbn.
    rewrite find_map_id by (intros x _; apply swept_id).
    destruct (find _ _); reflexivity.
  - intros r Hr. unfold w1, after_sweep. cbn. apply in_map. exact Hr.
  - intros r created Hst Hc Hlt. rewrite (Hdue r created Hst Hc Hlt).
    repeat split.
  - intros r Hcase. unfold swept, due.
    destruct Hcase as [ Hst | [ Hc | (created & Hc & Hle) ] ].
    + rewrite (proj2 (proj2 (is_pending_status r)) Hst). reflexivity.
    + rewrite Hc, andb_false_r. reflexivity.
    + rewrite Hc. unfold Pending.expired.
      rewrite (proj2 (Z.ltb_ge _ _) Hle), andb_false_r. reflexivity.
  - intros r. unfold Pending.cmd_timeout_of. split.
    + intros t ->. reflexivity.
    + intros ->. reflexivity.
  - intros r created Hst Ht Hc Hlt.
    assert (Pending.cmd_timeout_of global r = 1%Z) as Hone
      by (unfold Pending.cmd_timeout_of; rewrite Ht; reflexivity).
    rewrite (Hdue r created Hst Hc); [ | rewrite Hone; lia ].
    rewrite Hone. repeat split.
Qed.

(** The theorem on the one-second row, read a microsecond after the second
    has elapsed. *)
Lemma sweep_on_read_witness :
  Pending.get_pending_command (fun _ => None) (fun _ => None)
      Pending.DEFAULT_FILTER_KEYWORDS one_second_world 1000001 1
  = (Ok (Pending.with_name (Pending.db one_second_world)
           (swept 1000001 30 one_second_row)),
     after_sweep 1000001 30 one_second_world) /\
  Pending.status (swept 1000001 30 one_second_row) = "timeout" /\
  Pending.rejection_reason (swept 1000001 30 one_second_row)
  = Some "Auto-cancelled: exceeded 1s timeout".
Proof.
  assert (naive_rows (Pending.pending_commands (Pending.db one_second_world))) as Hn.
  { intros r created [ <- | [] ] _ E. injection E as <-. reflexivity. }
  pose proof (sweep_on_read (fun _ => None) (fun _ => None)
                Pending.DEFAULT_FILTER_KEYWORDS one_second_world 1000001%Z
                _ (get_command_settings_defaults (fun _ => None) (fun _ => None)
                     Pending.DEFAULT_FILTER_KEYWORDS
                     (Pending.db one_second_world)
                     (conj eq_refl (conj eq_refl eq_refl))) Hn) as H.
  cbv zeta in H. destruct H as (_ & _ & Hget & _ & _ & _ & _ & Hone).
  split; [ exact (Hget 1%Z) | ].
  destruct (Hone one_second_row (Pending.utc 0) eq_refl eq_refl eq_refl) as (H1 & H2 & _).
  - cbn. lia.
  - split; assumption.
Defined.

Lemma commit_ignores_status (w : Pending.world) (now : Z) (command_id : Z)
    (r : Pending.PendingCommand) :
  Pending.pending_row command_id (Pending.db w) = Some r ->
  (forall approved_by res,
     Pending.pending_row command_id
       (Pending.db (snd (Pending.approve_commit w now command_id approved_by res)))
     = Some (Pending.mark_executed now approved_by res r)) /\
  (forall rejected_by reason,
     Pending.pending_row command_id
       (Pending.db (snd (Pending.reject_commit w now command_id rejected_by reason)))
     = Some (Pending.mark_rejected now rejected_by reason r)).
Proof.
  intros Hrow. destruct (pending_row_In _ _ _ Hrow) as [_ Hid].
  split; intros by_ x; unfold Pending.approve_commit, Pending.reject_commit;
    rewrite Hrow; cbn [snd Pending.db]; unfold Pending.pending_row, Pending.update_row;
    cbn [Pending.with_rows Pending.pending_commands];
    (rewrite find_map_id
       by (intros y _; destruct (Pending.id y =? command_id)%Z; reflexivity));
    unfold Pending.pending_row in Hrow; rewrite Hrow; cbn [option_map];
    rewrite Hid, Z.eqb_refl; reflexivity.
Qed.

(** C1, a defect of the code: the approval of a command is not one step.
    [approve_command] loads the row and tests its status, waits for the
    command service, and then writes to the row of that id whatever its
    status has become ([load_pending], the call and [approve_commit],
    which make up the route).  For the row with a timeout of one second: an
    approval requested before the deadline finds the row pending and
    calls the command service; while it waits, the count of the pending
    commands is read a second and a half after the creation and the sweep
    of that read resolves the row as timeout; the approval resumes a
    second later and writes.  The row, resolved already, is then executed,
    its [resolved_at] has been set a second time, and the command of a
    timed-out row has been run.  An approval that is requested after the
    read is refused, with status 400. *)
Theorem approve_commit_rewrites_resolved_row :
  let answer := {| exec_stdout := "rm -rf /tmp/x"; exec_stderr := "";
                   exec_returncode := 0; exec_success := true |} in
  let waiting := Pending.with_call one_second_world (Pending.call_of one_second_row) in
  let read := Pending.get_pending_count (fun _ => None) (fun _ => None)
                Pending.DEFAULT_FILTER_KEYWORDS waiting 1500000 in
  let timed_out := swept 1500000 30 one_second_row in
  let resumed := Pending.approve_commit (snd read) 2500000 1 "admin" answer in
  let rewritten := Pending.mark_executed 2500000 "admin" answer timed_out in
  Pending.load_pending one_second_world 1 = Ok one_second_row /\
  echo_service 1 "rm -rf /tmp/x" None = Ok answer /\
  fst read = Ok 0%nat /\
  Pending.pending_row 1 (Pending.db (snd read)) = Some timed_out /\
  Pending.status timed_out = "timeout" /\
  Pending.resolved_at timed_out = Some (Pending.utc 1500000) /\
  fst resumed = Ok (rewritten, Some "acme") /\
  Pending.pending_row 1 (Pending.db (snd resumed)) = Some rewritten /\
  Pending.status rewritten = "executed" /\
  Pending.resolved_at rewritten = Some (Pending.utc 2500000) /\
  Pending.rejection_reason rewritten = Some "Auto-cancelled: exceeded 1s timeout" /\
  Pending.execution_result rewritten = Some answer /\
  Pending.calls (snd resumed) = [Pending.call_of one_second_row] /\
  Pending.approve_command echo_service (snd read) 2000000 1 "admin"
  = (Raise (HTTPException HTTP_400_BAD_REQUEST "Command is already timeout"), snd read).
Proof. cbv zeta. repeat split. Qed.

(** * Further properties of the code *)

(** ** [format_output] *)

Lemma take_length (n : nat) (s : string) :
  String.length (PyStr.take n s) = Nat.min n (String.length s).
Proof.
  revert s. induction n as [ | n IH ]; intros s; [ reflexivity | ].
  destruct s as [ | c s ]; [ reflexivity | ]. cbn. rewrite IH. reflexivity.
Qed.

Lemma take_all (n : nat) (s : string) :
  (String.length s <= n)%nat -> PyStr.take n s = s.
Proof.
  revert s. induction n as [ | n IH ]; intros s H.
  - destruct s; [ reflexivity | cbn in H; lia ].
  - destruct s as [ | c s ]; [ reflexivity | ]. cbn in *. rewrite IH by lia. reflexivity.
Qed.

Lemma append_length (a b : string) :
  String.length (a ++ b) = (String.length a + String.length b)%nat.
Proof. induction a as [ | c a IH ]; cbn; [ reflexivity | rewrite IH; reflexivity ]. Qed.

Lemma strip_ansi_from_length (s : string) :
  forall skip, (String.length (Service.strip_ansi_from skip s) <= String.length s)%nat.
Proof.
  induction s as [ | c s IH ]; intros skip; [ cbn; lia | ].
  cbn [Service.strip_ansi_from String.length].
  destruct skip as [ | k ]; [ | specialize (IH k); lia ].
  destruct (Ascii.eqb c Service.ESC).
  - destruct (Service.escape_len s) as [ n | ]; [ specialize (IH n); lia | ].
    cbn [String.length]. specialize (IH 0%nat). lia.
  - cbn [String.length]. specialize (IH 0%nat). lia.
Qed.

Lemma strip_ansi_plain (s : string) :
  all_chars not_esc s = true -> Service.strip_ansi s = s.
Proof.
  unfold Service.strip_ansi. induction s as [ | c s IH ]; intros H; [ reflexivity | ].
  cbn in H. apply andb_true_iff in H. destruct H as [Hc Hs].
  cbn [Service.strip_ansi_from]. unfold not_esc in Hc.
  apply negb_true_iff in Hc. rewrite Hc, (IH Hs). reflexivity.
Qed.

Lemma strip_ansi_from_skip (x : string) :
  forall n y, String.length x = n ->
    Service.strip_ansi_from n (x ++ y) = Service.strip_ansi_from 0 y.
Proof.
  induction x as [ | c x IH ]; intros n y Hn; cbn in Hn; subst n; [ reflexivity | ].
  cbn. apply IH. reflexivity.
Qed.

Lemma span_len_app (p : ascii -> bool) (a b : string) :
  all_chars p a = true ->
  (match b with String c _ => p c = false | EmptyString => True end) ->
  Service.span_len p (a ++ b) = String.length a /\ PyStr.drop (String.length a) (a ++ b) = b.
Proof.
  induction a as [ | c a IH ]; intros Ha Hb.
  - cbn. destruct b as [ | c b ]; [ split; reflexivity | ].
    cbn. rewrite Hb. split; reflexivity.
  - cbn in Ha. apply andb_true_iff in Ha. destruct Ha as [Hc Ha].
    destruct (IH Ha Hb) as [H1 H2]. cbn. rewrite Hc, H1. split; [ reflexivity | exact H2 ].
Qed.

Lemma class_disjoint (c : ascii) :
  (Service.is_inter c = true -> Service.is_param c = false) /\
  (Service.is_final c = true -> Service.is_param c = false /\ Service.is_inter c = false /\
                                (Ascii.eqb c "["%char = true \/ Service.is_single c = true
                                 \/ (96 <= nat_of_ascii c)%nat)).
Proof.
  unfold Service.is_inter, Service.is_param, Service.is_final, Service.is_single,
    Service.in_range.
  split.
  - intros H. apply andb_true_iff in H. destruct H as [H1 H2].
    apply Nat.leb_le in H1, H2. apply andb_false_iff. left. apply Nat.leb_gt. lia.
  - intros H. apply andb_true_iff in H. destruct H as [H1 H2].
    apply Nat.leb_le in H1, H2. split; [ | split ].
    + apply andb_false_iff. right. apply Nat.leb_gt. lia.
    + apply andb_false_iff. right. apply Nat.leb_gt. lia.
    + destruct (Nat.eq_dec (nat_of_ascii c) 91) as [ E | N ].
      * left. apply Ascii.eqb_eq. rewrite <- (ascii_nat_embedding c), E. reflexivity.
      * destruct (le_lt_dec 96 (nat_of_ascii c)) as [ L | L ]; [ right; right; exact L | ].
        right. left. apply orb_true_iff.
        destruct (le_lt_dec (nat_of_ascii c) 90) as [ L' | L' ].
        -- left. apply andb_true_iff. split; apply Nat.leb_le; lia.
        -- right. apply andb_true_iff. split; apply Nat.leb_le; lia.
Qed.

Lemma escape_len_csi (params inter : string) (final : ascii) (rest : string) :
  all_chars Service.is_param params = true ->
  all_chars Service.is_inter inter = true ->
  Service.is_final final = true ->
  Service.escape_len (String "["%char (params ++ inter ++ String final rest))
  = Some (String.length (String "["%char (params ++ inter ++ String final EmptyString))).
Proof.
  intros Hp Hi Hf. unfold Service.escape_len.
  change (Service.is_single "["%char) with false. cbn [Ascii.eqb Bool.eqb].
  change (Ascii.eqb "[" "[") with true. cbv iota.
  destruct (class_disjoint final) as [_ Hfin]. destruct (Hfin Hf) as (Hfp & Hfi & _).
  assert (match inter ++ String final rest with
          | String c _ => Service.is_param c = false
          | EmptyString => True
          end) as Hb1.
  { destruct inter as [ | c inter ]; cbn; [ exact Hfp | ].
    cbn in Hi. apply andb_true_iff in Hi. exact (proj1 (class_disjoint c) (proj1 Hi)). }
  destruct (span_len_app Service.is_param params _ Hp Hb1) as [-> ->].
  destruct (span_len_app Service.is_inter inter (String final rest) Hi Hfi) as [-> ->].
  rewrite Hf. f_equal. cbn [String.length]. rewrite !append_length. cbn. lia.
Qed.

Lemma strip_ansi_csi (a params inter : string) (final : ascii) (b : string) :
  all_chars not_esc a = true ->
  all_chars Service.is_param params = true ->
  all_chars Service.is_inter inter = true ->
  Service.is_final final = true ->
  Service.strip_ansi (a ++ csi params inter final ++ b) = a ++ Service.strip_ansi b.
Proof.
  intros Ha Hp Hi Hf. unfold Service.strip_ansi.
  induction a as [ | c a IH ].
  - cbn [append csi Service.strip_ansi_from].
    change (Ascii.eqb Service.ESC Service.ESC) with true. cbv iota.
    assert ((params ++ inter ++ String final "") ++ b = params ++ inter ++ String final b) as E.
    { rewrite !append_assoc. reflexivity. }
    rewrite E, (escape_len_csi params inter final b Hp Hi Hf).
    rewrite <- E.
    change (String "[" ((params ++ inter ++ String final "") ++ b))
      with (String "[" (params ++ inter ++ String final "") ++ b).
    apply strip_ansi_from_skip. reflexivity.
  - cbn in Ha. apply andb_true_iff in Ha. destruct Ha as [Hc Ha].
    unfold not_esc in Hc. apply negb_true_iff in Hc.
    cbn [append Service.strip_ansi_from]. rewrite Hc. f_equal. exact (IH Ha).
Qed.

(** X1: [format_output] removes a control sequence (ESC, bracket,
    parameters, intermediates, final character) that follows text without
    ESC, and leaves text without ESC as it is; the cleaned text is never
    longer than the raw one. *)
Theorem strip_ansi_removes_sequences :
  (forall s, all_chars not_esc s = true -> Service.strip_ansi s = s) /\
  (forall s, (String.length (Service.strip_ansi s) <= String.length s)%nat) /\
  (forall a params inter final b,
     all_chars not_esc a = true ->
     all_chars Service.is_param params = true ->
     all_chars Service.is_inter inter = true ->
     Service.is_final final = true ->
     Service.strip_ansi (a ++ csi params inter final ++ b) = a ++ Service.strip_ansi b).
Proof.
  split; [ exact strip_ansi_plain | ]. split.
  - intros s. apply strip_ansi_from_length.
  - exact strip_ansi_csi.
Qed.

(** The theorem on a line coloured red and reset. *)
Lemma strip_ansi_removes_sequences_witness :
  Service.strip_ansi ("open " ++ csi "1;31" "" "m" ++ "22/tcp" ++ csi "0" "" "m" ++ "")
  = "open 22/tcp".
Proof.
  destruct strip_ansi_removes_sequences as (Hplain & _ & Hcsi).
  rewrite (Hcsi "open " "1;31" "" "m"%char) by reflexivity.
  rewrite (Hcsi "22/tcp" "0" "" "m"%char "") by reflexivity.
  reflexivity.
Defined.

(** X2: with a limit of -1, or a cleaned output no longer than the limit,
    [format_output] returns the whole cleaned output; with a limit from 0
    on that the cleaned output exceeds, it returns exactly the first
    [limit] characters of the cleaned output followed by the marker that
    names the limit and the total, so the result has [limit] characters
    more than the marker. *)
Theorem format_output_limit (output_max_length : Z) (output : string) (max_length : option Z) :
  let limit := match max_length with Some m => m | None => output_max_length end in
  let clean := Service.strip_ansi output in
  (limit = (-1)%Z \/ (Z.of_nat (String.length clean) <= limit)%Z ->
     Service.format_output output_max_length output max_length = clean) /\
  ((0 <= limit < Z.of_nat (String.length clean))%Z ->
     Service.format_output output_max_length output max_length
     = PyStr.take (Z.to_nat limit) clean
       ++ Service.truncation_marker limit (String.length clean) /\
     String.length (Service.format_output output_max_length output max_length)
     = (Z.to_nat limit
        + String.length (Service.truncation_marker limit (String.length clean)))%nat).
Proof.
  intros limit clean. unfold Service.format_output. fold limit. fold clean.
  split.
  - intros H. destruct output as [ | c output ]; [ reflexivity | ].
    destruct H as [ -> | H ]; [ reflexivity | ].
    destruct (Z.ltb_spec limit (Z.of_nat (String.length clean))); [ lia | ].
    rewrite andb_false_r. reflexivity.
  - intros H. destruct output as [ | c output ]; [ cbn in H; lia | ].
    destruct (Z.eqb_spec limit (-1)); [ lia | ].
    destruct (Z.ltb_spec limit (Z.of_nat (String.length clean))); [ | lia ].
    cbn [negb andb]. unfold Service.slice_to.
    destruct (Z.leb_spec 0 limit); [ | lia ].
    split; [ reflexivity | ].
    rewrite append_length, take_length. lia.
Qed.

(** The theorem on an output of eleven characters under a limit of five. *)
Lemma format_output_limit_witness :
  Service.format_output 5000 "hello world" (Some 5%Z)
  = "hello" ++ Service.truncation_marker 5 11.
Proof.
  exact (proj1 (proj2 (format_output_limit 5000 "hello world" (Some 5%Z))
                  ltac:(cbn; lia))).
Defined.

(** ** [validate_container_status], [execute_container_command],
    [check_tool_availability] *)

Lemma run_actions (str_seconds : Z -> string) (os : list string -> Runner.os_behaviour)
    (argv : list string) :
  (exists rest, snd (Service.run str_seconds os argv) = Runner.Spawn argv :: rest) /\
  (forall argv', In (Runner.Spawn argv') (snd (Service.run str_seconds os argv)) ->
     argv' = argv).
Proof.
  unfold Service.run, Runner._run_command.
  destruct (os argv) as [ msg | msg | duration rc out err gone | msg ];
    [ | | destruct (Runner.overruns duration (30 * Runner.ticks_per_second));
          [ destruct gone | ] | ];
    cbn; (split; [ eexists; reflexivity | ]);
    intros a H; repeat (destruct H as [ H | H ]; try discriminate; try congruence);
    destruct H.
Qed.

(** X3: [validate_container_status] does nothing and fails when no
    container is selected.  Otherwise it succeeds exactly when the
    inspection succeeds and reports the state running, or reports created
    or exited and the start succeeds; and it runs [docker start] exactly
    when the inspection succeeds and reports created or exited (never for a
    running container or one in another state). *)
Theorem validate_container_status_outcome
    (str_seconds : Z -> string) (os : list string -> Runner.os_behaviour)
    (self : Service.mcp) :
  (Service.selected (Service.current_container self) = None ->
     Service.validate_container_status str_seconds os self
     = ({| Service.v_success := false; Service.v_status := None;
           Service.v_error := Some "No container selected";
           Service.v_details := None |}, [])) /\
  (forall container,
     Service.selected (Service.current_container self) = Some container ->
     let inspect := fst (Service.run str_seconds os (inspect_argv container)) in
     let start := fst (Service.run str_seconds os (start_argv container)) in
     let status := PyStr.strip (Runner.stdout inspect) in
     let v := Service.validate_container_status str_seconds os self in
     (Service.v_success (fst v) = true <->
        Runner.success inspect = true /\
        (status = "running" \/
         ((status = "created" \/ status = "exited") /\ Runner.success start = true))) /\
     (In (Runner.Spawn (start_argv container)) (snd v) <->
        Runner.success inspect = true /\ (status = "created" \/ status = "exited")) /\
     In (Runner.Spawn (inspect_argv container)) (snd v)).
Proof.
  split.
  - intros H. unfold Service.validate_container_status. rewrite H. reflexivity.
  - intros container H inspect start status v.
    pose proof (run_actions str_seconds os (inspect_argv container)) as [[ri Hi] Hionly].
    pose proof (run_actions str_seconds os (start_argv container)) as [[rs Hs] Hsonly].
    assert (forall l, In (Runner.Spawn (start_argv container))
                         (snd (Service.run str_seconds os (inspect_argv container)) ++ l)%list
                      -> In (Runner.Spawn (start_argv container)) l) as Hnot.
    { intros l Hin. apply in_app_iff in Hin. destruct Hin as [ Hin | Hin ]; [ | exact Hin ].
      apply Hionly in Hin. discriminate. }
    subst v. unfold Service.validate_container_status. rewrite H.
    fold (inspect_argv container). fold (start_argv container).
    destruct (Service.run str_seconds os (inspect_argv container)) as [result acts] eqn:Ei.
    destruct (Service.run str_seconds os (start_argv container)) as [sresult sacts] eqn:Es.
    cbn [fst snd] in *. subst inspect start status.
    destruct (Runner.success result) eqn:Hsucc; cbn [negb].
    + destruct (String.eqb_spec (PyStr.strip (Runner.stdout result)) "running") as [ E | N ].
      * cbn. rewrite E. split; [ | split ].
        -- split; [ intros _; split; [ reflexivity | left; reflexivity ] | reflexivity ].
        -- split.
           ++ intros Hin. specialize (Hnot [] ). rewrite app_nil_r in Hnot.
              destruct (Hnot Hin).
           ++ intros [_ [ E' | E' ]]; discriminate.
        -- rewrite Hi. left. reflexivity.
      * destruct (String.eqb_spec (PyStr.strip (Runner.stdout result)) "created") as [ Ec | Nc ];
        [ | destruct (String.eqb_spec (PyStr.strip (Runner.stdout result)) "exited")
              as [ Ee | Ne ] ]; cbn [orb].
        -- destruct (Runner.success sresult) eqn:Hst; cbn; (split; [ | split ]).
           ++ split; [ intros _; split; [ reflexivity | right; split; [ left; exact Ec | reflexivity ] ] | reflexivity ].
           ++ split; [ intros _; split; [ reflexivity | left; exact Ec ] | ].
              intros _. apply in_app_iff. right. rewrite Hs. left. reflexivity.
           ++ apply in_app_iff. left. rewrite Hi. left. reflexivity.
           ++ split; [ discriminate | ].
              intros [_ [ E' | [_ E'] ]]; [ contradiction | discriminate ].
           ++ split; [ intros _; split; [ reflexivity | left; exact Ec ] | ].
              intros _. apply in_app_iff. right. rewrite Hs. left. reflexivity.
           ++ apply in_app_iff. left. rewrite Hi. left. reflexivity.
        -- destruct (Runner.success sresult) eqn:Hst; cbn; (split; [ | split ]).
           ++ split; [ intros _; split; [ reflexivity | right; split; [ right; exact Ee | reflexivity ] ] | reflexivity ].
           ++ split; [ intros _; split; [ reflexivity | right; exact Ee ] | ].
              intros _. apply in_app_iff. right. rewrite Hs. left. reflexivity.
           ++ apply in_app_iff. left. rewrite Hi. left. reflexivity.
           ++ split; [ discriminate | ].
              intros [_ [ E' | [_ E'] ]]; [ contradiction | discriminate ].
           ++ split; [ intros _; split; [ reflexivity | right; exact Ee ] | ].
              intros _. apply in_app_iff. right. rewrite Hs. left. reflexivity.
           ++ apply in_app_iff. left. rewrite Hi. left. reflexivity.
        -- cbn. split; [ | split ].
           ++ split; [ discriminate | ].
              intros [_ [ E' | [[ E' | E' ] _] ]]; contradiction.
           ++ split.
              ** intros Hin. specialize (Hnot []). rewrite app_nil_r in Hnot.
                 destruct (Hnot Hin).
              ** intros [_ [ E' | E' ]]; contradiction.
           ++ rewrite Hi. left. reflexivity.
    + cbn. split; [ | split ].
      * split; [ discriminate | intros [E _]; discriminate ].
      * split.
        -- intros Hin. specialize (Hnot []). rewrite app_nil_r in Hnot. destruct (Hnot Hin).
        -- intros [E _]; discriminate.
      * rewrite Hi. left. reflexivity.
Qed.

(** The theorem on a stopped container that starts. *)
Lemma validate_container_status_outcome_witness :
  Service.v_success
    (fst (Service.validate_container_status (fun _ => "30.0")
            (fun argv => match argv with
                         | _ :: "inspect" :: _ => Runner.Runs (Some 1000%Z) 0 "exited" "" false
                         | _ => Runner.Runs (Some 1000%Z) 0 "exegol-aida" "" false
                         end)
            (mcp_on "exegol-aida"))) = true.
Proof.
  apply (proj1 (proj2 (validate_container_status_outcome (fun _ => "30.0")
                         (fun argv => match argv with
                                      | _ :: "inspect" :: _ =>
                                          Runner.Runs (Some 1000%Z) 0 "exited" "" false
                                      | _ => Runner.Runs (Some 1000%Z) 0 "exegol-aida" "" false
                                      end)
                         (mcp_on "exegol-aida")) "exegol-aida" eq_refl)).
  split; [ reflexivity | ]. right. split; [ right; reflexivity | reflexivity ].
Defined.

Lemma validate_spawns (str_seconds : Z -> string) (os : list string -> Runner.os_behaviour)
    (self : Service.mcp) (argv : list string) :
  In (Runner.Spawn argv) (snd (Service.validate_container_status str_seconds os self)) ->
  exists container, argv = inspect_argv container \/ argv = start_argv container.
Proof.
  unfold Service.validate_container_status.
  destruct (Service.selected (Service.current_container self)) as [ container | ];
    [ | intros [] ].
  fold (inspect_argv container). fold (start_argv container).
  pose proof (proj2 (run_actions str_seconds os (inspect_argv container))) as Hi.
  pose proof (proj2 (run_actions str_seconds os (start_argv container))) as Hs.
  destruct (Service.run str_seconds os (inspect_argv container)) as [result acts].
  destruct (Service.run str_seconds os (start_argv container)) as [sresult sacts].
  cbn [snd] in Hi, Hs. intros H. exists container.
  destruct (negb (Runner.success result)); [ left; exact (Hi _ H) | ].
  destruct (String.eqb _ "running"); [ left; exact (Hi _ H) | ].
  destruct (String.eqb _ "created" || String.eqb _ "exited");
    [ | left; exact (Hi _ H) ].
  destruct (Runner.success sresult); cbn [snd] in H; apply in_app_iff in H;
    (destruct H as [ H | H ]; [ left; exact (Hi _ H) | right; exact (Hs _ H) ]).
Qed.

(** X4: [execute_container_command] spawns the command in the container
    exactly when the validation of the current container succeeds.  When
    the validation fails the service is left as it was (no history entry,
    no refresh of the settings) and the result is a failure with
    execution time 0; when it succeeds the result carries the success
    flag, the return code and the standard error of the run as they are,
    and the standard output after formatting. *)
Theorem execute_requires_validation
    (str_seconds : Z -> string) (os : list string -> Runner.os_behaviour)
    (http : Service.http_outcome) (self : Service.mcp) (container_name command : string)
    (start_time end_time settings_time : Z) :
  let v := fst (Service.validate_container_status str_seconds os self) in
  let out := Service.execute_container_command str_seconds os http self container_name
               command start_time end_time settings_time in
  let ran := fst (Service.run str_seconds os (Service.exec_argv container_name command)) in
  (In (Runner.Spawn (Service.exec_argv container_name command)) (snd out) <->
     Service.v_success v = true) /\
  (Service.v_success v = false ->
     snd (fst out) = self /\
     Service.e_success (fst (fst out)) = false /\
     Service.e_execution_time (fst (fst out)) = 0%Z /\
     Service.e_stdout (fst (fst out)) = None /\
     snd out = snd (Service.validate_container_status str_seconds os self)) /\
  (Service.v_success v = true ->
     Service.e_success (fst (fst out)) = Runner.success ran /\
     Service.e_returncode (fst (fst out)) = Some (Runner.returncode ran) /\
     Service.e_stderr (fst (fst out)) = Some (Runner.stderr ran) /\
     Service.e_stdout (fst (fst out))
     = Some (Service.format_output (Service.output_max_length (snd (fst out)))
               (Runner.stdout ran) None) /\
     Service.e_execution_time (fst (fst out)) = (end_time - start_time)%Z).
Proof.
  intros v out ran. subst v out ran. unfold Service.execute_container_command.
  pose proof (validate_spawns str_seconds os self (Service.exec_argv container_name command))
    as Hv.
  destruct (Service.validate_container_status str_seconds os self) as [validation vacts].
  pose proof (proj1 (run_actions str_seconds os (Service.exec_argv container_name command)))
    as [rest Hrun].
  destruct (Service.run str_seconds os (Service.exec_argv container_name command))
    as [result acts].
  cbn [fst snd] in *.
  destruct (Service.v_success validation); cbn [negb].
  - destruct (Service.get_output_max_length http _ settings_time) as [[x self1] asked].
    cbn [fst snd]. split; [ | split ].
    + split; [ reflexivity | ]. intros _. apply in_app_iff. right. rewrite Hrun.
      left. reflexivity.
    + discriminate.
    + intros _. repeat split.
  - cbn [fst snd]. split; [ | split ].
    + split; [ | discriminate ]. intros H. destruct (Hv H) as [c [ E | E ]]; discriminate.
    + intros _. repeat split.
    + discriminate.
Qed.

Lemma lastn_length {A : Type} (n : nat) (l : list A) :
  (List.length (Service.lastn n l) <= n)%nat.
Proof. unfold Service.lastn. rewrite length_skipn. lia. Qed.

Lemma get_output_max_length_history (http : Service.http_outcome) (self : Service.mcp)
    (t : Z) :
  Service.command_history (snd (fst (Service.get_output_max_length http self t)))
  = Service.command_history self /\
  Service.max_history (snd (fst (Service.get_output_max_length http self t)))
  = Service.max_history self.
Proof.
  unfold Service.get_output_max_length.
  destruct (_ <? _)%Z; [ split; reflexivity | ].
  destruct http as [ | code [ v | ] ]; try (split; reflexivity).
  destruct (code =? 200)%Z; split; reflexivity.
Qed.

Lemma shorten_length (command : string) :
  (String.length (Service.shorten command) <= 103)%nat.
Proof.
  unfold Service.shorten. destruct (Nat.ltb_spec 100 (String.length command)).
  - rewrite append_length, take_length. change (String.length "...") with 3%nat. lia.
  - lia.
Qed.

(** X5: the command history is a bounded ring.  A command that is run
    appends one entry, which holds the start time, the container and the
    command cut to 100 characters plus an ellipsis; when the history has
    reached [max_history] entries only its last 25 are kept before the
    entry is appended.  A history of at most 50 entries under the limit of
    50 therefore never grows beyond 50. *)
Theorem command_history_ring
    (str_seconds : Z -> string) (os : list string -> Runner.os_behaviour)
    (http : Service.http_outcome) (self : Service.mcp) (container_name command : string)
    (start_time end_time settings_time : Z) :
  let self' := snd (fst (Service.execute_container_command str_seconds os http self
                           container_name command start_time end_time settings_time)) in
  Service.max_history self' = Service.max_history self /\
  (Service.max_history self = 50%nat ->
   (List.length (Service.command_history self) <= 50)%nat ->
   (List.length (Service.command_history self') <= 50)%nat) /\
  (Service.v_success (fst (Service.validate_container_status str_seconds os self)) = true ->
   exists entry,
     Service.command_history self'
     = ((if (Service.max_history self <=? List.length (Service.command_history self))%nat
         then Service.lastn 25 (Service.command_history self)
         else Service.command_history self) ++ [entry])%list /\
     Service.timestamp entry = start_time /\
     Service.h_container entry = container_name /\
     Service.h_command entry = Service.shorten command /\
     (String.length (Service.h_command entry) <= 103)%nat /\
     Service.h_execution_time entry = (end_time - start_time)%Z).
Proof.
  intros self'. subst self'. unfold Service.execute_container_command.
  destruct (Service.validate_container_status str_seconds os self) as [validation vacts].
  destruct (Service.run str_seconds os (Service.exec_argv container_name command))
    as [result acts].
  cbn [fst]. destruct (Service.v_success validation); cbn [negb].
  - match goal with
    | |- context [Service.get_output_max_length http ?s settings_time] =>
        pose proof (get_output_max_length_history http s settings_time) as [Hh Hm];
        destruct (Service.get_output_max_length http s settings_time) as [[x self1] asked]
    end.
    cbn [fst snd] in *. rewrite Hh, Hm. cbn [Service.with_history Service.command_history
      Service.max_history].
    split; [ reflexivity | ]. split.
    + intros Hmax Hlen. rewrite length_app. cbn [List.length]. rewrite Hmax.
      destruct (Nat.leb_spec 50 (List.length (Service.command_history self))).
      * pose proof (lastn_length 25 (Service.command_history self)). lia.
      * lia.
    + intros _. eexists. split; [ reflexivity | ]. cbn.
      repeat split. apply shorten_length.
  - cbn [fst snd]. split; [ reflexivity | ]. split; [ intros _ H; exact H | discriminate ].
Qed.

(** The theorem on a service whose history is full. *)
Lemma command_history_ring_witness :
  let full :=
    Service.with_history (mcp_on "exegol-aida")
      (repeat {| Service.timestamp := 0; Service.h_container := "exegol-aida";
                 Service.h_command := "id"; Service.h_success := true;
                 Service.h_execution_time := 1 |} 50) in
  (List.length
     (Service.command_history
        (snd (fst (Service.execute_container_command (fun _ => "30.0") (running_os "root")
                     Service.RequestFails full "exegol-aida" "whoami" 10 20 30)))) <= 50)%nat.
Proof.
  cbv zeta.
  refine (proj1 (proj2 (command_history_ring (fun _ => "30.0") (running_os "root")
                          Service.RequestFails _ "exegol-aida" "whoami" 10 20 30)) _ _).
  - reflexivity.
  - cbn. lia.
Defined.

Lemma dict_get_set_same {V : Type} (k : string) (v : V) (d : list (string * V)) :
  Commands.dict_get k (Commands.dict_set k v d) = Some v.
Proof. rewrite dict_get_set, String.eqb_refl. reflexivity. Qed.

(** X6: the availability of a tool is checked once per container and
    tool: whatever the first call of [check_tool_availability] answers,
    a second call answers the same without running anything and without
    changing the service, whatever the operating system would say by
    then. *)
Theorem tool_availability_is_cached
    (str_seconds : Z -> string) (os os' : list string -> Runner.os_behaviour)
    (self : Service.mcp) (tool_name : string) :
  let first := Service.check_tool_availability str_seconds os self tool_name in
  Service.check_tool_availability str_seconds os' (snd (fst first)) tool_name
  = (fst (fst first), snd (fst first), []) /\
  (Service.selected (Service.current_container self) = None ->
     first = (false, self, [])).
Proof.
  intros first. subst first. unfold Service.check_tool_availability. split.
  - destruct (Service.selected (Service.current_container self)) as [ container | ] eqn:Hsel.
    + destruct (Commands.dict_get _ (Service.tool_cache self)) as [ a | ] eqn:Hget.
      * cbn [fst snd]. rewrite Hsel, Hget. reflexivity.
      * destruct (Service.run str_seconds os (Service.tool_argv container tool_name))
          as [result acts].
        cbn [fst snd Service.with_tool_cache Service.current_container Service.tool_cache].
        rewrite Hsel, dict_get_set_same. reflexivity.
    + cbn [fst snd]. rewrite Hsel. reflexivity.
  - intros ->. reflexivity.
Qed.

Lemma prefix_app_contains (pre sub s : string) :
  prefix (pre ++ sub) s = true -> PyStr.contains sub s = true.
Proof.
  revert s. induction pre as [ | a pre IH ]; intros s H.
  - destruct s as [ | c s ]; cbn in *; [ exact H | rewrite H; reflexivity ].
  - destruct s as [ | c s ]; [ discriminate | ].
    cbn [append prefix] in H. destruct (ascii_dec a c); [ | discriminate ].
    cbn [PyStr.contains]. rewrite (IH _ H). apply orb_true_r.
Qed.

Lemma contains_app_right (pre sub s : string) :
  PyStr.contains (pre ++ sub) s = true -> PyStr.contains sub s = true.
Proof.
  induction s as [ | c s IH ]; intros H.
  - apply (prefix_app_contains pre). exact H.
  - cbn [PyStr.contains] in H. apply orb_true_iff in H. destruct H as [ H | H ].
    + apply (prefix_app_contains pre). exact H.
    + cbn [PyStr.contains]. rewrite (IH H). apply orb_true_r.
Qed.

Lemma lstrip_slash_no_prefix (s : string) :
  prefix "/" (PyStr.lstrip_by (fun c => Ascii.eqb c "/"%char) s) = false.
Proof.
  induction s as [ | c s IH ]; [ reflexivity | ].
  cbn [PyStr.lstrip_by]. destruct (Ascii.eqb c "/") eqn:E; [ exact IH | ].
  cbn [prefix]. destruct (ascii_dec "/" c) as [ <- | ]; [ discriminate | reflexivity ].
Qed.

Lemma parse_line_entry (json_loads : string -> option json) (line : string)
    (c : Runner.container) :
  Runner.parse_line json_loads line = Ok (Some c) -> exegol_entry c.
Proof.
  unfold Runner.parse_line, bind. intros H.
  destruct (json_loads line) as [ data | ]; [ | discriminate ].
  destruct (PyJson.get data "Image" (JStr "")) as [ image_v | ]; [ | discriminate ].
  destruct image_v as [ | | | image | | ]; try discriminate. cbn [PyJson.lower] in H.
  destruct (PyStr.contains "exegol" (PyStr.lower image)
            || PyStr.contains "nwodtuhs/exegol" (PyStr.lower image)) eqn:Himage;
    [ | discriminate ].
  destruct (PyJson.get data "Names" (JStr "unknown")) as [ names | ]; [ | discriminate ].
  destruct names as [ | | | names | | ]; try discriminate. cbn [PyJson.lstrip_slash] in H.
  destruct (PyJson.get data "State" (JStr "unknown")) as [ st | ]; [ | discriminate ].
  destruct (PyJson.get data "ID" (JStr "unknown")) as [ idv | ]; [ | discriminate ].
  destruct (PyJson.slice12 idv) as [ id12 | ] eqn:Hid; [ | discriminate ].
  destruct (PyJson.get data "CreatedAt" (JStr "unknown")) as [ cr | ]; [ | discriminate ].
  injection H as <-. unfold exegol_entry.
  cbn [Runner.name Runner.image Runner.id Runner.source].
  split; [ | split; [ | split ] ].
  - apply orb_true_iff in Himage. destruct Himage as [ Hi | Hi ]; [ exact Hi | ].
    exact (contains_app_right "nwodtuhs/" "exegol" _ Hi).
  - apply lstrip_slash_no_prefix.
  - destruct idv as [ | | | s | l | ]; cbn [PyJson.slice12] in Hid; try discriminate;
      injection Hid as <-.
    + change (String.length (PyStr.take 12 s) <= 12)%nat. rewrite take_length. lia.
    + change (List.length (firstn 12 l) <= 12)%nat. rewrite length_firstn. lia.
  - reflexivity.
Qed.

Lemma parse_lines_entries (json_loads : string -> option json) (lines : list string) :
  forall acc l,
    Forall exegol_entry acc ->
    Runner.parse_lines json_loads lines acc = Ok l ->
    Forall exegol_entry l.
Proof.
  induction lines as [ | line rest IH ]; intros acc l Hacc H.
  - injection H as <-. exact Hacc.
  - cbn [Runner.parse_lines] in H.
    destruct (negb (String.eqb (PyStr.strip line) "")); [ | exact (IH _ _ Hacc H) ].
    destruct (Runner.parse_line json_loads line) as [ [ c | ] | e ] eqn:Hline.
    + apply (IH (acc ++ [c])%list l); [ | exact H ].
      apply Forall_app. split; [ exact Hacc | ].
      constructor; [ exact (parse_line_entry _ _ _ Hline) | constructor ].
    + exact (IH _ _ Hacc H).
    + destruct (Runner.caught_per_line e); [ exact (IH _ _ Hacc H) | discriminate ].
Qed.

Lemma discover_returns_cache (str_seconds : Z -> string) (json_loads : string -> option json)
    (os : list string -> Runner.os_behaviour) (self : Runner.service) (t : Z) (force : bool) :
  fst (fst (Runner.discover_containers str_seconds json_loads os self t force))
  = Ok (Runner.containers_cache
          (snd (fst (Runner.discover_containers str_seconds json_loads os self t force)))).
Proof.
  unfold Runner.discover_containers.
  destruct (_ && _ && _); [ reflexivity | ].
  destruct (Runner.discover_body str_seconds json_loads os) as [body acts]. reflexivity.
Qed.

(** X7: the registry only ever lists Exegol containers.  Whatever the
    runtime prints and however its lines decode, every container that
    [discover_containers] returns and caches has an image that names
    Exegol (case-insensitively), a name without leading slash, an id cut
    to twelve items and the source docker, provided the containers cached
    before were such. *)
Theorem discover_lists_exegol_only
    (str_seconds : Z -> string) (json_loads : string -> option json)
    (os : list string -> Runner.os_behaviour) (self : Runner.service)
    (current_time : Z) (force_refresh : bool) :
  Forall exegol_entry (Runner.containers_cache self) ->
  exists l,
    fst (fst (Runner.discover_containers str_seconds json_loads os self current_time
                force_refresh)) = Ok l /\
    Runner.containers_cache
      (snd (fst (Runner.discover_containers str_seconds json_loads os self current_time
                   force_refresh))) = l /\
    Forall exegol_entry l.
Proof.
  intros Hcache. eexists. split; [ apply discover_returns_cache | ].
  split; [ reflexivity | ].
  unfold Runner.discover_containers.
  destruct (_ && _ && _); [ exact Hcache | ].
  unfold Runner.discover_body.
  destruct (Runner._run_command str_seconds os _ _) as [[res acts] st].
  cbn [fst snd Runner.containers_cache].
  destruct (Runner.success res && negb (String.eqb (Runner.stdout res) "")).
  - destruct (Runner.parse_lines json_loads _ []) as [ l | e ] eqn:Hparse.
    + exact (parse_lines_entries _ _ _ _ (Forall_nil _) Hparse).
    + constructor.
  - constructor.
Qed.

(** The theorem on a runtime that lists an Exegol container and another
    one: one container is returned. *)
Lemma discover_lists_exegol_only_witness :
  exists l,
    fst (fst (Runner.discover_containers (fun _ => "30.0") flat_loads
                (prints 0 (exegol_line ++ newline ++ nginx_line))
                Runner.init_service 1000000 false)) = Ok l /\
    Runner.containers_cache
      (snd (fst (Runner.discover_containers (fun _ => "30.0") flat_loads
                   (prints 0 (exegol_line ++ newline ++ nginx_line))
                   Runner.init_service 1000000 false))) = l /\
    Forall exegol_entry l.
Proof.
  apply (discover_lists_exegol_only (fun _ => "30.0") flat_loads
           (prints 0 (exegol_line ++ newline ++ nginx_line)) Runner.init_service 1000000 false).
  constructor.
Defined.

Lemma running_containers_In (containers rs : list Runner.container) :
  Service.running_containers containers = Ok rs ->
  forall r, In r rs <-> In r containers /\ Service.is_running r = Ok true.
Proof.
  revert rs. induction containers as [ | c rest IH ]; intros rs H r.
  - injection H as <-. cbn. tauto.
  - cbn [Service.running_containers] in H. unfold bind in H.
    destruct (Service.is_running c) as [ b | ] eqn:Hc; [ | discriminate ].
    destruct (Service.running_containers rest) as [ rs' | ]; [ | discriminate ].
    injection H as <-. specialize (IH rs' eq_refl r).
    destruct b; cbn [In]; rewrite IH; split.
    + intros [ <- | [H1 H2] ]; [ split; [ left; reflexivity | exact Hc ] | ].
      split; [ right; exact H1 | exact H2 ].
    + intros [[ <- | H1 ] H2]; [ left; reflexivity | right; split; assumption ].
    + intros [H1 H2]. split; [ right; exact H1 | exact H2 ].
    + intros [[ <- | H1 ] H2]; [ congruence | split; assumption ].
Qed.

Lemma select_container_spec (claude_name : string) (current sel : option string)
    (containers : list Runner.container) :
  Service.select_container claude_name current containers = Ok sel ->
  (In claude_name (map Runner.name containers) -> sel = Some claude_name) /\
  (~ In claude_name (map Runner.name containers) ->
   (exists c, In c containers /\ Service.is_running c = Ok true) ->
   exists r, In r containers /\ Service.is_running r = Ok true /\
             sel = Some (Runner.name r)) /\
  (containers = [] -> sel = current) /\
  (containers <> [] -> exists c, In c containers /\ sel = Some (Runner.name c)).
Proof.
  unfold Service.select_container, bind. intros H.
  destruct (find _ containers) as [ c0 | ] eqn:Hfind.
  - apply find_some in Hfind. destruct Hfind as [Hin Heq]. apply String.eqb_eq in Heq.
    injection H as <-. split; [ reflexivity | ]. split; [ | split ].
    + intros Hno. exfalso. apply Hno. apply in_map_iff. exists c0. split; assumption.
    + intros ->. destruct Hin.
    + intros _. exists c0. rewrite Heq. split; [ exact Hin | reflexivity ].
  - pose proof (find_none _ _ Hfind) as Hnone.
    split.
    { intros Hin. apply in_map_iff in Hin. destruct Hin as [c [Hname Hin]].
      specialize (Hnone c Hin). cbn in Hnone. rewrite Hname, String.eqb_refl in Hnone.
      discriminate. }
    destruct (Service.running_containers containers) as [ running | ] eqn:Hrun;
      [ | discriminate ].
    pose proof (running_containers_In _ _ Hrun) as Hspec.
    destruct running as [ | r running ].
    + split.
      { intros _ [c [Hin Hc]]. destruct (proj2 (Hspec c) (conj Hin Hc)). }
      destruct containers as [ | c rest ]; injection H as <-.
      * split; [ reflexivity | ]. intros Hne. exfalso. apply Hne. reflexivity.
      * split; [ discriminate | ]. intros _. exists c. split; [ left | ]; reflexivity.
    + injection H as <-. destruct (proj1 (Hspec r) (or_introl eq_refl)) as [Hin Hr].
      split; [ | split ].
      * intros _ _. exists r. repeat split; assumption.
      * intros ->. destruct Hin.
      * intros _. exists r. split; [ exact Hin | reflexivity ].
Qed.

(** X8: what [initialize] does.  Every call stores the client it has
    just created as the HTTP client of the service, without closing the
    one held before, so that [cleanup] afterwards closes the new client
    only.  For an initialized service that is all: nothing is run and no
    other attribute changes.  Otherwise, when the call returns, the
    service is marked initialized and its current container is: the
    configured Claude container when the registry lists it; else a
    running container of the list when there is one; else some container
    of the list; and it is left as it was when the list is empty.  When
    the selection raises (a status that is not a string) the service
    stays uninitialized with the current container it had. *)
Theorem initialize_selection
    (str_seconds : Z -> string) (json_loads : string -> option json)
    (os : list string -> Runner.os_behaviour) (self : Service.mcp) (client : Z)
    (current_time : Z) :
  let out := Service.initialize str_seconds json_loads os self client current_time in
  let self' := snd (fst out) in
  let found := Runner.containers_cache (Service.registry self') in
  let claude := Service.claude_container_name self in
  Service.http_client self' = Some client /\
  Service.cleanup self' = [client] /\
  (Service.is_initialized self = true ->
     out = (Ok tt, Service.with_http_client self (Some client), [])) /\
  (Service.is_initialized self = false ->
   fst (fst out) = Ok tt ->
   Service.is_initialized self' = true /\
   (In claude (map Runner.name found) -> Service.current_container self' = Some claude) /\
   (~ In claude (map Runner.name found) ->
    (exists c, In c found /\ Service.is_running c = Ok true) ->
    exists r, In r found /\ Service.is_running r = Ok true /\
              Service.current_container self' = Some (Runner.name r)) /\
   (found = [] -> Service.current_container self' = Service.current_container self) /\
   (found <> [] ->
    exists c, In c found /\ Service.current_container self' = Some (Runner.name c))) /\
  (forall e, fst (fst out) = Raise e ->
   Service.is_initialized self' = false /\
   Service.current_container self' = Service.current_container self).
Proof.
  intros out self' found claude. subst out self' found claude.
  unfold Service.initialize. cbv zeta.
  cbn [Service.with_http_client Service.is_initialized Service.registry
       Service.claude_container_name Service.current_container].
  destruct (Service.is_initialized self) eqn:Hinit.
  - split; [ reflexivity | ]. split; [ reflexivity | ].
    split; [ reflexivity | ]. split; [ discriminate | ].
    cbn [fst snd]. intros e H. discriminate.
  - pose proof (discover_returns_cache str_seconds json_loads os (Service.registry self)
                  current_time false) as Hfound.
    destruct (Runner.discover_containers str_seconds json_loads os (Service.registry self)
                current_time false) as [[found reg] acts].
    cbn [fst snd] in Hfound. subst found.
    destruct (Service.select_container (Service.claude_container_name self)
                (Service.current_container self) (Runner.containers_cache reg))
      as [ sel | e ] eqn:Hsel;
      cbn [fst snd Service.with_selection Service.with_http_client Service.registry
           Service.is_initialized Service.current_container Service.http_client
           Service.cleanup];
      (split; [ reflexivity | ]); (split; [ reflexivity | ]);
      (split; [ discriminate | ]).
    + split.
      * intros _ _. split; [ reflexivity | ]. exact (select_container_spec _ _ _ _ Hsel).
      * intros e H. discriminate.
    + split; [ intros _ H; discriminate | ]. intros e' _. split; reflexivity.
Qed.

(** X9: the output limit is cached for its time to live.  When the cached
    value has expired the backend is asked; an answer 200 with a value is
    stored with the time of the call, and every call within the time to
    live after it returns that value without asking.  Any other outcome
    keeps the value and the time stamp as they were, so that the next call
    asks again. *)
Theorem output_max_length_cache (http http' : Service.http_outcome) (self : Service.mcp)
    (t t' : Z) :
  (Service.output_max_length_cache_ttl self * Runner.ticks_per_second
   <= t - Service.output_max_length_cache_time self)%Z ->
  (t <= t')%Z ->
  (t' - t < Service.output_max_length_cache_ttl self * Runner.ticks_per_second)%Z ->
  let first := Service.get_output_max_length http self t in
  let self1 := snd (fst first) in
  snd first = true /\
  (forall v, http = Service.Responds 200 (Some v) ->
     fst (fst first) = v /\
     Service.get_output_max_length http' self1 t' = (v, self1, false)) /\
  ((forall v, http <> Service.Responds 200 (Some v)) ->
     first = (Service.output_max_length self, self, true) /\
     snd (Service.get_output_max_length http' self t') = true).
Proof.
  intros Hexpired Hlater Hwithin first self1. subst first self1.
  assert (Service.get_output_max_length http self t
          = match http with
            | Service.Responds code (Some v) =>
                if (code =? 200)%Z
                then (v, Service.with_output_max_length self v t, true)
                else (Service.output_max_length self, self, true)
            | _ => (Service.output_max_length self, self, true)
            end) as Hfirst.
  { unfold Service.get_output_max_length.
    destruct (Z.ltb_spec (t - Service.output_max_length_cache_time self)
                (Service.output_max_length_cache_ttl self * Runner.ticks_per_second));
      [ lia | reflexivity ]. }
  rewrite Hfirst. clear Hfirst.
  assert (forall h, snd (Service.get_output_max_length h self t') = true) as Hagain.
  { intros h. unfold Service.get_output_max_length.
    destruct (Z.ltb_spec (t' - Service.output_max_length_cache_time self)
                (Service.output_max_length_cache_ttl self * Runner.ticks_per_second));
      [ lia | ].
    destruct h as [ | code [ v | ] ]; try reflexivity.
    destruct (code =? 200)%Z; reflexivity. }
  destruct http as [ | code [ v | ] ].
  - split; [ reflexivity | ]. split; [ intros v E; discriminate | ].
    intros _. split; [ reflexivity | apply Hagain ].
  - destruct (Z.eqb_spec code 200) as [ -> | Hcode ].
    + split; [ reflexivity | ]. split.
      * intros v' E. injection E as <-. split; [ reflexivity | ].
        cbn [fst snd]. unfold Service.get_output_max_length.
        cbn [Service.with_output_max_length Service.output_max_length_cache_time
             Service.output_max_length_cache_ttl Service.output_max_length].
        destruct (Z.ltb_spec (t' - t)
                    (Service.output_max_length_cache_ttl self * Runner.ticks_per_second));
          [ reflexivity | lia ].
      * intros Hno. exfalso. exact (Hno v eq_refl).
    + split; [ reflexivity | ]. split.
      * intros v' E. injection E as E1 E2. contradiction.
      * intros _. split; [ reflexivity | apply Hagain ].
  - split; [ reflexivity | ]. split; [ intros v E; discriminate | ].
    intros _. split; [ reflexivity | apply Hagain ].
Qed.

(** The theorem on a fresh service: the limit 8000 answered at second 100
    is returned at second 120 although the backend fails by then. *)
Lemma output_max_length_cache_witness :
  fst (fst (Service.get_output_max_length Service.RequestFails
              (snd (fst (Service.get_output_max_length (Service.Responds 200 (Some 8000%Z))
                           Service.init_mcp 100000000)))
              120000000)) = 8000%Z.
Proof.
  assert (Service.output_max_length_cache_ttl Service.init_mcp * Runner.ticks_per_second
          <= 100000000 - Service.output_max_length_cache_time Service.init_mcp)%Z as H1
    by (vm_compute; discriminate).
  assert (100000000 <= 120000000)%Z as H2 by lia.
  assert (120000000 - 100000000
          < Service.output_max_length_cache_ttl Service.init_mcp * Runner.ticks_per_second)%Z
    as H3 by (vm_compute; reflexivity).
  pose proof (output_max_length_cache (Service.Responds 200 (Some 8000%Z))
                Service.RequestFails Service.init_mcp 100000000 120000000 H1 H2 H3) as H.
  cbv zeta in H. destruct H as [_ [H _]].
  destruct (H 8000%Z eq_refl) as [_ Hsecond]. rewrite Hsecond. reflexivity.
Defined.

Lemma set_row_find (k k' v : string) (descr : option string)
    (rows : list Pending.PlatformSettings) :
  find (fun r => String.eqb (Pending.key r) k') (Pending.set_row k v descr rows)
  = if String.eqb k k'
    then Some (match find (fun r => String.eqb (Pending.key r) k) rows with
               | Some r => {| Pending.key := Pending.key r; Pending.value := v;
                              Pending.description := Pending.description r |}
               | None => {| Pending.key := k; Pending.value := v;
                            Pending.description := descr |}
               end)
    else find (fun r => String.eqb (Pending.key r) k') rows.
Proof.
  induction rows as [ | r rows IH ]; cbn [Pending.set_row find Pending.key].
  - destruct (String.eqb k k'); reflexivity.
  - destruct (String.eqb_spec (Pending.key r) k) as [ E | N ]; cbn [find Pending.key].
    + rewrite E. destruct (String.eqb k k'); reflexivity.
    + rewrite IH. destruct (String.eqb_spec (Pending.key r) k') as [ E' | N' ];
        [ | reflexivity ].
      destruct (String.eqb_spec k k') as [ E'' | N'' ]; [ congruence | reflexivity ].
Qed.

Lemma setting_row_set (d : Pending.database) (k k' v : string) (descr : option string) :
  Pending.setting_row k' (Pending.set_command_setting d k v descr)
  = if String.eqb k k'
    then Some (match Pending.setting_row k d with
               | Some r => {| Pending.key := Pending.key r; Pending.value := v;
                              Pending.description := Pending.description r |}
               | None => {| Pending.key := k; Pending.value := v;
                            Pending.description := descr |}
               end)
    else Pending.setting_row k' d.
Proof. unfold Pending.setting_row, Pending.set_command_setting. apply set_row_find. Qed.

Lemma stored_set (d : Pending.database) (k k' v : string) (descr : option string) :
  stored k' (Pending.set_command_setting d k v descr)
  = if String.eqb k k' then Some v else stored k' d.
Proof.
  unfold stored. rewrite setting_row_set.
  destruct (String.eqb k k'); [ | reflexivity ].
  destruct (Pending.setting_row k d); reflexivity.
Qed.

Lemma set_row_keys (k v : string) (descr : option string)
    (rows : list Pending.PlatformSettings) (x : string) :
  In x (map Pending.key (Pending.set_row k v descr rows)) ->
  x = k \/ In x (map Pending.key rows).
Proof.
  induction rows as [ | r rows IH ]; cbn [Pending.set_row map In Pending.key].
  - intros [ <- | [] ]. left. reflexivity.
  - destruct (String.eqb (Pending.key r) k); cbn [map In Pending.key].
    + intros H. right. exact H.
    + intros [ H | H ]; [ right; left; exact H | ].
      destruct (IH H) as [ E | Hin ]; [ left; exact E | right; right; exact Hin ].
Qed.

Lemma set_row_NoDup (k v : string) (descr : option string)
    (rows : list Pending.PlatformSettings) :
  NoDup (map Pending.key rows) ->
  NoDup (map Pending.key (Pending.set_row k v descr rows)).
Proof.
  induction rows as [ | r rows IH ]; cbn [Pending.set_row map Pending.key]; intros Hnd.
  - constructor; [ intros [] | constructor ].
  - inversion Hnd as [ | ? ? Hnotin Hnd' ]; subst.
    destruct (String.eqb_spec (Pending.key r) k) as [ E | N ]; cbn [map Pending.key].
    + constructor; assumption.
    + constructor; [ | exact (IH Hnd') ].
      intros Hin. destruct (set_row_keys _ _ _ _ _ Hin) as [ E | Hin' ];
        [ contradiction | contradiction ].
Qed.

(** X10: what [set_command_setting] does to the table of settings.  The
    value written is the value read back under the key; a row that
    existed keeps its key and its description (the description given is
    only used for a new row); the rows of the other keys and the pending
    commands are untouched; and keys that were distinct stay distinct. *)
Theorem set_command_setting_round_trip (d : Pending.database) (k v : string)
    (descr : option string) :
  let d' := Pending.set_command_setting d k v descr in
  stored k d' = Some v /\
  (forall r, Pending.setting_row k d = Some r ->
     Pending.setting_row k d'
     = Some {| Pending.key := k; Pending.value := v;
               Pending.description := Pending.description r |}) /\
  (Pending.setting_row k d = None ->
     Pending.setting_row k d'
     = Some {| Pending.key := k; Pending.value := v; Pending.description := descr |}) /\
  (forall k', k' <> k -> Pending.setting_row k' d' = Pending.setting_row k' d) /\
  Pending.pending_commands d' = Pending.pending_commands d /\
  Pending.next_id d' = Pending.next_id d /\
  (NoDup (map Pending.key (Pending.platform_settings d)) ->
   NoDup (map Pending.key (Pending.platform_settings d'))).
Proof.
  intros d'. subst d'. split; [ | split; [ | split; [ | split; [ | split; [ | split ] ] ] ] ].
  - rewrite stored_set, String.eqb_refl. reflexivity.
  - intros r Hr. rewrite setting_row_set, String.eqb_refl, Hr.
    unfold Pending.setting_row in Hr. apply find_some in Hr. destruct Hr as [_ Hk].
    apply String.eqb_eq in Hk. rewrite Hk. reflexivity.
  - intros Hr. rewrite setting_row_set, String.eqb_refl, Hr. reflexivity.
  - intros k' Hne. rewrite setting_row_set.
    destruct (String.eqb_spec k k') as [ E | N ]; [ congruence | reflexivity ].
  - reflexivity.
  - reflexivity.
  - apply set_row_NoDup.
Qed.

Lemma get_command_settings_stored (json_loads : string -> option json)
    (py_int : string -> option Z) (defaults : list string) (d d' : Pending.database) :
  stored Pending.MODE_KEY d' = stored Pending.MODE_KEY d ->
  stored Pending.KEYWORDS_KEY d' = stored Pending.KEYWORDS_KEY d ->
  stored Pending.TIMEOUT_KEY d' = stored Pending.TIMEOUT_KEY d ->
  Pending.get_command_settings json_loads py_int defaults d'
  = Pending.get_command_settings json_loads py_int defaults d.
Proof.
  unfold stored, Pending.get_command_settings. intros Hm Hk Ht.
  destruct (Pending.setting_row Pending.MODE_KEY d');
    destruct (Pending.setting_row Pending.MODE_KEY d); try discriminate;
    destruct (Pending.setting_row Pending.KEYWORDS_KEY d');
    destruct (Pending.setting_row Pending.KEYWORDS_KEY d); try discriminate;
    destruct (Pending.setting_row Pending.TIMEOUT_KEY d');
    destruct (Pending.setting_row Pending.TIMEOUT_KEY d); try discriminate;
    cbn [option_map] in *;
    try (injection Hm as Hm; rewrite Hm);
    try (injection Hk as Hk; rewrite Hk);
    try (injection Ht as Ht; rewrite Ht);
    reflexivity.
Qed.

Lemma get_command_settings_all_stored (json_loads : string -> option json)
    (py_int : string -> option Z) (defaults : list string) (d : Pending.database)
    (m kv tv : string) (j : json) (t : Z) :
  stored Pending.MODE_KEY d = Some m ->
  stored Pending.KEYWORDS_KEY d = Some kv ->
  stored Pending.TIMEOUT_KEY d = Some tv ->
  json_loads kv = Some j ->
  py_int tv = Some t ->
  Pending.get_command_settings json_loads py_int defaults d
  = Ok {| Pending.execution_mode := m; Pending.filter_keywords := j;
          Pending.settings_timeout_seconds := t |}.
Proof.
  unfold stored, Pending.get_command_settings. intros Hm Hk Ht Hj Hi.
  destruct (Pending.setting_row Pending.MODE_KEY d); [ | discriminate ].
  destruct (Pending.setting_row Pending.KEYWORDS_KEY d); [ | discriminate ].
  destruct (Pending.setting_row Pending.TIMEOUT_KEY d); [ | discriminate ].
  cbn [option_map] in *. injection Hm as ->. injection Hk as ->. injection Ht as ->.
  rewrite Hj, Hi. reflexivity.
Qed.

Lemma update_settings_given (json_loads : string -> option json) (json_dumps : json -> string)
    (py_int : string -> option Z) (defaults : list string) (d : Pending.database)
    (update : Keywords.CommandSettingsUpdate) :
  match given_mode update with
  | Some m => Keywords.valid_mode m = true
  | None => True
  end ->
  let out := Keywords.update_settings json_loads json_dumps py_int defaults d update in
  let d' := snd (fst out) in
  d' = (let d1 := match given_mode update with
                  | Some m => Pending.set_command_setting d Pending.MODE_KEY m
                                (Some "Command execution mode: open, filter, or closed")
                  | None => d
                  end in
        let d2 := match Keywords.u_filter_keywords update with
                  | Some l => Pending.set_command_setting d1 Pending.KEYWORDS_KEY
                                (json_dumps (JArr (map JStr l)))
                                (Some "Keywords that trigger approval in filter mode")
                  | None => d1
                  end in
        match Keywords.u_timeout_seconds update with
        | Some t => Pending.set_command_setting d2 Pending.TIMEOUT_KEY (str_int t)
                      (Some "Timeout in seconds for pending commands")
        | None => d2
        end) /\
  fst (fst out) = Keywords.settings_response json_loads py_int defaults d' /\
  snd out = match Pending.get_command_settings json_loads py_int defaults d' with
            | Ok s => [s]
            | Raise _ => []
            end.
Proof.
  intros Hvalid out d'. subst out d'. unfold Keywords.update_settings.
  fold (given_mode update). destruct (given_mode update) as [ m | ].
  - rewrite Hvalid. cbn [negb].
    match goal with
    | |- context [Pending.get_command_settings json_loads py_int defaults ?x] =>
        set (d3 := x)
    end.
    unfold Keywords.settings_response, bind.
    destruct (Pending.get_command_settings json_loads py_int defaults d3) as [ s | e ] eqn:E;
      cbn [fst snd]; unfold bind; rewrite ?E; repeat split.
  - match goal with
    | |- context [Pending.get_command_settings json_loads py_int defaults ?x] =>
        set (d3 := x)
    end.
    unfold Keywords.settings_response, bind.
    destruct (Pending.get_command_settings json_loads py_int defaults d3) as [ s | e ] eqn:E;
      cbn [fst snd]; unfold bind; rewrite ?E; repeat split.
Qed.

(** X11: [update_settings] validates the mode before it writes anything.
    A non-empty mode other than open, filter and closed is rejected with
    status 400: no setting is written, not even the keywords or the
    timeout of the same request, and nothing is broadcast.  An empty mode
    counts as no mode.  Consequently a stored mode that is one of the
    three stays one of the three. *)
Theorem update_settings_mode_validation
    (json_loads : string -> option json) (json_dumps : json -> string)
    (py_int : string -> option Z) (defaults : list string) (d : Pending.database)
    (update : Keywords.CommandSettingsUpdate) :
  let out := Keywords.update_settings json_loads json_dumps py_int defaults d update in
  (forall m, Keywords.u_execution_mode update = Some m -> m <> EmptyString ->
     Keywords.valid_mode m = false ->
     out = (Raise (HTTPException HTTP_400_BAD_REQUEST
                     "execution_mode must be 'open', 'filter', or 'closed'"), d, [])) /\
  (Keywords.u_execution_mode update = Some EmptyString ->
     out = Keywords.update_settings json_loads json_dumps py_int defaults d
             {| Keywords.u_execution_mode := None;
                Keywords.u_filter_keywords := Keywords.u_filter_keywords update;
                Keywords.u_timeout_seconds := Keywords.u_timeout_seconds update |}) /\
  (valid_stored_mode d -> valid_stored_mode (snd (fst out))).
Proof.
  intros out. subst out. split; [ | split ].
  - intros m Hm Hne Hinvalid. unfold Keywords.update_settings. rewrite Hm.
    destruct m as [ | c m ]; [ contradiction | ]. rewrite Hinvalid. reflexivity.
  - intros Hm. unfold Keywords.update_settings. rewrite Hm. reflexivity.
  - intros Hd.
    destruct (given_mode update) as [ m | ] eqn:Hgiven.
    + destruct (Keywords.valid_mode m) eqn:Hvalid.
      * pose proof (update_settings_given json_loads json_dumps py_int defaults d update) as H.
        rewrite Hgiven in H. destruct (H Hvalid) as [-> _].
        unfold valid_stored_mode.
        destruct (Keywords.u_filter_keywords update), (Keywords.u_timeout_seconds update);
          cbv zeta; rewrite ?stored_set; cbn [String.eqb Ascii.eqb Bool.eqb
            Pending.MODE_KEY Pending.KEYWORDS_KEY Pending.TIMEOUT_KEY]; exact Hvalid.
      * unfold Keywords.update_settings. fold (given_mode update). rewrite Hgiven, Hvalid.
        exact Hd.
    + pose proof (update_settings_given json_loads json_dumps py_int defaults d update) as H.
      rewrite Hgiven in H. destruct (H I) as [-> _].
      unfold valid_stored_mode.
      destruct (Keywords.u_filter_keywords update), (Keywords.u_timeout_seconds update);
        cbv zeta; rewrite ?stored_set; cbn [String.eqb Ascii.eqb Bool.eqb
          Pending.MODE_KEY Pending.KEYWORDS_KEY Pending.TIMEOUT_KEY]; exact Hd.
Qed.

(** X12: [update_settings] writes exactly the fields it is given.  When
    the mode given is valid (or none is given), the value stored under
    each of the three keys afterwards is the one given, or the one stored
    before when the field is absent; every other setting and the pending
    commands are untouched; the response is the settings read back from
    the table; and these settings are broadcast once, when they can be
    read. *)
Theorem update_settings_writes_given_fields
    (json_loads : string -> option json) (json_dumps : json -> string)
    (py_int : string -> option Z) (defaults : list string) (d : Pending.database)
    (update : Keywords.CommandSettingsUpdate) :
  match given_mode update with
  | Some m => Keywords.valid_mode m = true
  | None => True
  end ->
  let out := Keywords.update_settings json_loads json_dumps py_int defaults d update in
  let d' := snd (fst out) in
  stored Pending.MODE_KEY d'
  = match given_mode update with
    | Some m => Some m
    | None => stored Pending.MODE_KEY d
    end /\
  stored Pending.KEYWORDS_KEY d'
  = match Keywords.u_filter_keywords update with
    | Some l => Some (json_dumps (JArr (map JStr l)))
    | None => stored Pending.KEYWORDS_KEY d
    end /\
  stored Pending.TIMEOUT_KEY d'
  = match Keywords.u_timeout_seconds update with
    | Some t => Some (str_int t)
    | None => stored Pending.TIMEOUT_KEY d
    end /\
  (forall k, k <> Pending.MODE_KEY -> k <> Pending.KEYWORDS_KEY ->
             k <> Pending.TIMEOUT_KEY ->
             Pending.setting_row k d' = Pending.setting_row k d) /\
  Pending.pending_commands d' = Pending.pending_commands d /\
  fst (fst out) = Keywords.settings_response json_loads py_int defaults d' /\
  snd out = match Pending.get_command_settings json_loads py_int defaults d' with
            | Ok s => [s]
            | Raise _ => []
            end.
Proof.
  intros Hvalid out d'. subst out d'.
  destruct (update_settings_given json_loads json_dumps py_int defaults d update Hvalid)
    as (Hd & Hresp & Hcast).
  cbv zeta in Hd, Hresp, Hcast.
  split; [ | split; [ | split; [ | split; [ | split; [ | split ] ] ] ] ];
    [ | | | | | exact Hresp | exact Hcast ]; rewrite Hd; clear Hd Hresp Hcast.
  - destruct (given_mode update), (Keywords.u_filter_keywords update),
      (Keywords.u_timeout_seconds update); cbv zeta; rewrite ?stored_set; reflexivity.
  - destruct (given_mode update), (Keywords.u_filter_keywords update),
      (Keywords.u_timeout_seconds update); cbv zeta; rewrite ?stored_set; reflexivity.
  - destruct (given_mode update), (Keywords.u_filter_keywords update),
      (Keywords.u_timeout_seconds update); cbv zeta; rewrite ?stored_set; reflexivity.
  - intros k H1 H2 H3.
    assert (forall k0 x v descr, k <> k0 ->
              Pending.setting_row k (Pending.set_command_setting x k0 v descr)
              = Pending.setting_row k x) as Hother.
    { intros k0 x v descr Hne. rewrite setting_row_set.
      destruct (String.eqb_spec k0 k) as [ E | N ]; [ congruence | reflexivity ]. }
    destruct (given_mode update), (Keywords.u_filter_keywords update),
      (Keywords.u_timeout_seconds update); cbv zeta;
      rewrite ?Hother by assumption; reflexivity.
  - destruct (given_mode update), (Keywords.u_filter_keywords update),
      (Keywords.u_timeout_seconds update); reflexivity.
Qed.

(** The theorem on an update that only gives a timeout. *)
Lemma update_settings_writes_given_fields_witness :
  stored Pending.TIMEOUT_KEY
    (snd (fst (Keywords.update_settings list_loads list_dumps int_loads
                 Pending.DEFAULT_FILTER_KEYWORDS (keywords_database ["rm"])
                 {| Keywords.u_execution_mode := None;
                    Keywords.u_filter_keywords := None;
                    Keywords.u_timeout_seconds := Some 45%Z |}))) = Some "45" /\
  stored Pending.KEYWORDS_KEY
    (snd (fst (Keywords.update_settings list_loads list_dumps int_loads
                 Pending.DEFAULT_FILTER_KEYWORDS (keywords_database ["rm"])
                 {| Keywords.u_execution_mode := None;
                    Keywords.u_filter_keywords := None;
                    Keywords.u_timeout_seconds := Some 45%Z |})))
  = stored Pending.KEYWORDS_KEY (keywords_database ["rm"]).
Proof.
  pose proof (update_settings_writes_given_fields list_loads list_dumps int_loads
                Pending.DEFAULT_FILTER_KEYWORDS (keywords_database ["rm"])
                {| Keywords.u_execution_mode := None;
                   Keywords.u_filter_keywords := None;
                   Keywords.u_timeout_seconds := Some 45%Z |} I) as H.
  cbv zeta in H. destruct H as (_ & Hk & Ht & _).
  split; [ exact Ht | exact Hk ].
Defined.

Lemma valid_mode_given (m : string) (kws : option (list string)) (t : option Z) :
  Keywords.valid_mode m = true ->
  given_mode {| Keywords.u_execution_mode := Some m;
                Keywords.u_filter_keywords := kws;
                Keywords.u_timeout_seconds := t |} = Some m.
Proof. destruct m; [ discriminate | reflexivity ]. Qed.

(** X13: a full update is read back.  When [int] decodes what [str] gave
    for the timeout and [json.loads] decodes what [json.dumps] gave for
    the keywords, an update with a valid mode, keywords and a timeout
    answers with exactly these three values, broadcasts them once, and
    the route [get_settings] returns them afterwards. *)
Theorem update_settings_round_trip
    (json_loads : string -> option json) (json_dumps : json -> string)
    (py_int : string -> option Z) (defaults : list string) (d : Pending.database)
    (m : string) (l : list string) (t : Z) :
  Keywords.valid_mode m = true ->
  json_loads (json_dumps (JArr (map JStr l))) = Some (JArr (map JStr l)) ->
  py_int (str_int t) = Some t ->
  let out := Keywords.update_settings json_loads json_dumps py_int defaults d
               {| Keywords.u_execution_mode := Some m;
                  Keywords.u_filter_keywords := Some l;
                  Keywords.u_timeout_seconds := Some t |} in
  let answer := {| Pending.resp_execution_mode := m;
                   Pending.resp_filter_keywords := l;
                   Pending.resp_timeout_seconds := t |} in
  fst (fst out) = Ok answer /\
  snd out = [{| Pending.execution_mode := m;
                Pending.filter_keywords := JArr (map JStr l);
                Pending.settings_timeout_seconds := t |}] /\
  (forall defaults',
     Keywords.get_settings json_loads py_int defaults' (Ok (snd (fst out))) = answer).
Proof.
  intros Hvalid Hloads Hint out answer. subst out answer.
  pose proof (update_settings_given json_loads json_dumps py_int defaults d
                {| Keywords.u_execution_mode := Some m;
                   Keywords.u_filter_keywords := Some l;
                   Keywords.u_timeout_seconds := Some t |}) as H.
  rewrite (valid_mode_given m (Some l) (Some t) Hvalid) in H.
  destruct (H Hvalid) as (Hd & Hresp & Hcast). clear H.
  cbv zeta in Hd, Hresp, Hcast.
  cbn [Keywords.u_filter_keywords Keywords.u_timeout_seconds] in Hd.
  assert (forall defaults',
            Pending.get_command_settings json_loads py_int defaults'
              (snd (fst (Keywords.update_settings json_loads json_dumps py_int defaults d
                           {| Keywords.u_execution_mode := Some m;
                              Keywords.u_filter_keywords := Some l;
                              Keywords.u_timeout_seconds := Some t |})))
            = Ok {| Pending.execution_mode := m;
                    Pending.filter_keywords := JArr (map JStr l);
                    Pending.settings_timeout_seconds := t |}) as Hread.
  { intros defaults'. rewrite Hd.
    apply (get_command_settings_all_stored json_loads py_int defaults' _ m
             (json_dumps (JArr (map JStr l))) (str_int t));
      try assumption; rewrite ?stored_set; reflexivity. }
  split; [ | split ].
  - rewrite Hresp. unfold Keywords.settings_response, bind. rewrite Hread.
    unfold Pending.validate_settings. cbn [Pending.filter_keywords].
    rewrite strings_of_map. reflexivity.
  - rewrite Hcast, Hread. reflexivity.
  - intros defaults'. unfold Keywords.get_settings, Keywords.settings_response, bind.
    rewrite Hread. unfold Pending.validate_settings. cbn [Pending.filter_keywords].
    rewrite strings_of_map. reflexivity.
Qed.

(** The theorem with a decoder of lists of strings and of integers. *)
Lemma update_settings_round_trip_witness :
  fst (fst (Keywords.update_settings list_loads list_dumps int_loads
              Pending.DEFAULT_FILTER_KEYWORDS Pending.empty_database
              {| Keywords.u_execution_mode := Some "filter";
                 Keywords.u_filter_keywords := Some ["rm"; "sudo"];
                 Keywords.u_timeout_seconds := Some 45%Z |}))
  = Ok {| Pending.resp_execution_mode := "filter";
          Pending.resp_filter_keywords := ["rm"; "sudo"];
          Pending.resp_timeout_seconds := 45 |}.
Proof.
  refine (proj1 (update_settings_round_trip list_loads list_dumps int_loads
                   Pending.DEFAULT_FILTER_KEYWORDS Pending.empty_database
                   "filter" ["rm"; "sudo"] 45 _ _ _)); reflexivity.
Defined.

Lemma existsb_is_keyword (kw : string) (l : list string) :
  existsb (Keywords.is_keyword kw) (map JStr l) = true <-> In kw l.
Proof.
  induction l as [ | x l IH ]; cbn [map existsb In Keywords.is_keyword].
  - split; [ discriminate | intros [] ].
  - rewrite orb_true_iff, IH, String.eqb_eq. tauto.
Qed.

Lemma remove_first_last (kw : string) (l : list string) :
  ~ In kw l -> Keywords.remove_first kw (map JStr (l ++ [kw])) = map JStr l.
Proof.
  induction l as [ | x l IH ]; intros Hnot.
  - cbn. rewrite String.eqb_refl. reflexivity.
  - cbn [app map Keywords.remove_first Keywords.is_keyword].
    destruct (String.eqb_spec x kw) as [ E | N ].
    + exfalso. apply Hnot. left. exact E.
    + rewrite IH; [ reflexivity | ]. intros H. apply Hnot. right. exact H.
Qed.

Lemma get_command_settings_set_keywords (json_loads : string -> option json)
    (py_int : string -> option Z) (defaults defaults' : list string) (d : Pending.database)
    (s : Pending.settings) (v : string) (descr : option string) (j : json) :
  Pending.get_command_settings json_loads py_int defaults d = Ok s ->
  json_loads v = Some j ->
  Pending.get_command_settings json_loads py_int defaults'
    (Pending.set_command_setting d Pending.KEYWORDS_KEY v descr)
  = Ok {| Pending.execution_mode := Pending.execution_mode s;
          Pending.filter_keywords := j;
          Pending.settings_timeout_seconds := Pending.settings_timeout_seconds s |}.
Proof.
  unfold Pending.get_command_settings, bind. intros Hs Hj.
  rewrite !setting_row_set.
  change (String.eqb Pending.KEYWORDS_KEY Pending.MODE_KEY) with false.
  change (String.eqb Pending.KEYWORDS_KEY Pending.TIMEOUT_KEY) with false.
  rewrite String.eqb_refl. cbv iota.
  assert (forall r : Pending.PlatformSettings,
            Pending.value
              match Pending.setting_row Pending.KEYWORDS_KEY d with
              | Some r0 => {| Pending.key := Pending.key r0; Pending.value := v;
                              Pending.description := Pending.description r0 |}
              | None => {| Pending.key := Pending.KEYWORDS_KEY; Pending.value := v;
                           Pending.description := descr |}
              end = v) as Hv
    by (intros _; destruct (Pending.setting_row Pending.KEYWORDS_KEY d); reflexivity).
  rewrite (Hv {| Pending.key := v; Pending.value := v; Pending.description := None |}), Hj.
  clear Hv.
  destruct (Pending.setting_row Pending.KEYWORDS_KEY d) as [ rk | ];
    [ destruct (json_loads (Pending.value rk)); [ | discriminate ] | ];
    (destruct (Pending.setting_row Pending.TIMEOUT_KEY d) as [ rt | ];
     [ destruct (py_int (Pending.value rt)); [ | discriminate ] | ]);
    injection Hs as <-; reflexivity.
Qed.

Lemma add_keyword_new (json_loads : string -> option json) (json_dumps : json -> string)
    (py_int : string -> option Z) (defaults : list string) (d : Pending.database)
    (raw : string) (s : Pending.settings) (l : list string) :
  Pending.get_command_settings json_loads py_int defaults d = Ok s ->
  Pending.filter_keywords s = JArr (map JStr l) ->
  PyStr.lower (PyStr.strip raw) <> EmptyString ->
  ~ In (PyStr.lower (PyStr.strip raw)) l ->
  Keywords.add_keyword json_loads json_dumps py_int defaults d raw
  = (Keywords.settings_response json_loads py_int
       (match Pending.setting_row Pending.KEYWORDS_KEY d with
        | None => (defaults ++ [PyStr.lower (PyStr.strip raw)])%list
        | Some _ => defaults
        end)
       (Pending.set_command_setting d Pending.KEYWORDS_KEY
          (json_dumps (JArr (map JStr (l ++ [PyStr.lower (PyStr.strip raw)]))))
          (Some "Keywords that trigger approval in filter mode")),
     Pending.set_command_setting d Pending.KEYWORDS_KEY
       (json_dumps (JArr (map JStr (l ++ [PyStr.lower (PyStr.strip raw)]))))
       (Some "Keywords that trigger approval in filter mode"),
     match Pending.setting_row Pending.KEYWORDS_KEY d with
     | None => (defaults ++ [PyStr.lower (PyStr.strip raw)])%list
     | Some _ => defaults
     end).
Proof.
  intros Hs Hl Hne Hnot. unfold Keywords.add_keyword. rewrite Hs, Hl.
  destruct (String.eqb_spec (PyStr.lower (PyStr.strip raw)) "") as [ E | _ ];
    [ contradiction | ].
  unfold Keywords.contains_keyword, bind.
  destruct (existsb (Keywords.is_keyword (PyStr.lower (PyStr.strip raw))) (map JStr l))
    eqn:Hex.
  - apply existsb_is_keyword in Hex. contradiction.
  - rewrite map_app. reflexivity.
Qed.

Lemma add_keyword_present (json_loads : string -> option json) (json_dumps : json -> string)
    (py_int : string -> option Z) (defaults : list string) (d : Pending.database)
    (raw : string) (s : Pending.settings) (l : list string) :
  Pending.get_command_settings json_loads py_int defaults d = Ok s ->
  Pending.filter_keywords s = JArr (map JStr l) ->
  In (PyStr.lower (PyStr.strip raw)) l ->
  Keywords.add_keyword json_loads json_dumps py_int defaults d raw
  = (Keywords.settings_response json_loads py_int defaults d, d, defaults).
Proof.
  intros Hs Hl Hin. unfold Keywords.add_keyword. rewrite Hs, Hl.
  destruct (String.eqb (PyStr.lower (PyStr.strip raw)) ""); [ reflexivity | ].
  unfold Keywords.contains_keyword, bind.
  rewrite (proj2 (existsb_is_keyword _ _) Hin). reflexivity.
Qed.

Lemma remove_keyword_present (json_loads : string -> option json)
    (json_dumps : json -> string) (py_int : string -> option Z) (defaults : list string)
    (d : Pending.database) (raw : string) (s : Pending.settings) (l : list string) :
  Pending.get_command_settings json_loads py_int defaults d = Ok s ->
  Pending.filter_keywords s = JArr (map JStr l) ->
  In (PyStr.lower (PyStr.strip raw)) l ->
  Keywords.remove_keyword json_loads json_dumps py_int defaults d raw
  = (Keywords.settings_response json_loads py_int
       (match Pending.setting_row Pending.KEYWORDS_KEY d with
        | None => Keywords.remove_first_string (PyStr.lower (PyStr.strip raw)) defaults
        | Some _ => defaults
        end)
       (Pending.set_command_setting d Pending.KEYWORDS_KEY
          (json_dumps (JArr (Keywords.remove_first (PyStr.lower (PyStr.strip raw))
                               (map JStr l))))
          (Some "Keywords that trigger approval in filter mode")),
     Pending.set_command_setting d Pending.KEYWORDS_KEY
       (json_dumps (JArr (Keywords.remove_first (PyStr.lower (PyStr.strip raw))
                            (map JStr l))))
       (Some "Keywords that trigger approval in filter mode"),
     match Pending.setting_row Pending.KEYWORDS_KEY d with
     | None => Keywords.remove_first_string (PyStr.lower (PyStr.strip raw)) defaults
     | Some _ => defaults
     end).
Proof.
  intros Hs Hl Hin. unfold Keywords.remove_keyword. rewrite Hs, Hl.
  unfold Keywords.contains_keyword, bind.
  rewrite (proj2 (existsb_is_keyword _ _) Hin). reflexivity.
Qed.

Lemma get_command_settings_no_keywords (json_loads : string -> option json)
    (py_int : string -> option Z) (defaults : list string) (d : Pending.database)
    (s : Pending.settings) :
  Pending.setting_row Pending.KEYWORDS_KEY d = None ->
  Pending.get_command_settings json_loads py_int defaults d = Ok s ->
  Pending.filter_keywords s = JArr (map JStr defaults).
Proof.
  unfold Pending.get_command_settings, bind. intros -> Hs.
  destruct (Pending.setting_row Pending.TIMEOUT_KEY d) as [ rt | ];
    [ destruct (py_int (Pending.value rt)); [ | discriminate ] | ];
    injection Hs as <-; reflexivity.
Qed.

(** X14: on an installation that stores no keyword list, [add_keyword]
    changes the built-in default list itself.  [get_command_settings]
    hands out the module-level list [DEFAULT_FILTER_KEYWORDS] and the
    route appends to it: after the call the module-level list ends with
    the new keyword (stripped and lower-cased), the same list is written
    to the table, and the fallback answer of [get_settings] for a failing
    database, which is that module-level list, contains the keyword
    too. *)
Theorem add_keyword_changes_defaults
    (json_loads : string -> option json) (json_dumps : json -> string)
    (py_int : string -> option Z) (defaults : list string) (d : Pending.database)
    (raw : string) (s : Pending.settings) :
  Pending.setting_row Pending.KEYWORDS_KEY d = None ->
  Pending.get_command_settings json_loads py_int defaults d = Ok s ->
  PyStr.lower (PyStr.strip raw) <> EmptyString ->
  ~ In (PyStr.lower (PyStr.strip raw)) defaults ->
  let keyword := PyStr.lower (PyStr.strip raw) in
  let out := Keywords.add_keyword json_loads json_dumps py_int defaults d raw in
  snd out = (defaults ++ [keyword])%list /\
  stored Pending.KEYWORDS_KEY (snd (fst out))
  = Some (json_dumps (JArr (map JStr (defaults ++ [keyword])))) /\
  (forall e,
     Pending.resp_filter_keywords
       (Keywords.get_settings json_loads py_int (snd out) (Raise e))
     = (defaults ++ [keyword])%list) /\
  (json_loads (json_dumps (JArr (map JStr (defaults ++ [keyword]))))
   = Some (JArr (map JStr (defaults ++ [keyword]))) ->
   fst (fst out)
   = Ok {| Pending.resp_execution_mode := Pending.execution_mode s;
           Pending.resp_filter_keywords := (defaults ++ [keyword])%list;
           Pending.resp_timeout_seconds := Pending.settings_timeout_seconds s |}).
Proof.
  intros Hrow Hs Hne Hnot keyword out. subst keyword out.
  rewrite (add_keyword_new json_loads json_dumps py_int defaults d raw s defaults Hs
             (get_command_settings_no_keywords _ _ _ _ _ Hrow Hs) Hne Hnot).
  rewrite Hrow. cbn [fst snd]. split; [ reflexivity | ]. split; [ | split ].
  - rewrite stored_set, String.eqb_refl. reflexivity.
  - intros e. reflexivity.
  - intros Hloads. unfold Keywords.settings_response, bind.
    rewrite (get_command_settings_set_keywords json_loads py_int defaults _ d s _ _ _ Hs
               Hloads).
    unfold Pending.validate_settings. cbn [Pending.filter_keywords].
    rewrite strings_of_map. reflexivity.
Qed.

(** The theorem on an empty database and the built-in list. *)
Lemma add_keyword_changes_defaults_witness :
  snd (Keywords.add_keyword list_loads list_dumps int_loads Pending.DEFAULT_FILTER_KEYWORDS
         Pending.empty_database "  Curl ")
  = (Pending.DEFAULT_FILTER_KEYWORDS ++ ["curl"])%list.
Proof.
  refine (proj1 (add_keyword_changes_defaults list_loads list_dumps int_loads
                   Pending.DEFAULT_FILTER_KEYWORDS Pending.empty_database "  Curl "
                   {| Pending.execution_mode := "open";
                      Pending.filter_keywords :=
                        JArr (map JStr Pending.DEFAULT_FILTER_KEYWORDS);
                      Pending.settings_timeout_seconds := 30 |} _ _ _ _)).
  - reflexivity.
  - reflexivity.
  - discriminate.
  - cbn. intros H. repeat (destruct H as [ H | H ]; [ discriminate | ]). exact H.
Defined.

(** X15: with a stored keyword list, adding a new keyword and removing
    it again restores the list.  The keyword is stripped and lower-cased
    by both routes; adding it appends it to the stored list and answers
    with the longer list, adding it once more changes nothing, and
    removing it writes the list as it was.  The module-level default list
    is not touched. *)
Theorem add_then_remove_keyword
    (json_loads : string -> option json) (json_dumps : json -> string)
    (py_int : string -> option Z) (defaults : list string) (d : Pending.database)
    (raw : string) (s : Pending.settings) (l : list string) :
  Pending.setting_row Pending.KEYWORDS_KEY d <> None ->
  Pending.get_command_settings json_loads py_int defaults d = Ok s ->
  Pending.filter_keywords s = JArr (map JStr l) ->
  PyStr.lower (PyStr.strip raw) <> EmptyString ->
  ~ In (PyStr.lower (PyStr.strip raw)) l ->
  json_loads (json_dumps (JArr (map JStr (l ++ [PyStr.lower (PyStr.strip raw)]))))
  = Some (JArr (map JStr (l ++ [PyStr.lower (PyStr.strip raw)]))) ->
  let keyword := PyStr.lower (PyStr.strip raw) in
  let added := Keywords.add_keyword json_loads json_dumps py_int defaults d raw in
  let d1 := snd (fst added) in
  let removed := Keywords.remove_keyword json_loads json_dumps py_int defaults d1 raw in
  fst (fst added)
  = Ok {| Pending.resp_execution_mode := Pending.execution_mode s;
          Pending.resp_filter_keywords := (l ++ [keyword])%list;
          Pending.resp_timeout_seconds := Pending.settings_timeout_seconds s |} /\
  snd added = defaults /\
  stored Pending.KEYWORDS_KEY d1 = Some (json_dumps (JArr (map JStr (l ++ [keyword])))) /\
  Keywords.add_keyword json_loads json_dumps py_int defaults d1 raw
  = (fst (fst added), d1, defaults) /\
  stored Pending.KEYWORDS_KEY (snd (fst removed)) = Some (json_dumps (JArr (map JStr l))) /\
  snd removed = defaults.
Proof.
  intros Hrow Hs Hl Hne Hnot Hloads keyword added d1 removed.
  subst removed d1 added keyword.
  rewrite (add_keyword_new json_loads json_dumps py_int defaults d raw s l Hs Hl Hne Hnot).
  destruct (Pending.setting_row Pending.KEYWORDS_KEY d) as [ r | ] eqn:Hr;
    [ | contradiction ].
  cbn [fst snd].
  pose proof (get_command_settings_set_keywords json_loads py_int defaults defaults d s
                (json_dumps (JArr (map JStr (l ++ [PyStr.lower (PyStr.strip raw)]))))
                (Some "Keywords that trigger approval in filter mode") _ Hs Hloads) as Hs1.
  assert (In (PyStr.lower (PyStr.strip raw)) (l ++ [PyStr.lower (PyStr.strip raw)])) as Hin
    by (apply in_app_iff; right; left; reflexivity).
  split; [ | split; [ | split; [ | split; [ | split ] ] ] ].
  - unfold Keywords.settings_response, bind. rewrite Hs1.
    unfold Pending.validate_settings. cbn [Pending.filter_keywords].
    rewrite strings_of_map. reflexivity.
  - reflexivity.
  - rewrite stored_set, String.eqb_refl. reflexivity.
  - exact (add_keyword_present json_loads json_dumps py_int defaults _ raw _ _ Hs1
             eq_refl Hin).
  - rewrite (remove_keyword_present json_loads json_dumps py_int defaults _ raw _ _ Hs1
               eq_refl Hin).
    cbn [fst snd]. rewrite stored_set, String.eqb_refl, (remove_first_last _ _ Hnot).
    reflexivity.
  - rewrite (remove_keyword_present json_loads json_dumps py_int defaults _ raw _ _ Hs1
               eq_refl Hin).
    cbn [fst snd]. rewrite setting_row_set, String.eqb_refl. reflexivity.
Qed.

(** The theorem on a database that stores the list with the one keyword
    rm. *)
Lemma add_then_remove_keyword_witness :
  stored Pending.KEYWORDS_KEY
    (snd (fst (Keywords.remove_keyword list_loads list_dumps int_loads
                 Pending.DEFAULT_FILTER_KEYWORDS
                 (snd (fst (Keywords.add_keyword list_loads list_dumps int_loads
                              Pending.DEFAULT_FILTER_KEYWORDS (keywords_database ["rm"])
                              "  Curl ")))
                 "  Curl ")))
  = Some (list_dumps (JArr (map JStr ["rm"]))).
Proof.
  refine (proj1 (proj2 (proj2 (proj2 (proj2
            (add_then_remove_keyword list_loads list_dumps int_loads
               Pending.DEFAULT_FILTER_KEYWORDS (keywords_database ["rm"]) "  Curl "
               {| Pending.execution_mode := "open";
                  Pending.filter_keywords := JArr (map JStr ["rm"]);
                  Pending.settings_timeout_seconds := 30 |} ["rm"] _ _ _ _ _ _)))))).
  - discriminate.
  - reflexivity.
  - reflexivity.
  - discriminate.
  - cbn. intros [ H | [] ]. discriminate.
  - reflexivity.
Defined.

Lemma next_id_fresh (d : Pending.database) :
  Pending.wf d -> Pending.pending_row (Pending.next_id d) d = None.
Proof.
  unfold Pending.wf, Pending.pending_row. intros Hwf.
  destruct (find _ (Pending.pending_commands d)) as [ r | ] eqn:Hfind; [ | reflexivity ].
  apply find_some in Hfind. destruct Hfind as [Hin Hid]. apply Z.eqb_eq in Hid.
  rewrite Forall_forall in Hwf. destruct (Hwf r Hin) as [Hlt _]. lia.
Qed.

Lemma unique_id (rows : list Pending.PendingCommand) (x y : Pending.PendingCommand) :
  NoDup (map Pending.id rows) -> In x rows -> In y rows -> Pending.id x = Pending.id y ->
  x = y.
Proof.
  induction rows as [ | r rows IH ]; intros Hnd Hx Hy Hid; [ destruct Hx | ].
  cbn [map] in Hnd. inversion Hnd as [ | ? ? Hnotin Hnd' ]; subst.
  destruct Hx as [ <- | Hx ], Hy as [ <- | Hy ].
  - reflexivity.
  - exfalso. apply Hnotin. rewrite Hid. apply in_map. exact Hy.
  - exfalso. apply Hnotin. rewrite <- Hid. apply in_map. exact Hx.
  - exact (IH Hnd' Hx Hy Hid).
Qed.

Lemma sweep_row_again (now global : Z) (r r' : Pending.PendingCommand) (hit : bool) :
  Pending.sweep_row now global r = Ok (r', hit) ->
  Pending.sweep_row now global r' = Ok (r', false).
Proof.
  unfold Pending.sweep_row. destruct (Pending.is_pending r) eqn:Hp.
  - destruct (Pending.created_at r) as [ created | ] eqn:Hc.
    + destruct (Pending.aware created) eqn:Ha; [ discriminate | ].
      destruct (Pending.expired now created (Pending.cmd_timeout_of global r)) eqn:He;
        intros H; injection H as <- <-.
      * reflexivity.
      * rewrite Hp, Hc, Ha, He. reflexivity.
    + intros H. injection H as <- <-. rewrite Hp, Hc. reflexivity.
  - intros H. injection H as <- <-. rewrite Hp. reflexivity.
Qed.

Lemma sweep_rows_again (now global : Z) (rows : list Pending.PendingCommand) :
  forall rows' ids,
    Pending.sweep_rows now global rows = Ok (rows', ids) ->
    Pending.sweep_rows now global rows' = Ok (rows', []).
Proof.
  induction rows as [ | r rows IH ]; intros rows' ids E; cbn [Pending.sweep_rows] in E.
  - injection E as <- <-. reflexivity.
  - unfold bind in E.
    destruct (Pending.sweep_row now global r) as [ [r1 hit] | e ] eqn:Er; [ | discriminate ].
    destruct (Pending.sweep_rows now global rows) as [ [rows1 ids1] | e ] eqn:Es;
      [ | discriminate ].
    injection E as <- <-. cbn [Pending.sweep_rows]. unfold bind.
    rewrite (sweep_row_again _ _ _ _ _ Er), (IH _ _ eq_refl). reflexivity.
Qed.

Section PendingRoutes.

Variable json_loads : string -> option json.
Variable py_int : string -> option Z.
Variable defaults : list string.
Variable execute_and_log_command : Z -> string -> option string -> result exec_result.

Lemma check_ok (d d1 : Pending.database) (now : Z) (ids : list Z) :
  Pending.check_and_timeout_expired_commands json_loads py_int defaults d now = Ok (d1, ids) ->
  exists s,
    Pending.get_command_settings json_loads py_int defaults d = Ok s /\
    Pending.sweep_rows now (Pending.settings_timeout_seconds s) (Pending.pending_commands d)
    = Ok (Pending.pending_commands d1, ids) /\
    d1 = Pending.with_rows d
           (map (swept now (Pending.settings_timeout_seconds s)) (Pending.pending_commands d)) /\
    ids = map Pending.id (List.filter (due now (Pending.settings_timeout_seconds s))
                            (Pending.pending_commands d)).
Proof.
  unfold Pending.check_and_timeout_expired_commands, bind.
  destruct (Pending.get_command_settings json_loads py_int defaults d) as [ s | e ]; [ | discriminate ].
  destruct (Pending.sweep_rows now (Pending.settings_timeout_seconds s)
              (Pending.pending_commands d)) as [ [rows ids0] | e ] eqn:Es; [ | discriminate ].
  intros H. injection H as <- <-. exists s.
  destruct (sweep_rows_ok _ _ _ _ _ Es) as [-> ->].
  repeat split. exact Es.
Qed.

(** X16: the sweep times a command out once.  After a sweep that
    succeeded, a second sweep at the same instant changes nothing and
    reports no command; and a sweep at any later time reports none of the
    commands already timed out and leaves their rows as the first sweep
    wrote them, in a table whose ids are distinct. *)
Theorem sweep_times_out_once (d d1 d2 : Pending.database) (now now' : Z)
    (ids ids' : list Z) :
  NoDup (map Pending.id (Pending.pending_commands d)) ->
  Pending.check_and_timeout_expired_commands json_loads py_int defaults d now = Ok (d1, ids) ->
  Pending.check_and_timeout_expired_commands json_loads py_int defaults d1 now' = Ok (d2, ids') ->
  Pending.check_and_timeout_expired_commands json_loads py_int defaults d1 now = Ok (d1, []) /\
  (forall cid, In cid ids ->
     ~ In cid ids' /\ Pending.pending_row cid d2 = Pending.pending_row cid d1).
Proof.
  intros Hnd H1 H2.
  destruct (check_ok _ _ _ _ H1) as (s & Hs & Hrows & Hd1 & Hids).
  destruct (check_ok _ _ _ _ H2) as (s' & Hs' & _ & Hd2 & Hids').
  split.
  - unfold Pending.check_and_timeout_expired_commands, bind.
    assert (Pending.get_command_settings json_loads py_int defaults d1 = Ok s) as Hs1
      by (rewrite Hd1; exact Hs).
    rewrite Hs1, (sweep_rows_again _ _ _ _ _ Hrows).
    rewrite Hd1. reflexivity.
  - intros cid Hcid. rewrite Hids in Hcid. apply in_map_iff in Hcid.
    destruct Hcid as (r & Hrid & Hr). apply filter_In in Hr. destruct Hr as [Hin Hdue].
    assert (Pending.is_pending (swept now (Pending.settings_timeout_seconds s) r) = false)
      as Hresolved by (unfold swept; rewrite Hdue; reflexivity).
    assert (forall y, In y (Pending.pending_commands d1) -> Pending.id y = cid ->
              y = swept now (Pending.settings_timeout_seconds s) r) as Hunique.
    { intros y Hy Hid. rewrite Hd1 in Hy. cbn [Pending.with_rows Pending.pending_commands] in Hy.
      apply in_map_iff in Hy. destruct Hy as (x & <- & Hx).
      rewrite swept_id in Hid.
      rewrite (unique_id _ x r Hnd Hx Hin) by congruence. reflexivity. }
    split.
    + intros Hcid'. rewrite Hids' in Hcid'. apply in_map_iff in Hcid'.
      destruct Hcid' as (y & Hyid & Hy). apply filter_In in Hy. destruct Hy as [Hy Hdue'].
      rewrite (Hunique y Hy Hyid) in Hdue'.
      apply due_pending in Hdue'. congruence.
    + rewrite Hd2. unfold Pending.pending_row.
      cbn [Pending.with_rows Pending.pending_commands].
      rewrite find_map_id by (intros x _; apply swept_id).
      destruct (find _ (Pending.pending_commands d1)) as [ y | ] eqn:Hfind; [ | reflexivity ].
      apply find_some in Hfind. destruct Hfind as [Hy Hyid]. apply Z.eqb_eq in Hyid.
      cbn [option_map]. rewrite (Hunique y Hy Hyid).
      rewrite (swept_resolved _ _ _ Hresolved). reflexivity.
Qed.

(** X17: what [create_pending_command] adds.  For an existing assessment
    and readable settings, in a table whose ids are below the sequence,
    the route stores one new pending row under the next id, created now,
    and announces it once; the command service is not called and the
    number of pending commands grows by one.  The row carries the global
    timeout of the moment of its creation: whether a later sweep times
    it out depends on that value only, whatever the global timeout is by
    then. *)
Theorem create_snapshots_timeout (w : Pending.world) (now : Z) (data : Pending.command_data)
    (a : assessment) (s : Pending.settings) :
  Pending.wf (Pending.db w) ->
  find_assessment (Pending.data_assessment_id data) (Pending.assessments (Pending.db w))
  = Some a ->
  Pending.get_command_settings json_loads py_int defaults (Pending.db w) = Ok s ->
  let out := Pending.create_pending_command json_loads py_int defaults w now data in
  let w' := snd out in
  exists row,
    Pending.pending_row (Pending.next_id (Pending.db w)) (Pending.db w') = Some row /\
    fst out = Ok (row, Some (assessment_name a)) /\
    Pending.command row = Pending.data_command data /\
    Pending.is_pending row = true /\
    Pending.created_at row = Some (Pending.utc now) /\
    Pending.timeout_seconds row = Some (Pending.settings_timeout_seconds s) /\
    (forall now' global,
       due now' global row
       = (Pending.settings_timeout_seconds s * 1000000 <? now' - now)%Z) /\
    Pending.count_pending (Pending.db w') = S (Pending.count_pending (Pending.db w)) /\
    Pending.calls w' = Pending.calls w /\
    Pending.broadcasts w'
    = (Pending.broadcasts w ++
       [{| Pending.ev_type := "command_pending_approval";
           Pending.ev_command_id := Pending.next_id (Pending.db w);
           Pending.ev_scope := None |}])%list /\
    Pending.next_id (Pending.db w') = (Pending.next_id (Pending.db w) + 1)%Z.
Proof.
  intros Hwf Ha Hs out w'. subst w' out. unfold Pending.create_pending_command.
  rewrite Ha, Hs. cbn [fst snd Pending.db Pending.calls Pending.broadcasts Pending.next_id].
  eexists. split; [ | split; [ reflexivity | ] ].
  - unfold Pending.pending_row. cbn [Pending.pending_commands].
    rewrite find_app_last. fold (Pending.pending_row (Pending.next_id (Pending.db w))
                                   (Pending.db w)).
    rewrite (next_id_fresh _ Hwf). cbn [Pending.id]. rewrite Z.eqb_refl. reflexivity.
  - repeat split.
    unfold Pending.count_pending. cbn [Pending.pending_commands].
    rewrite filter_app, length_app. cbn. lia.
Qed.

(** X18: [approve_command] executes the stored command of a pending row
    without looking at the clock.  Whenever the row is still pending in
    the table, also after its deadline when no read has swept it, the
    command service is called once with the assessment, the command and
    the phase of the row; when it answers, the row becomes executed with
    the result, resolved now by the approver, and two messages are
    broadcast; when it raises, the call has been made but the row stays
    pending and nothing is broadcast.  No other row changes. *)
Theorem approve_executes_stored_command (w : Pending.world) (now : Z) (command_id : Z)
    (approved_by : string) (r : Pending.PendingCommand) :
  Pending.pending_row command_id (Pending.db w) = Some r ->
  Pending.is_pending r = true ->
  let out := Pending.approve_command execute_and_log_command w now command_id approved_by in
  let w' := snd out in
  Pending.calls w'
  = (Pending.calls w ++ [{| call_assessment_id := Pending.assessment_id r;
                            call_command := Pending.command r;
                            call_phase := Pending.phase r |}])%list /\
  (forall cid, cid <> command_id ->
     Pending.pending_row cid (Pending.db w') = Pending.pending_row cid (Pending.db w)) /\
  (forall res,
     execute_and_log_command (Pending.assessment_id r) (Pending.command r) (Pending.phase r)
     = Ok res ->
     Pending.pending_row command_id (Pending.db w')
     = Some (Pending.mark_executed now approved_by res r) /\
     Pending.broadcasts w'
     = (Pending.broadcasts w ++ Pending.resolution_events "command_approved" command_id r)%list) /\
  (forall e,
     execute_and_log_command (Pending.assessment_id r) (Pending.command r) (Pending.phase r)
     = Raise e ->
     fst out = Raise e /\ Pending.db w' = Pending.db w /\
     Pending.broadcasts w' = Pending.broadcasts w).
Proof.
  intros Hrow Hp out w'. subst w' out. unfold Pending.approve_command.
  rewrite Hrow, Hp. cbn [negb].
  destruct (pending_row_In _ _ _ Hrow) as [_ Hid].
  destruct (execute_and_log_command (Pending.assessment_id r) (Pending.command r)
              (Pending.phase r)) as [ res | e ];
    cbn [fst snd Pending.db Pending.calls Pending.broadcasts];
    (split; [ reflexivity | ]).
  - split; [ | split ].
    + intros cid Hne. unfold Pending.pending_row, Pending.update_row.
      cbn [Pending.with_rows Pending.pending_commands].
      rewrite find_map_id
        by (intros x _; destruct (Pending.id x =? command_id)%Z; reflexivity).
      destruct (find _ (Pending.pending_commands (Pending.db w))) as [ x | ] eqn:Hfind;
        [ | reflexivity ].
      apply find_some in Hfind. destruct Hfind as [_ Hx]. apply Z.eqb_eq in Hx.
      cbn [option_map]. destruct (Z.eqb_spec (Pending.id x) command_id);
        [ congruence | reflexivity ].
    + intros res' E. injection E as <-. split; [ | reflexivity ].
      unfold Pending.pending_row, Pending.update_row.
      cbn [Pending.with_rows Pending.pending_commands].
      rewrite find_map_id
        by (intros x _; destruct (Pending.id x =? command_id)%Z; reflexivity).
      unfold Pending.pending_row in Hrow. rewrite Hrow. cbn [option_map].
      rewrite Hid, Z.eqb_refl. reflexivity.
    + intros e E. discriminate.
  - split; [ intros cid _; reflexivity | ]. split.
    + intros res E. discriminate.
    + intros e' E. injection E as <-. repeat split.
Qed.

(** X19: [delete_pending_command] removes the row of the given id,
    whatever its status, and nothing else: afterwards the id is not
    found, every other row is found as before, the settings are kept,
    the command service is not called and nothing is broadcast.  An id
    that is not in the table gives the error 404 and changes nothing. *)
Theorem delete_removes_only_that_row (w : Pending.world) (command_id : Z) :
  let out := Pending.delete_pending_command w command_id in
  let w' := snd out in
  (Pending.pending_row command_id (Pending.db w) = None ->
     out = (Raise (Pending.not_found command_id), w)) /\
  (Pending.pending_row command_id (Pending.db w) <> None -> fst out = Ok tt) /\
  Pending.pending_row command_id (Pending.db w') = None /\
  (forall cid, cid <> command_id ->
     Pending.pending_row cid (Pending.db w') = Pending.pending_row cid (Pending.db w)) /\
  Pending.platform_settings (Pending.db w') = Pending.platform_settings (Pending.db w) /\
  Pending.calls w' = Pending.calls w /\
  Pending.broadcasts w' = Pending.broadcasts w.
Proof.
  intros out w'. subst w' out. unfold Pending.delete_pending_command.
  destruct (Pending.pending_row command_id (Pending.db w)) as [ r | ] eqn:Hrow;
    cbn [fst snd Pending.db Pending.calls Pending.broadcasts].
  - split; [ discriminate | ]. split; [ reflexivity | ]. split; [ | split ].
    + unfold Pending.pending_row. cbn [Pending.with_rows Pending.pending_commands].
      apply find_filter_same.
    + intros cid Hne. unfold Pending.pending_row.
      cbn [Pending.with_rows Pending.pending_commands].
      apply find_filter_other. exact Hne.
    + repeat split.
  - split; [ reflexivity | ]. split; [ intros H; contradiction | ].
    split; [ exact Hrow | ]. repeat split.
Qed.

End PendingRoutes.

(** The sweep at second 5 of the table with the one-second row, then a
    sweep at second 9. *)
Lemma sweep_times_out_once_witness :
  Pending.check_and_timeout_expired_commands flat_loads int_loads
      Pending.DEFAULT_FILTER_KEYWORDS
    (Pending.with_rows (Pending.db one_second_world)
       [swept 5000000 30 one_second_row]) 5000000
  = Ok (Pending.with_rows (Pending.db one_second_world) [swept 5000000 30 one_second_row],
        []).
Proof.
  refine (proj1 (sweep_times_out_once flat_loads int_loads Pending.DEFAULT_FILTER_KEYWORDS (Pending.db one_second_world)
                   _ _ 5000000 9000000 [1%Z] [] _ _ _)).
  - cbn. constructor; [ intros [] | constructor ].
  - reflexivity.
  - reflexivity.
Defined.

(** The creation of a command in the world of the one-second row. *)
Lemma create_snapshots_timeout_witness :
  exists row,
    Pending.pending_row 2 (Pending.db (snd (Pending.create_pending_command flat_loads
                                              int_loads
      Pending.DEFAULT_FILTER_KEYWORDS one_second_world 7000000
                                              {| Pending.data_assessment_id := 1;
                                                 Pending.data_command := "sudo id";
                                                 Pending.data_phase := None;
                                                 Pending.data_matched_keywords := ["sudo"] |})))
    = Some row /\
    Pending.timeout_seconds row = Some 30%Z.
Proof.
  assert (Pending.wf (Pending.db one_second_world)) as Hwf.
  { unfold Pending.wf. constructor; [ | constructor ].
    unfold Pending.row_ok. cbn.
    repeat split; intros; try lia; try reflexivity; discriminate. }
  destruct (create_snapshots_timeout flat_loads int_loads Pending.DEFAULT_FILTER_KEYWORDS one_second_world 7000000
              {| Pending.data_assessment_id := 1;
                 Pending.data_command := "sudo id";
                 Pending.data_phase := None;
                 Pending.data_matched_keywords := ["sudo"] |}
              assessment_one
              {| Pending.execution_mode := "open";
                 Pending.filter_keywords := JArr (map JStr Pending.DEFAULT_FILTER_KEYWORDS);
                 Pending.settings_timeout_seconds := 30 |}
              Hwf eq_refl eq_refl) as (row & Hrow & _ & _ & _ & _ & Ht & _).
  exists row. split; [ exact Hrow | exact Ht ].
Defined.

(** The approval of the one-second row at second 5, after its deadline. *)
Lemma approve_executes_stored_command_witness :
  due 5000000 30 one_second_row = true /\
  Pending.pending_row 1
    (Pending.db (snd (Pending.approve_command echo_service one_second_world 5000000 1 "admin")))
  = Some (Pending.mark_executed 5000000 "admin"
            {| exec_stdout := "rm -rf /tmp/x"; exec_stderr := ""; exec_returncode := 0;
               exec_success := true |} one_second_row).
Proof.
  split; [ reflexivity | ].
  refine (proj1 (proj1 (proj2 (proj2
            (approve_executes_stored_command echo_service one_second_world 5000000 1 "admin"
               one_second_row _ _))) _ _)); reflexivity.
Defined.

Lemma insert_desc_In_iff (x r : Pending.PendingCommand) (l : list Pending.PendingCommand) :
  In x (Pending.insert_desc r l) <-> x = r \/ In x l.
Proof.
  induction l as [ | y l IH ]; cbn [Pending.insert_desc In].
  - split; [ intros [ <- | [] ]; left; reflexivity | intros [ -> | [] ]; left; reflexivity ].
  - destruct (Pending.not_before y r); cbn [In]; [ rewrite IH | ];
      intuition (subst; auto).
Qed.

Lemma order_desc_In_iff (x : Pending.PendingCommand) (l : list Pending.PendingCommand) :
  In x (Pending.order_desc l) <-> In x l.
Proof.
  induction l as [ | y l IH ]; cbn [Pending.order_desc In]; [ tauto | ].
  rewrite insert_desc_In_iff, IH. intuition (subst; auto).
Qed.

Lemma responses_ok (d : Pending.database) (cmds : list Pending.PendingCommand) :
  forall rs, Pending.responses d cmds = Ok rs -> rs = map (Pending.with_name d) cmds.
Proof.
  induction cmds as [ | c cmds IH ]; intros rs E; cbn [Pending.responses] in E.
  - injection E as <-. reflexivity.
  - unfold Pending.PendingCommandResponse, bind in E. cbn [Pending.with_name fst] in E.
    destruct (Pending.created_at c); [ | discriminate ].
    destruct (Pending.responses d cmds) as [ rs' | e ]; [ | discriminate ].
    injection E as <-. cbn [map]. rewrite (IH rs' eq_refl). reflexivity.
Qed.

(** X20: what [list_pending_commands] lists.  When the route answers,
    the commands listed are exactly the rows of the table after the sweep
    whose assessment exists and that pass the filters given, each with
    the name of its assessment; an empty status filter and the assessment
    id 0 filter nothing.  [total] is the number of commands listed, and
    [pending_count] counts the pending rows of the whole table, whatever
    the filters. *)
Theorem list_pending_commands_filters
    (json_loads : string -> option json) (py_int : string -> option Z)
    (defaults : list string)
    (w w1 : Pending.world) (now : Z) (status_filter : option string)
    (assessment_filter : option Z) (resp : Pending.PendingCommandsListResponse) :
  Pending.list_pending_commands json_loads py_int defaults w now status_filter assessment_filter
  = (Ok resp, w1) ->
  Pending.total resp = List.length (Pending.commands resp) /\
  Pending.pending_count resp = Pending.count_pending (Pending.db w1) /\
  (forall cmd name,
     In (cmd, name) (Pending.commands resp) <->
     In cmd (Pending.pending_commands (Pending.db w1)) /\
     (exists a, find_assessment (Pending.assessment_id cmd)
                  (Pending.assessments (Pending.db w1)) = Some a /\
                name = Some (assessment_name a)) /\
     (forall f, status_filter = Some f -> f <> EmptyString -> Pending.status cmd = f) /\
     (forall a, assessment_filter = Some a -> a <> 0%Z -> Pending.assessment_id cmd = a)).
Proof.
  unfold Pending.list_pending_commands. intros H.
  destruct (Pending.check_and_timeout_expired_commands_async json_loads py_int defaults w now)
    as [ [w1' n] | e ]; [ | discriminate ].
  match type of H with
  | context [Pending.responses _ (Pending.order_desc ?l)] => set (selected := l) in *
  end.
  destruct (Pending.responses (Pending.db w1') (Pending.order_desc selected))
    as [ result | e ] eqn:Hresp; [ | discriminate ].
  injection H as <- <-. cbn [Pending.total Pending.commands Pending.pending_count].
  split; [ reflexivity | ]. split; [ reflexivity | ].
  intros cmd name. rewrite (responses_ok _ _ _ Hresp), in_map_iff.
  assert (forall x, In x selected <->
            In x (Pending.pending_commands (Pending.db w1')) /\
            (exists a, find_assessment (Pending.assessment_id x)
                         (Pending.assessments (Pending.db w1')) = Some a) /\
            (forall f, status_filter = Some f -> f <> EmptyString -> Pending.status x = f) /\
            (forall a, assessment_filter = Some a -> a <> 0%Z ->
                       Pending.assessment_id x = a)) as Hsel.
  { intros x. subst selected.
    destruct assessment_filter as [ aid | ], status_filter as [ sf | ];
      try destruct (Z.eqb_spec aid 0) as [ -> | Haid ];
      try destruct (String.eqb_spec sf "") as [ -> | Hsf ];
      rewrite ?filter_In, ?Z.eqb_eq, ?String.eqb_eq;
      (split;
       [ intros Hx; repeat match goal with H : _ /\ _ |- _ => destruct H end;
         (split; [ assumption | ]);
         (split; [ destruct (find_assessment _ _) as [ a | ];
                   [ exists a; reflexivity | discriminate ] | ]);
         split; intros ? E; try discriminate; injection E as <-; intros;
           try assumption; try contradiction; try congruence
       | intros (Hin & [a Ha] & Hs & Hf); rewrite Ha;
         repeat split; try assumption; try (apply Hs; [ reflexivity | assumption ]);
           try (apply Hf; [ reflexivity | assumption ]) ]). }
  split.
  - intros (x & Hx & Hin). unfold Pending.with_name in Hx. injection Hx as -> <-.
    apply order_desc_In_iff, Hsel in Hin.
    destruct Hin as (Hin & [a Ha] & Hs & Hf).
    split; [ exact Hin | ]. split; [ | split; assumption ].
    exists a. rewrite Ha. split; reflexivity.
  - intros (Hin & [a [Ha ->]] & Hs & Hf). exists cmd. split.
    + unfold Pending.with_name. rewrite Ha. reflexivity.
    + apply order_desc_In_iff, Hsel. split; [ exact Hin | ].
      split; [ exists a; exact Ha | split; assumption ].
Qed.

(** The list of the pending commands of assessment 1 in the world of the
    one-second row. *)
Lemma list_pending_commands_filters_witness :
  exists resp w1,
    Pending.list_pending_commands flat_loads int_loads
      Pending.DEFAULT_FILTER_KEYWORDS one_second_world 0
      (Some "pending") (Some 1%Z) = (Ok resp, w1) /\
    Pending.total resp = List.length (Pending.commands resp).
Proof.
  destruct (Pending.list_pending_commands flat_loads int_loads
      Pending.DEFAULT_FILTER_KEYWORDS one_second_world 0
              (Some "pending") (Some 1%Z)) as [ [ resp | e ] w1 ] eqn:E.
  - exists resp, w1. split; [ reflexivity | ].
    exact (proj1 (list_pending_commands_filters flat_loads int_loads Pending.DEFAULT_FILTER_KEYWORDS one_second_world w1 0
                    (Some "pending") (Some 1%Z) resp E)).
  - vm_compute in E. discriminate.
Defined.

Lemma findall_no_braces (s : string) :
  PyStr.contains "{{" s = false -> forall skip, Commands.findall_from skip s = [].
Proof.
  induction s as [ | c s IH ]; intros H skip; [ reflexivity | ].
  cbn [PyStr.contains] in H. apply orb_false_iff in H. destruct H as [Hp Hc].
  cbn [Commands.findall_from]. destruct skip as [ | k ]; [ | exact (IH Hc k) ].
  assert (Commands.match_at (String c s) = None) as ->.
  { unfold Commands.match_at.
    destruct (Ascii.eqb_spec c "{") as [ -> | Hne ].
    - destruct s as [ | c' s' ]; [ reflexivity | ].
      destruct (Ascii.eqb_spec c' "{") as [ -> | Hne' ].
      + cbn in Hp. destruct s'; discriminate.
      + destruct c' as [[|] [|] [|] [|] [|] [|] [|] [|]]; try reflexivity.
        exfalso. apply Hne'. reflexivity.
    - destruct c as [[|] [|] [|] [|] [|] [|] [|] [|]]; try reflexivity.
      exfalso. apply Hne. reflexivity. }
  exact (IH Hc O).
Qed.

(** X21: a command without an opening pair of braces is executed as it
    is.  [execute_command_with_credentials] then behaves as
    [execute_command]: the same answer and the same single call of the
    command service with the unchanged command, whatever credentials the
    assessment has, and the error 404 without any call when the
    assessment does not exist. *)
Theorem execute_without_placeholders
    (py_str : json -> string)
    (execute_and_log_command : Z -> string -> option string -> result exec_result)
    (assessments : list assessment) (credentials : list Commands.Credential)
    (assessment_id : Z) (command : string) (phase : option string) :
  PyStr.contains "{{" command = false ->
  Commands.execute_command_with_credentials py_str execute_and_log_command assessments
    credentials assessment_id command phase
  = CommandRoutes.execute_command execute_and_log_command assessments assessment_id
      command phase.
Proof.
  intros H. unfold Commands.execute_command_with_credentials, CommandRoutes.execute_command,
    Commands.substitute_credentials, Commands.findall.
  rewrite (findall_no_braces command H O). reflexivity.
Qed.

(** The theorem on the command id, for an assessment with a credential. *)
Lemma execute_without_placeholders_witness :
  Commands.execute_command_with_credentials (fun _ => "") echo_service [assessment_one]
    [basic_up] 1 "id" None
  = CommandRoutes.execute_command echo_service [assessment_one] 1 "id" None.
Proof.
  apply (execute_without_placeholders (fun _ => "") echo_service [assessment_one]
           [basic_up] 1 "id" None).
  reflexivity.
Defined.

Lemma creds_map_fold (name : string) (credentials : list Commands.Credential) :
  forall d,
    Commands.dict_get name
      (fold_left (fun d0 c => Commands.dict_set (cred_name c) c d0) credentials d)
    = match find (fun c => String.eqb (cred_name c) name) (rev credentials) with
      | Some c => Some c
      | None => Commands.dict_get name d
      end.
Proof.
  induction credentials as [ | c credentials IH ] using rev_ind; intros d.
  - reflexivity.
  - rewrite fold_left_app, rev_app_distr. cbn [fold_left rev app find].
    rewrite dict_get_set. destruct (String.eqb (cred_name c) name); [ reflexivity | ].
    apply IH.
Qed.

(** X22: among the credentials of an assessment that share a placeholder
    name, the last one is used.  The dictionary built from the
    credentials maps a name to the last credential of the list whose
    placeholder, without its braces, is that name, and to nothing when
    there is none. *)
Theorem later_credential_wins (credentials : list Commands.Credential) (name : string) :
  Commands.dict_get name (Commands.creds_map credentials)
  = find (fun c => String.eqb (cred_name c) name) (rev credentials).
Proof.
  unfold Commands.creds_map. fold cred_name.
  change (fun d cred => Commands.dict_set (PyStr.strip_by PyStr.is_brace
                                             (Commands.placeholder cred)) cred d)
    with (fun d cred => Commands.dict_set (cred_name cred) cred d).
  rewrite creds_map_fold. destruct (find _ (rev credentials)); reflexivity.
Qed.

Lemma sockets_get_set (aid aid' : Z) (v : list Z) (d : list (Z * list Z)) :
  Sockets.get aid' (Sockets.set aid v d)
  = if (aid =? aid')%Z then Some v else Sockets.get aid' d.
Proof.
  induction d as [ | [k x] d IH ]; cbn [Sockets.set Sockets.get].
  - destruct (aid =? aid')%Z; reflexivity.
  - destruct (Z.eqb_spec k aid) as [ -> | Hk ]; cbn [Sockets.get].
    + destruct (aid =? aid')%Z; reflexivity.
    + rewrite IH. destruct (Z.eqb_spec k aid') as [ -> | Hk' ]; [ | reflexivity ].
      destruct (Z.eqb_spec aid aid'); [ congruence | reflexivity ].
Qed.

Lemma sockets_get_map (f : list Z -> list Z) (aid : Z) (d : list (Z * list Z)) :
  Sockets.get aid (map (fun kv => (fst kv, f (snd kv))) d)
  = option_map f (Sockets.get aid d).
Proof.
  induction d as [ | [k x] d IH ]; [ reflexivity | ].
  cbn [map Sockets.get fst snd]. destruct (k =? aid)%Z; [ reflexivity | exact IH ].
Qed.

Lemma subscribers_disconnect (m : Sockets.ConnectionManager) (ws aid : Z) :
  Sockets.subscribers (Sockets.disconnect m ws) aid
  = List.filter (fun x => negb (x =? ws)%Z) (Sockets.subscribers m aid).
Proof.
  unfold Sockets.subscribers, Sockets.disconnect. cbn [Sockets.assessment_connections].
  rewrite (sockets_get_map (List.filter (fun x => negb (x =? ws)%Z))).
  destruct (Sockets.get aid (Sockets.assessment_connections m)); reflexivity.
Qed.

Lemma subscribers_connect (m : Sockets.ConnectionManager) (ws a aid : Z) :
  Sockets.subscribers (Sockets.connect m ws (Some a)) aid
  = if (a =? aid)%Z then Sockets.add ws (Sockets.subscribers m a)
    else Sockets.subscribers m aid.
Proof.
  unfold Sockets.subscribers at 1. unfold Sockets.connect.
  cbn [Sockets.assessment_connections]. rewrite sockets_get_set.
  destruct (a =? aid)%Z; reflexivity.
Qed.

Lemma member_In (ws : Z) (s : list Z) : Sockets.member ws s = true <-> In ws s.
Proof.
  unfold Sockets.member. rewrite existsb_exists. split.
  - intros (x & Hx & E). apply Z.eqb_eq in E. subst x. exact Hx.
  - intros H. exists ws. split; [ exact H | apply Z.eqb_refl ].
Qed.

Lemma remove_first_In (ws x : Z) (l : list Z) :
  (In x (Sockets.remove_first ws l) -> In x l) /\
  (In x l -> x <> ws -> In x (Sockets.remove_first ws l)).
Proof.
  induction l as [ | y l [IH1 IH2] ]; cbn [Sockets.remove_first In]; [ tauto | ].
  destruct (Z.eqb_spec y ws) as [ -> | Hy ]; cbn [In].
  - split; [ intros H; right; exact H | ]. intros [ <- | H ] Hne; [ contradiction | exact H ].
  - split.
    + intros [ H | H ]; [ left; exact H | right; exact (IH1 H) ].
    + intros [ H | H ] Hne; [ left; exact H | right; exact (IH2 H Hne) ].
Qed.

Lemma sockets_ok_disconnect (m : Sockets.ConnectionManager) (ws : Z) :
  sockets_ok m -> sockets_ok (Sockets.disconnect m ws).
Proof.
  intros Hok aid. destruct (Hok aid) as [Hnd Hincl]. rewrite subscribers_disconnect. split.
  - apply NoDup_filter. exact Hnd.
  - intros x Hx. apply filter_In in Hx. destruct Hx as [Hx Hne].
    apply negb_true_iff, Z.eqb_neq in Hne.
    cbn [Sockets.disconnect Sockets.active_connections].
    apply remove_first_In; [ exact (Hincl x Hx) | exact Hne ].
Qed.

Lemma sockets_ok_connect (m : Sockets.ConnectionManager) (ws : Z) (assessment_id : option Z) :
  sockets_ok m -> sockets_ok (Sockets.connect m ws assessment_id).
Proof.
  intros Hok aid. destruct assessment_id as [ a | ].
  - rewrite subscribers_connect.
    cbn [Sockets.connect Sockets.active_connections].
    destruct (Z.eqb_spec a aid) as [ -> | Hne ].
    + destruct (Hok aid) as [Hnd Hincl]. unfold Sockets.add.
      destruct (Sockets.member ws (Sockets.subscribers m aid)) eqn:Hmem.
      * split; [ exact Hnd | ]. intros x Hx. apply in_app_iff. left. exact (Hincl x Hx).
      * split.
        -- apply NoDup_app; repeat split.
           ++ exact Hnd.
           ++ constructor; [ intros [] | constructor ].
           ++ intros x Hx [ <- | [] ]. apply member_In in Hx. congruence.
        -- intros x Hx. apply in_app_iff in Hx. apply in_app_iff.
           destruct Hx as [ Hx | Hx ]; [ left; exact (Hincl x Hx) | right; exact Hx ].
    + destruct (Hok aid) as [Hnd Hincl]. split; [ exact Hnd | ].
      intros x Hx. apply in_app_iff. left. exact (Hincl x Hx).
  - destruct (Hok aid) as [Hnd Hincl]. split; [ exact Hnd | ].
    intros x Hx. cbn [Sockets.connect Sockets.active_connections].
    apply in_app_iff. left. exact (Hincl x Hx).
Qed.

Lemma sockets_ok_fold_disconnect (l : list Z) :
  forall m, sockets_ok m -> sockets_ok (fold_left Sockets.disconnect l m).
Proof.
  induction l as [ | ws l IH ]; intros m Hok; [ exact Hok | ].
  cbn [fold_left]. apply IH, sockets_ok_disconnect, Hok.
Qed.

Lemma sockets_ok_apply (m : Sockets.ConnectionManager) (op : Sockets.operation) :
  sockets_ok m -> sockets_ok (Sockets.apply m op).
Proof.
  intros Hok. destruct op as [ ws aid | ws | send_ok aid | send_ok ws ];
    cbn [Sockets.apply].
  - apply sockets_ok_connect, Hok.
  - apply sockets_ok_disconnect, Hok.
  - unfold Sockets.broadcast. cbn [snd]. apply sockets_ok_fold_disconnect, Hok.
  - unfold Sockets.send_personal. destruct (send_ok ws); cbn [snd];
      [ exact Hok | apply sockets_ok_disconnect, Hok ].
Qed.

(** X23: every subscriber is an active connection.  Whatever sequence
    of connects, disconnects, broadcasts and personal sends the manager
    goes through from its construction, with sends failing or not, each
    set of subscribers of an assessment holds a connection at most once
    and only connections that are in the list of active connections. *)
Theorem subscribers_are_active (ops : list Sockets.operation) (aid ws : Z) :
  let m := fold_left Sockets.apply ops Sockets.init in
  NoDup (Sockets.subscribers m aid) /\
  (In ws (Sockets.subscribers m aid) -> In ws (Sockets.active_connections m)).
Proof.
  intros m. subst m.
  assert (forall m0, sockets_ok m0 -> sockets_ok (fold_left Sockets.apply ops m0)) as Hrun.
  { induction ops as [ | op ops IH ]; intros m0 Hok; [ exact Hok | ].
    cbn [fold_left]. apply IH, sockets_ok_apply, Hok. }
  assert (sockets_ok Sockets.init) as Hinit.
  { intros a. unfold Sockets.subscribers, Sockets.init. cbn.
    split; [ constructor | intros x [] ]. }
  destruct (Hrun _ Hinit aid) as [Hnd Hincl]. split; [ exact Hnd | apply Hincl ].
Qed.

Lemma fold_disconnect_subscribers (l : list Z) (aid x : Z) :
  forall m,
    In x (Sockets.subscribers (fold_left Sockets.disconnect l m) aid) <->
    In x (Sockets.subscribers m aid) /\ ~ In x l.
Proof.
  induction l as [ | ws l IH ]; intros m; cbn [fold_left In]; [ tauto | ].
  rewrite IH, subscribers_disconnect, filter_In, negb_true_iff, Z.eqb_neq.
  intuition congruence.
Qed.

Lemma fold_disconnect_active (l : list Z) (x : Z) :
  forall m,
    (In x (Sockets.active_connections (fold_left Sockets.disconnect l m)) ->
     In x (Sockets.active_connections m)) /\
    (In x (Sockets.active_connections m) -> ~ In x l ->
     In x (Sockets.active_connections (fold_left Sockets.disconnect l m))).
Proof.
  induction l as [ | ws l IH ]; intros m; cbn [fold_left In]; [ tauto | ].
  destruct (IH (Sockets.disconnect m ws)) as [IH1 IH2].
  cbn [Sockets.disconnect Sockets.active_connections] in IH1, IH2.
  destruct (remove_first_In ws x (Sockets.active_connections m)) as [R1 R2].
  split.
  - intros H. exact (R1 (IH1 H)).
  - intros H Hnot. apply IH2.
    + apply R2; [ exact H | ]. intros E. apply Hnot. left. symmetry. exact E.
    + intros Hl. apply Hnot. right. exact Hl.
Qed.

(** X24: a broadcast reaches the targets and drops those that fail.  The
    message is sent to the subscribers of the assessment, or to all
    active connections when no assessment is given; the connections it
    was delivered to are the targets whose send succeeds.  A target whose
    send fails is afterwards a subscriber of no assessment; every other
    subscription is kept, every other active connection stays active, and
    no connection is added. *)
Theorem broadcast_drops_failed_targets (send_ok : Z -> bool)
    (m : Sockets.ConnectionManager) (assessment_id : option Z) (ws aid : Z) :
  let sent := fst (Sockets.broadcast send_ok m assessment_id) in
  let m' := snd (Sockets.broadcast send_ok m assessment_id) in
  let failed := In ws (targets m assessment_id) /\ send_ok ws = false in
  (In ws sent <-> In ws (targets m assessment_id) /\ send_ok ws = true) /\
  (In ws (Sockets.subscribers m' aid) <-> In ws (Sockets.subscribers m aid) /\ ~ failed) /\
  (In ws (Sockets.active_connections m') -> In ws (Sockets.active_connections m)) /\
  (In ws (Sockets.active_connections m) -> ~ failed ->
   In ws (Sockets.active_connections m')).
Proof.
  intros sent m' failed. subst sent m' failed. unfold Sockets.broadcast. cbn [fst snd].
  fold (targets m assessment_id).
  assert (In ws (List.filter (fun x => negb (send_ok x)) (targets m assessment_id)) <->
          In ws (targets m assessment_id) /\ send_ok ws = false) as Hfailed
    by (rewrite filter_In, negb_true_iff; tauto).
  split; [ apply filter_In | ]. split; [ | split ].
  - rewrite fold_disconnect_subscribers, Hfailed. tauto.
  - apply fold_disconnect_active.
  - intros H Hnot. apply fold_disconnect_active; [ exact H | ].
    rewrite Hfailed. exact Hnot.
Qed.

Lemma classify_error_success (returncode : Z) (stderr : string) :
  Runner._classify_error returncode stderr = "success" -> returncode = 0%Z.
Proof.
  unfold Runner._classify_error.
  repeat match goal with
         | |- context [if ?b then _ else _] => destruct b eqn:?; try discriminate
         end.
  intros _.
  match goal with
  | H : negb (returncode =? 0)%Z = false |- _ =>
      apply negb_false_iff, Z.eqb_eq in H; exact H
  | H : (returncode =? 0)%Z = true |- _ => apply Z.eqb_eq in H; exact H
  end.
Qed.

(** X25: the result of [_run_command] is consistent.  Whatever the
    operating system does, the call returns a result in which [success]
    holds exactly when the return code is 0, where an error type success
    implies [success], and whose [command] is the argument list joined by
    spaces; the first thing done is the spawn of that argument list, and
    the child is killed only when it has overrun the timeout. *)
Theorem run_command_result_consistent (str_seconds : Z -> string)
    (os : list string -> Runner.os_behaviour) (argv : list string) (timeout : Z) :
  let out := Runner._run_command str_seconds os argv timeout in
  let res := fst (fst out) in
  let acts := snd (fst out) in
  Runner.success res = (Runner.returncode res =? 0)%Z /\
  (Runner.error_type res = "success" -> Runner.success res = true) /\
  Runner.command res = String.concat " " argv /\
  hd_error acts = Some (Runner.Spawn argv) /\
  (In Runner.Kill acts <->
   exists duration rc out err gone,
     os argv = Runner.Runs duration rc out err gone /\
     Runner.overruns duration timeout = true).
Proof.
  intros out res acts. subst acts res out. unfold Runner._run_command.
  destruct (os argv) as [ msg | msg | duration rc out err gone | msg ] eqn:Hos.
  - cbn [fst snd Runner.success Runner.returncode Runner.error_type Runner.command hd_error].
    repeat split; try discriminate.
    + intros [ H | [] ]. discriminate.
    + intros (? & ? & ? & ? & ? & H & _). discriminate.
  - cbn [fst snd Runner.success Runner.returncode Runner.error_type Runner.command hd_error].
    repeat split; try discriminate.
    + intros [ H | [] ]. discriminate.
    + intros (? & ? & ? & ? & ? & H & _). discriminate.
  - destruct (Runner.overruns duration timeout) eqn:Hover.
    + destruct gone;
        cbn [Runner.kill Runner.communicate_exited fst snd Runner.success Runner.returncode
             Runner.error_type Runner.command hd_error app];
        (repeat split; try discriminate;
         [ intros _; exists duration, rc, out, err; eexists; split; [ reflexivity | exact Hover ]
         | intros _; right; right; left; reflexivity ]).
    + cbn [fst snd Runner.success Runner.returncode Runner.error_type Runner.command hd_error].
      repeat split.
      * intros H. apply classify_error_success in H. subst rc. reflexivity.
      * intros [ H | [ H | [] ] ]; discriminate.
      * intros (d0 & ? & ? & ? & ? & H & Ho). injection H as <- _ _ _ _. congruence.
  - cbn [fst snd Runner.success Runner.returncode Runner.error_type Runner.command hd_error].
    repeat split; try discriminate.
    + intros [ H | [ H | [] ] ]; discriminate.
    + intros (? & ? & ? & ? & ? & H & _). discriminate.
Qed.
